(** * The restoration-phase controller of Ipopt
    (src/Algorithm/IpRestoMinC_1Nrm.cpp, class MinC_1NrmRestorationPhase)

    A shallow embedding of the member functions [InitializeImpl],
    [PerformRestoration] and [ComputeBoundMultiplierStep].  (RegisterOptions
    only declares three options and their defaults; here the defaults come
    with the options list.)

    Conventions of the embedding.
    - [Number] (a C++ double) is an exact rational ([Qc]): rounding,
      infinities and NaN are outside the model.
    - [Index] (a C++ int) is an integer ([Z]); what is said of the
      arithmetic on an [Index] is said of values within the range of an
      int ([Index_min], [Index_max]), where it is the arithmetic of the
      integers.
    - The member functions run in a monad [M] that threads the controller
      object and the outer algorithm's data ([World]) and ends in an
      [Outcome]: a normal return, a thrown exception (THROW_EXCEPTION), a
      failed debug assertion (DBG_ASSERT) or an invalid pointer dereference.
      What was written before a throw stays written, as in C++.
    - The collaborators the class only calls (the clock, the calculated
      quantities IpCq(), the recursive algorithm resto_alg_, the multiplier
      estimator) are variables of the section [Controller].
    - The classes the file only uses (vectors, iterates, IpoptData, the
      options list) are not among the sources; each of their operations is
      modelled from the specification and says so.
    - Output to the journal (Jnlst()) is left out. *)

From Stdlib Require Import QArith Qcanon.
From Stdlib Require Qcabs.
From stdpp Require Import base numbers option list strings gmap.

Local Open Scope Qc_scope.

Set Implicit Arguments.

(** ** Numbers *)

Abbreviation Number := Qc (only parsing).
Abbreviation Index := Z (only parsing).

(** Modelled from the spec: the type Index (IpTypes.hpp) is missing; it is
    a C++ int, of 32 bits. *)
Definition Index_min : Index := (- 2 ^ 31)%Z.
Definition Index_max : Index := (2 ^ 31 - 1)%Z.

(** The comparisons of the source, as boolean tests. *)
Definition Qcltb (a b : Number) : bool := bool_decide (a < b).
Definition Qcleb (a b : Number) : bool := bool_decide (a ≤ b).

(** The decimal constants the source writes, each the double its literal
    denotes: 1e20, 1e8, 1e3 and 1e2 are doubles; 1e-3 is not, and its
    literal is the nearest double, 1152921504606847 / 2^60. *)
Definition num_1e20 : Number := Qc_of_Z (10 ^ 20).
Definition num_1e8 : Number := Qc_of_Z (10 ^ 8).
Definition num_1e3 : Number := Qc_of_Z 1000.
Definition num_1e2 : Number := Qc_of_Z 100.
Definition num_1em3 : Number :=
  Q2Qc (1152921504606847 # 1152921504606846976).

(** ** Vectors *)

(** A vector of the original problem's space: its entries. *)
Abbreviation Vector := (list Number) (only parsing).

(** The vector primitives (class Vector, IpVector.hpp) are not among the
    sources: the specification has them as "dense/sparse vector and matrix
    primitives and their arithmetic", element-wise.  The receiver is the
    first argument and the updated receiver is the result.  The source only
    combines vectors of one dimension; [zip_with] stops at the shorter
    one. *)
Module Vec.

(** Modelled from the spec: Vector::Copy is missing.  y.Copy(x): y becomes
    x. *)
Definition Copy (y x : Vector) : Vector := x.

(** Modelled from the spec: Vector::Axpy is missing.  y.Axpy(alpha, x):
    y += alpha * x, element-wise. *)
Definition Axpy (y : Vector) (alpha : Number) (x : Vector) : Vector :=
  zip_with (λ yi xi, yi + alpha * xi) y x.

(** Modelled from the spec: Vector::ElementWiseMultiply is missing ("⊙ is
    element-wise multiplication").  y.ElementWiseMultiply(x): y_i *= x_i. *)
Definition ElementWiseMultiply (y x : Vector) : Vector :=
  zip_with (λ yi xi, yi * xi) y x.

(** Modelled from the spec: Vector::ElementWiseDivide is missing
    ("division is element-wise").  y.ElementWiseDivide(x): y_i /= x_i. *)
Definition ElementWiseDivide (y x : Vector) : Vector :=
  zip_with (λ yi xi, yi / xi) y x.

(** Modelled from the spec: Vector::AddScalar is missing.  y.AddScalar(c):
    y_i += c. *)
Definition AddScalar (y : Vector) (c : Number) : Vector :=
  (λ yi, yi + c) <$> y.

(** Modelled from the spec: Vector::Set is missing ("reset all bound
    multipliers uniformly to 1").  y.Set(c): y_i = c. *)
Definition SetAll (y : Vector) (c : Number) : Vector :=
  (λ _, c) <$> y.

(** Modelled from the spec: Max of IpUtils.hpp is missing ("the maximum
    entry across all four resulting multiplier vectors"). *)
Definition Max (a b : Number) : Number := if Qcltb b a then a else b.

(** Modelled from the spec: the four-argument Max of IpUtils.hpp is
    missing. *)
Definition Max4 (a b c d : Number) : Number := Max a (Max b (Max c d)).

(** Modelled from the spec: Vector::Amax is missing.  y.Amax(): the
    largest absolute value of an entry, 0 without entries. *)
Definition Amax (y : Vector) : Number :=
  foldr (λ e m, Max (Qcabs.Qcabs e) m) 0 y.

End Vec.

(** Modelled from the spec: class CompoundVector (IpCompoundVector.hpp) is
    missing.  A vector of "the augmented restoration space" has a "first
    sub-block, which lives in the original problem's coordinate space",
    and further blocks.  The vectors of a restoration iterate have this
    type, so the downcasts of the source (static_cast, checked by
    DBG_ASSERT(dynamic_cast)) hold by typing. *)
Record CompoundVector : Type := {
  first_comp : Vector;
  other_comps : list Vector
}.

(** Modelled from the spec: CompoundVector::GetComp is missing.
    c.GetComp(i) is block i; there is none past the last one. *)
Definition GetComp (c : CompoundVector) (i : nat) : option Vector :=
  (first_comp c :: other_comps c) !! i.

(** ** Iterates *)

(** Class IteratesVector (IpIteratesVector.hpp) is not among the sources:
    the specification has it as "primal vector, slack vector, equality
    multipliers, inequality multipliers, and four bound-multiplier
    vectors". *)
Module IteratesVector.

(** Modelled from the spec: the components of an iterate, over vectors of
    type [V]. *)
Record t (V : Type) : Type := mk {
  x : V; s : V; y_c : V; y_d : V;
  z_L : V; z_U : V; v_L : V; v_U : V
}.

(** Modelled from the spec: IteratesVector::MakeNewContainer is missing;
    it "supports constructing a new iterate container derived from an
    existing one".  A new container holds the components of the old one
    until they are set. *)
Definition MakeNewContainer {V} (it : t V) : t V := it.

(** Modelled from the spec: IteratesVector::Set_primal is missing; it sets
    the primal and the slack vector. *)
Definition Set_primal {V} (it : t V) (x' s' : V) : t V :=
  mk x' s' (y_c it) (y_d it) (z_L it) (z_U it) (v_L it) (v_U it).

(** Modelled from the spec: IteratesVector::Set_eq_mult is missing; it
    sets the equality and the inequality multipliers. *)
Definition Set_eq_mult {V} (it : t V) (y_c' y_d' : V) : t V :=
  mk (x it) (s it) y_c' y_d' (z_L it) (z_U it) (v_L it) (v_U it).

(** Modelled from the spec: IteratesVector::Set_bound_mult is missing; it
    sets the four bound multipliers. *)
Definition Set_bound_mult {V} (it : t V) (z_L' z_U' v_L' v_U' : V) : t V :=
  mk (x it) (s it) (y_c it) (y_d it) z_L' z_U' v_L' v_U'.

(** Modelled from the spec: IteratesVector::MakeNewIteratesVector and
    IteratesVector::Set are missing.  it.MakeNewIteratesVector(true)
    followed by Set(0.0), as in lines 370-371: fresh vectors of the
    dimensions of [it], every entry 0. *)
Definition MakeNewZero (it : t Vector) : t Vector :=
  mk (Vec.SetAll (x it) 0) (Vec.SetAll (s it) 0)
     (Vec.SetAll (y_c it) 0) (Vec.SetAll (y_d it) 0)
     (Vec.SetAll (z_L it) 0) (Vec.SetAll (z_U it) 0)
     (Vec.SetAll (v_L it) 0) (Vec.SetAll (v_U it) 0).

End IteratesVector.

(** ** The algorithm's data (IpData()) *)

(** Class IpoptData (IpIpoptData.hpp) is not among the sources; these are
    the members the file reads or writes. *)
Module IpoptData.

(** Modelled from the spec: the data of an algorithm over iterates with
    vectors of type [V]: "read/write access to an outer-algorithm
    iterate", the "current barrier parameter", the "current centering
    parameter", the "informational iteration-count and logging-continuity
    fields" and the "overall-algorithm start time (wall and CPU)". *)
Record t (V : Type) : Type := mk {
  curr : option (IteratesVector.t V);
  trial : option (IteratesVector.t V);
  iter_count : Index;
  curr_mu : Number;
  curr_tau : Number;
  tol : Number;
  info_regu_x : Number;
  info_alpha_primal : Number;
  info_alpha_primal_char : Ascii.ascii;
  info_alpha_dual : Number;
  info_ls_count : Index;
  info_iters_since_header : Index;
  info_last_output : Number;
  info_skip_output : bool;
  (** TimingStats().OverallAlgorithm() *)
  StartWallclockTime : Number;
  StartCpuTime : Number
}.

Section Setters.
Context {V : Type}.
Implicit Type d : t V.

(** The data with other iterates in the current and the trial slot. *)
Definition with_iterates d (c tr : option (IteratesVector.t V)) : t V :=
  mk c tr (iter_count d) (curr_mu d) (curr_tau d) (tol d)
     (info_regu_x d) (info_alpha_primal d) (info_alpha_primal_char d)
     (info_alpha_dual d) (info_ls_count d) (info_iters_since_header d)
     (info_last_output d) (info_skip_output d)
     (StartWallclockTime d) (StartCpuTime d).

(** Modelled from the spec: IpoptData::set_trial is missing; it installs
    an iterate "as the outer algorithm's trial point". *)
Definition set_trial d (tr : IteratesVector.t V) : t V :=
  with_iterates d (curr d) (Some tr).

(** Modelled from the spec: IpoptData::AcceptTrialPoint is missing; the
    trial point is "marked accepted": it becomes the current iterate and
    the trial slot is released. *)
Definition AcceptTrialPoint d : t V :=
  with_iterates d (trial d) None.

(** Modelled from the spec: IpoptData::Set_iter_count is missing; it
    writes the member of that name. *)
Definition Set_iter_count d (n : Index) : t V :=
  mk (curr d) (trial d) n (curr_mu d) (curr_tau d) (tol d)
     (info_regu_x d) (info_alpha_primal d) (info_alpha_primal_char d)
     (info_alpha_dual d) (info_ls_count d) (info_iters_since_header d)
     (info_last_output d) (info_skip_output d)
     (StartWallclockTime d) (StartCpuTime d).

(** Modelled from the spec: IpoptData::Set_info_regu_x is missing; it
    writes the member of that name. *)
Definition Set_info_regu_x d (v : Number) : t V :=
  mk (curr d) (trial d) (iter_count d) (curr_mu d) (curr_tau d) (tol d)
     v (info_alpha_primal d) (info_alpha_primal_char d)
     (info_alpha_dual d) (info_ls_count d) (info_iters_since_header d)
     (info_last_output d) (info_skip_output d)
     (StartWallclockTime d) (StartCpuTime d).

(** Modelled from the spec: IpoptData::Set_info_alpha_primal is missing; it
    writes the member of that name. *)
Definition Set_info_alpha_primal d (v : Number) : t V :=
  mk (curr d) (trial d) (iter_count d) (curr_mu d) (curr_tau d) (tol d)
     (info_regu_x d) v (info_alpha_primal_char d)
     (info_alpha_dual d) (info_ls_count d) (info_iters_since_header d)
     (info_last_output d) (info_skip_output d)
     (StartWallclockTime d) (StartCpuTime d).

(** Modelled from the spec: IpoptData::Set_info_alpha_primal_char is missing; it
    writes the member of that name. *)
Definition Set_info_alpha_primal_char d (c : Ascii.ascii) : t V :=
  mk (curr d) (trial d) (iter_count d) (curr_mu d) (curr_tau d) (tol d)
     (info_regu_x d) (info_alpha_primal d) c
     (info_alpha_dual d) (info_ls_count d) (info_iters_since_header d)
     (info_last_output d) (info_skip_output d)
     (StartWallclockTime d) (StartCpuTime d).

(** Modelled from the spec: IpoptData::Set_info_alpha_dual is missing; it
    writes the member of that name. *)
Definition Set_info_alpha_dual d (v : Number) : t V :=
  mk (curr d) (trial d) (iter_count d) (curr_mu d) (curr_tau d) (tol d)
     (info_regu_x d) (info_alpha_primal d) (info_alpha_primal_char d)
     v (info_ls_count d) (info_iters_since_header d)
     (info_last_output d) (info_skip_output d)
     (StartWallclockTime d) (StartCpuTime d).

(** Modelled from the spec: IpoptData::Set_info_ls_count is missing; it
    writes the member of that name. *)
Definition Set_info_ls_count d (n : Index) : t V :=
  mk (curr d) (trial d) (iter_count d) (curr_mu d) (curr_tau d) (tol d)
     (info_regu_x d) (info_alpha_primal d) (info_alpha_primal_char d)
     (info_alpha_dual d) n (info_iters_since_header d)
     (info_last_output d) (info_skip_output d)
     (StartWallclockTime d) (StartCpuTime d).

(** Modelled from the spec: IpoptData::Set_info_iters_since_header is missing; it
    writes the member of that name. *)
Definition Set_info_iters_since_header d (n : Index) : t V :=
  mk (curr d) (trial d) (iter_count d) (curr_mu d) (curr_tau d) (tol d)
     (info_regu_x d) (info_alpha_primal d) (info_alpha_primal_char d)
     (info_alpha_dual d) (info_ls_count d) n
     (info_last_output d) (info_skip_output d)
     (StartWallclockTime d) (StartCpuTime d).

(** Modelled from the spec: IpoptData::Set_info_last_output is missing; it
    writes the member of that name. *)
Definition Set_info_last_output d (v : Number) : t V :=
  mk (curr d) (trial d) (iter_count d) (curr_mu d) (curr_tau d) (tol d)
     (info_regu_x d) (info_alpha_primal d) (info_alpha_primal_char d)
     (info_alpha_dual d) (info_ls_count d) (info_iters_since_header d)
     v (info_skip_output d)
     (StartWallclockTime d) (StartCpuTime d).

(** Modelled from the spec: IpoptData::Set_info_skip_output is missing; it
    writes the member of that name. *)
Definition Set_info_skip_output d (b : bool) : t V :=
  mk (curr d) (trial d) (iter_count d) (curr_mu d) (curr_tau d) (tol d)
     (info_regu_x d) (info_alpha_primal d) (info_alpha_primal_char d)
     (info_alpha_dual d) (info_ls_count d) (info_iters_since_header d)
     (info_last_output d) b
     (StartWallclockTime d) (StartCpuTime d).

End Setters.

End IpoptData.

Unset Implicit Arguments.

(** ** Options *)

(** Modelled from the spec: class OptionsList (IpOptionsList.hpp) is
    missing.  It maps option names to the values set explicitly, by the
    user or by this class ("unless the user set it explicitly"), and knows
    the defaults of the registered options.  Boolean options are stored
    as the strings yes and no. *)
Record OptionsList : Type := {
  numeric_values : gmap string Number;
  string_values : gmap string string;
  (** the defaults of the registered options *)
  numeric_default : string → Number;
  bool_default : string → bool
}.

(** Modelled from the spec: the lookup of OptionsList is missing.  A
    lookup with a prefix prefers the prefixed name ("outer option set and
    its prefix scoping"). *)
Definition find_numeric (o : OptionsList) (tag prefix : string)
    : option Number :=
  match numeric_values o !! (prefix +:+ tag) with
  | Some v => Some v
  | None => numeric_values o !! tag
  end.

(** Modelled from the spec: as [find_numeric], for string values. *)
Definition find_string (o : OptionsList) (tag prefix : string)
    : option string :=
  match string_values o !! (prefix +:+ tag) with
  | Some v => Some v
  | None => string_values o !! tag
  end.

(** Modelled from the spec: OptionsList::GetNumericValue is missing.
    o.GetNumericValue(tag, value, prefix) gives (found, value): whether a
    value was set explicitly, and that value or else the default. *)
Definition GetNumericValue (o : OptionsList) (tag prefix : string)
    : bool * Number :=
  match find_numeric o tag prefix with
  | Some v => (true, v)
  | None => (false, numeric_default o tag)
  end.

(** Modelled from the spec: OptionsList::GetBoolValue is missing; as
    [GetNumericValue], for an option that is yes or no. *)
Definition GetBoolValue (o : OptionsList) (tag prefix : string)
    : bool * bool :=
  match find_string o tag prefix with
  | Some v => (true, bool_decide (v = "yes"))
  | None => (false, bool_default o tag)
  end.

(** Modelled from the spec: OptionsList::SetNumericValue is missing; it
    sets the value of the name ("forces"). *)
Definition SetNumericValue (o : OptionsList) (tag : string) (v : Number)
    : OptionsList :=
  {| numeric_values := <[tag := v]> (numeric_values o);
     string_values := string_values o;
     numeric_default := numeric_default o;
     bool_default := bool_default o |}.

(** Modelled from the spec: OptionsList::SetStringValue is missing; it
    sets the value of the name. *)
Definition SetStringValue (o : OptionsList) (tag : string) (v : string)
    : OptionsList :=
  {| numeric_values := numeric_values o;
     string_values := <[tag := v]> (string_values o);
     numeric_default := numeric_default o;
     bool_default := bool_default o |}.

(** Modelled from the spec: OptionsList::SetNumericValueIfUnset is missing;
    by its name the value is set only when the list holds none for the
    name (the specification says "forces", which is [SetNumericValue]). *)
Definition SetNumericValueIfUnset (o : OptionsList) (tag : string)
    (v : Number) : OptionsList :=
  if (GetNumericValue o tag "").1 then o else SetNumericValue o tag v.

(** Modelled from the spec: OptionsList::SetStringValueIfUnset is missing;
    as [SetNumericValueIfUnset]. *)
Definition SetStringValueIfUnset (o : OptionsList) (tag : string)
    (v : string) : OptionsList :=
  match find_string o tag "" with
  | Some _ => o
  | None => SetStringValue o tag v
  end.

(** ** Statuses and exceptions *)

(** Modelled from the spec: the enumeration SolverReturn (IpAlgTypes.hpp)
    is missing.  These are the ten terminal statuses the dispatch of
    [PerformRestoration] names, and [OTHER_STATUS] stands for "any other
    status" of the enumeration. *)
Inductive SolverReturn : Type :=
| SUCCESS
| MAXITER_EXCEEDED
| CPUTIME_EXCEEDED
| WALLTIME_EXCEEDED
| STOP_AT_TINY_STEP
| STOP_AT_ACCEPTABLE_POINT
| LOCAL_INFEASIBILITY
| USER_REQUESTED_STOP
| RESTORATION_FAILURE
| ERROR_IN_STEP_COMPUTATION
| OTHER_STATUS (tag : nat).

#[global] Instance SolverReturn_eq_dec : EqDecision SolverReturn.
Proof. solve_decision. Defined.

(** The exception types this file throws (declared by DECLARE_STD_EXCEPTION
    outside the sources). *)
Inductive IpoptException : Type :=
| RESTORATION_WALLTIME_EXCEEDED
| RESTORATION_CPUTIME_EXCEEDED
| FEASIBILITY_PROBLEM_SOLVED
| RESTORATION_CONVERGED_TO_FEASIBLE_POINT
| LOCALLY_INFEASIBLE
| RESTORATION_MAXITER_EXCEEDED
| RESTORATION_FAILED
| RESTORATION_USER_STOP.

#[global] Instance IpoptException_eq_dec : EqDecision IpoptException.
Proof. solve_decision. Defined.

(** Modelled from the spec: the enumeration ENormType is missing; the file
    only asks for the max-norm. *)
Inductive ENormType : Type := NORM_1 | NORM_2 | NORM_MAX.

(** ** The controller object and the world it runs in *)

(** The data members of MinC_1NrmRestorationPhase. *)
Record MinC_1NrmRestorationPhase : Type := {
  resto_options_ : OptionsList;
  constr_mult_reset_threshold_ : Number;
  bound_mult_reset_threshold_ : Number;
  expect_infeasible_problem_ : bool;
  constr_viol_tol_ : Number;
  max_wall_time_ : Number;
  max_cpu_time_ : Number;
  resto_failure_feasibility_threshold_ : Number;
  count_restorations_ : Index
}.

(** A call on the recursive algorithm resto_alg_, as the log keeps it. *)
Inductive AlgCall : Type :=
| CallInitialize (options : OptionsList) (prefix : string)
| CallOptimize (isResto : bool).

(** What a member function reads and writes: the object itself, the outer
    algorithm's data IpData(), and a log of the calls made on resto_alg_
    (the newest call last). *)
Record World : Type := {
  self : MinC_1NrmRestorationPhase;
  IpData : IpoptData.t Vector;
  resto_alg_calls : list AlgCall
}.

Definition with_self (w : World) (c : MinC_1NrmRestorationPhase) : World :=
  {| self := c; IpData := IpData w; resto_alg_calls := resto_alg_calls w |}.

Definition with_IpData (w : World) (d : IpoptData.t Vector) : World :=
  {| self := self w; IpData := d; resto_alg_calls := resto_alg_calls w |}.

Definition with_call (w : World) (c : AlgCall) : World :=
  {| self := self w; IpData := IpData w;
     resto_alg_calls := resto_alg_calls w ++ [c] |}.

Definition with_resto_options (c : MinC_1NrmRestorationPhase)
    (o : OptionsList) : MinC_1NrmRestorationPhase :=
  {| resto_options_ := o;
     constr_mult_reset_threshold_ := constr_mult_reset_threshold_ c;
     bound_mult_reset_threshold_ := bound_mult_reset_threshold_ c;
     expect_infeasible_problem_ := expect_infeasible_problem_ c;
     constr_viol_tol_ := constr_viol_tol_ c;
     max_wall_time_ := max_wall_time_ c;
     max_cpu_time_ := max_cpu_time_ c;
     resto_failure_feasibility_threshold_ :=
       resto_failure_feasibility_threshold_ c;
     count_restorations_ := count_restorations_ c |}.

Definition with_count_restorations (c : MinC_1NrmRestorationPhase)
    (n : Index) : MinC_1NrmRestorationPhase :=
  {| resto_options_ := resto_options_ c;
     constr_mult_reset_threshold_ := constr_mult_reset_threshold_ c;
     bound_mult_reset_threshold_ := bound_mult_reset_threshold_ c;
     expect_infeasible_problem_ := expect_infeasible_problem_ c;
     constr_viol_tol_ := constr_viol_tol_ c;
     max_wall_time_ := max_wall_time_ c;
     max_cpu_time_ := max_cpu_time_ c;
     resto_failure_feasibility_threshold_ :=
       resto_failure_feasibility_threshold_ c;
     count_restorations_ := n |}.

(** ** The monad of the member functions *)

Inductive Outcome (A : Type) : Type :=
| Returns (a : A)
| Throws (e : IpoptException)
| AssertionFailed
| InvalidPointer.
Arguments Returns {A} a.
Arguments Throws {A} e.
Arguments AssertionFailed {A}.
Arguments InvalidPointer {A}.

Definition M (A : Type) : Type := World → Outcome A * World.

#[global] Instance M_ret : MRet M := λ A a w, (Returns a, w).

#[global] Instance M_bind : MBind M := λ A B f m w,
  match m w with
  | (Returns a, w') => f a w'
  | (Throws e, w') => (Throws e, w')
  | (AssertionFailed, w') => (AssertionFailed, w')
  | (InvalidPointer, w') => (InvalidPointer, w')
  end.

Definition get_world : M World := λ w, (Returns w, w).
Definition put_self (c : MinC_1NrmRestorationPhase) : M unit :=
  λ w, (Returns (), with_self w c).
Definition put_IpData (d : IpoptData.t Vector) : M unit :=
  λ w, (Returns (), with_IpData w d).
Definition log_call (c : AlgCall) : M unit :=
  λ w, (Returns (), with_call w c).

(** THROW_EXCEPTION(e, msg) *)
Definition THROW_EXCEPTION {A} (e : IpoptException) : M A :=
  λ w, (Throws e, w).

(** p->member on a SmartPtr p: defined only when IsValid(p). *)
Definition deref {A} (p : option A) : M A :=
  λ w, match p with Some a => (Returns a, w) | None => (InvalidPointer, w) end.

(** ** The collaborators *)

(** The calculated quantities IpCq() the class reads: each is a function of
    the outer algorithm's data at the moment of the call.  (The class
    IpoptCalculatedQuantities is not among the sources.) *)
Record IpoptCalculatedQuantities : Type := {
  curr_constraint_violation : IpoptData.t Vector → Number;
  IsSquareProblem : bool;
  unscaled_curr_nlp_constraint_violation :
    ENormType → IpoptData.t Vector → Number;
  curr_primal_infeasibility : ENormType → IpoptData.t Vector → Number;
  curr_slack_x_L : IpoptData.t Vector → Vector;
  curr_slack_x_U : IpoptData.t Vector → Vector;
  curr_slack_s_L : IpoptData.t Vector → Vector;
  curr_slack_s_U : IpoptData.t Vector → Vector;
  trial_slack_x_L : IpoptData.t Vector → Vector;
  trial_slack_x_U : IpoptData.t Vector → Vector;
  trial_slack_s_L : IpoptData.t Vector → Vector;
  trial_slack_s_U : IpoptData.t Vector → Vector;
  dual_frac_to_the_bound :
    Number → Vector → Vector → Vector → Vector → IpoptData.t Vector → Number
}.

Section Controller.

(** The build's IPOPT_CHECKLEVEL: DBG_ASSERT checks its test only when it is
    positive (IpDebug.hpp is not among the sources). *)
Variable IPOPT_CHECKLEVEL : nat.

(** What WallclockTime() and CpuTime() read during the call. *)
Variable WallclockTime : Number.
Variable CpuTime : Number.

Variable IpCq : IpoptCalculatedQuantities.

(** new IpoptData(NULL): the data context of the restoration problem. *)
Variable new_IpoptData : IpoptData.t CompoundVector.

(** resto_alg_->Initialize(jnlst, resto_ip_nlp, resto_ip_data, resto_ip_cq,
    options, prefix), where the restoration NLP wraps IpNLP(), IpData() and
    IpCq(): the initialised restoration data. *)
Variable resto_alg_Initialize :
  OptionsList → string → IpoptData.t Vector →
  IpoptData.t CompoundVector → IpoptData.t CompoundVector.

(** resto_alg_->Optimize(isResto) after that initialisation: the terminal
    status, the restoration data it leaves and the outer data it leaves
    (the restoration NLP holds IpData() and may write to it). *)
Variable resto_alg_Optimize :
  bool → OptionsList → IpoptData.t Vector → IpoptData.t CompoundVector →
  SolverReturn * IpoptData.t CompoundVector * IpoptData.t Vector.

(** DefaultIterateInitializer::least_square_mults(jnlst, IpNLP(), IpData(),
    IpCq(), eq_mult_calculator_, constr_mult_reset_threshold_). *)
Variable least_square_mults :
  Number → IpoptData.t Vector → IpoptData.t Vector.

(** eq_mult_calculator_->Initialize(...), when IsValid(eq_mult_calculator_). *)
Variable eq_mult_calculator_Initialize :
  option (OptionsList → string → bool).

(** Modelled from the spec: the macro DBG_ASSERT (IpDebug.hpp) is missing.
    It is a debug check: a failed test is "a precondition error, not a
    normal return" in a build that checks, and nothing otherwise. *)
Definition DBG_ASSERT (test : bool) : M unit :=
  λ w, if (0 <? IPOPT_CHECKLEVEL)%nat && negb test
       then (AssertionFailed, w) else (Returns (), w).

(** *** InitializeImpl (lines 63-107) *)

Definition InitializeImpl (options : OptionsList) (prefix : string)
    : M bool :=
  w ← get_world;
  let resto_options := options in
  let constr_mult_reset_threshold :=
    (GetNumericValue options "constr_mult_reset_threshold" prefix).2 in
  let bound_mult_reset_threshold :=
    (GetNumericValue options "bound_mult_reset_threshold" prefix).2 in
  let expect_infeasible_problem :=
    (GetBoolValue options "expect_infeasible_problem" prefix).2 in
  let constr_viol_tol :=
    (GetNumericValue options "constr_viol_tol" prefix).2 in
  let max_wall_time := (GetNumericValue options "max_wall_time" prefix).2 in
  let max_cpu_time := (GetNumericValue options "max_cpu_time" prefix).2 in
  let resto_options :=
    SetStringValue resto_options "resto.start_with_resto" "no" in
  let resto_options :=
    if negb (GetNumericValue options "resto.theta_max_fact" "").1
    then SetNumericValue resto_options "resto.theta_max_fact" num_1e8
    else resto_options in
  let resto_failure_feasibility_threshold :=
    if negb (GetNumericValue options
               "resto_failure_feasibility_threshold" prefix).1
    then num_1e2 * IpoptData.tol (IpData w)
    else (GetNumericValue options
            "resto_failure_feasibility_threshold" prefix).2 in
  put_self {|
    resto_options_ := resto_options;
    constr_mult_reset_threshold_ := constr_mult_reset_threshold;
    bound_mult_reset_threshold_ := bound_mult_reset_threshold;
    expect_infeasible_problem_ := expect_infeasible_problem;
    constr_viol_tol_ := constr_viol_tol;
    max_wall_time_ := max_wall_time;
    max_cpu_time_ := max_cpu_time;
    resto_failure_feasibility_threshold_ :=
      resto_failure_feasibility_threshold;
    count_restorations_ := 0%Z |};;
  let retvalue :=
    match eq_mult_calculator_Initialize with
    | Some initialize => initialize options prefix
    | None => true
    end in
  mret retvalue.

(** *** ComputeBoundMultiplierStep (lines 430-445); [d] is IpData() *)

Definition ComputeBoundMultiplierStep (d : IpoptData.t Vector)
    (delta_z curr_z curr_slack trial_slack : Vector) : Vector :=
  let mu := IpoptData.curr_mu d in
  let delta_z := Vec.Copy delta_z curr_slack in
  let delta_z := Vec.Axpy delta_z (-1) trial_slack in
  let delta_z := Vec.ElementWiseMultiply delta_z curr_z in
  let delta_z := Vec.AddScalar delta_z mu in
  let delta_z := Vec.ElementWiseDivide delta_z curr_slack in
  let delta_z := Vec.Axpy delta_z (-1) curr_z in
  delta_z.

(** *** PerformRestoration (lines 109-428), block by block *)

(** Lines 127-149: the time limits of the restoration phase. *)
Definition resto_time_limits : M unit :=
  w ← get_world;
  (if Qcltb (max_wall_time_ (self w)) num_1e20 then
     let elapsed :=
       WallclockTime - IpoptData.StartWallclockTime (IpData w) in
     DBG_ASSERT (Qcleb 0 elapsed);;
     (if Qcleb (max_wall_time_ (self w)) elapsed
      then THROW_EXCEPTION RESTORATION_WALLTIME_EXCEEDED
      else mret ());;
     put_self (with_resto_options (self w)
       (SetNumericValue (resto_options_ (self w)) "resto.max_wall_time"
          (max_wall_time_ (self w) - elapsed)))
   else mret ());;
  w ← get_world;
  (if Qcltb (max_cpu_time_ (self w)) num_1e20 then
     let elapsed := CpuTime - IpoptData.StartCpuTime (IpData w) in
     DBG_ASSERT (Qcleb 0 elapsed);;
     (if Qcleb (max_cpu_time_ (self w)) elapsed
      then THROW_EXCEPTION RESTORATION_CPUTIME_EXCEEDED
      else mret ());;
     put_self (with_resto_options (self w)
       (SetNumericValue (resto_options_ (self w)) "resto.max_cpu_time"
          (max_cpu_time_ (self w) - elapsed)))
   else mret ()).

(** Lines 154-175: the options the restoration algorithm is given. *)
Definition actual_resto_options (square_problem : bool) : M OptionsList :=
  w ← get_world;
  let actual_resto_options := resto_options_ (self w) in
  if square_problem then
    let actual_resto_options := resto_options_ (self w) in
    mret (SetNumericValueIfUnset actual_resto_options
            "required_infeasibility_reduction" 0)
  else if expect_infeasible_problem_ (self w) then
    let actual_resto_options := resto_options_ (self w) in
    let actual_resto_options :=
      SetStringValueIfUnset actual_resto_options
        "resto.expect_infeasible_problem" "no" in
    if bool_decide (count_restorations_ (self w) = 1%Z)
       && Qcltb num_1em3 (curr_constraint_violation IpCq (IpData w))
    then mret (SetNumericValueIfUnset actual_resto_options
                 "required_infeasibility_reduction" num_1em3)
    else mret actual_resto_options
  else mret actual_resto_options.

(** Lines 123-125 and 177-192: the restoration problem is set up and
    solved. *)
Definition solve_resto_problem (actual_resto_options : OptionsList)
    : M (SolverReturn * IpoptData.t CompoundVector) :=
  w ← get_world;
  let resto_ip_data := new_IpoptData in
  log_call (CallInitialize actual_resto_options "resto.");;
  let resto_ip_data :=
    resto_alg_Initialize actual_resto_options "resto." (IpData w)
      resto_ip_data in
  let d := IpData w in
  let resto_ip_data :=
    IpoptData.Set_iter_count resto_ip_data (IpoptData.iter_count d + 1)%Z in
  let resto_ip_data :=
    IpoptData.Set_info_regu_x resto_ip_data (IpoptData.info_regu_x d) in
  let resto_ip_data :=
    IpoptData.Set_info_alpha_primal resto_ip_data
      (IpoptData.info_alpha_primal d) in
  let resto_ip_data :=
    IpoptData.Set_info_alpha_primal_char resto_ip_data
      (IpoptData.info_alpha_primal_char d) in
  let resto_ip_data :=
    IpoptData.Set_info_alpha_dual resto_ip_data
      (IpoptData.info_alpha_dual d) in
  let resto_ip_data :=
    IpoptData.Set_info_ls_count resto_ip_data (IpoptData.info_ls_count d) in
  let resto_ip_data :=
    IpoptData.Set_info_iters_since_header resto_ip_data
      (IpoptData.info_iters_since_header d) in
  let resto_ip_data :=
    IpoptData.Set_info_last_output resto_ip_data
      (IpoptData.info_last_output d) in
  log_call (CallOptimize true);;
  let '(resto_status, resto_ip_data, d') :=
    resto_alg_Optimize true actual_resto_options d resto_ip_data in
  put_IpData d';;
  mret (resto_status, resto_ip_data).

(** Lines 196-247: in case of a failure the primal and dual variables of
    the restoration iterate are still copied into the data of the regular
    NLP. *)
Definition copy_resto_curr_on_failure (resto_status : SolverReturn)
    (resto_ip_data : IpoptData.t CompoundVector) : M unit :=
  if bool_decide (resto_status ≠ SUCCESS) then
    match IpoptData.curr resto_ip_data with
    | Some resto_curr =>
        w ← get_world;
        trial ← deref (IpoptData.trial (IpData w));
        let trial := IteratesVector.MakeNewContainer trial in
        cx ← deref (GetComp (IteratesVector.x resto_curr) 0);
        cs ← deref (GetComp (IteratesVector.s resto_curr) 0);
        cy_c ← deref (GetComp (IteratesVector.y_c resto_curr) 0);
        cy_d ← deref (GetComp (IteratesVector.y_d resto_curr) 0);
        cz_L ← deref (GetComp (IteratesVector.z_L resto_curr) 0);
        cz_U ← deref (GetComp (IteratesVector.z_U resto_curr) 0);
        cv_L ← deref (GetComp (IteratesVector.v_L resto_curr) 0);
        cv_U ← deref (GetComp (IteratesVector.v_U resto_curr) 0);
        let trial := IteratesVector.Set_primal trial cx cs in
        let trial := IteratesVector.Set_eq_mult trial cy_c cy_d in
        let trial :=
          IteratesVector.Set_bound_mult trial cz_L cz_U cv_L cv_U in
        put_IpData (IpoptData.set_trial (IpData w) trial);;
        w ← get_world;
        put_IpData (IpoptData.AcceptTrialPoint (IpData w))
    | None => mret ()
    end
  else mret ().

(** Lines 194 and 249-332: the dispatch on the terminal status; the result
    is retval. *)
Definition classify_resto_status (square_problem : bool)
    (resto_status : SolverReturn) : M Z :=
  w ← get_world;
  if bool_decide (resto_status = SUCCESS) then
    mret 0%Z
  else if square_problem
          && bool_decide (resto_status = STOP_AT_ACCEPTABLE_POINT)
          && Qcltb (unscaled_curr_nlp_constraint_violation IpCq NORM_MAX
                      (IpData w))
                   (constr_viol_tol_ (self w)) then
    THROW_EXCEPTION FEASIBILITY_PROBLEM_SOLVED
  else if bool_decide (resto_status = STOP_AT_TINY_STEP)
          || bool_decide (resto_status = STOP_AT_ACCEPTABLE_POINT) then
    let orig_primal_inf :=
      curr_primal_infeasibility IpCq NORM_MAX (IpData w) in
    if Qcleb orig_primal_inf (resto_failure_feasibility_threshold_ (self w))
    then THROW_EXCEPTION RESTORATION_CONVERGED_TO_FEASIBLE_POINT
    else THROW_EXCEPTION LOCALLY_INFEASIBLE
  else if bool_decide (resto_status = MAXITER_EXCEEDED) then
    THROW_EXCEPTION RESTORATION_MAXITER_EXCEEDED
  else if bool_decide (resto_status = CPUTIME_EXCEEDED) then
    THROW_EXCEPTION RESTORATION_CPUTIME_EXCEEDED
  else if bool_decide (resto_status = WALLTIME_EXCEEDED) then
    THROW_EXCEPTION RESTORATION_WALLTIME_EXCEEDED
  else if bool_decide (resto_status = LOCAL_INFEASIBILITY) then
    THROW_EXCEPTION LOCALLY_INFEASIBLE
  else if bool_decide (resto_status = RESTORATION_FAILURE) then
    THROW_EXCEPTION RESTORATION_FAILED
  else if bool_decide (resto_status = ERROR_IN_STEP_COMPUTATION) then
    THROW_EXCEPTION RESTORATION_FAILED
  else if bool_decide (resto_status = USER_REQUESTED_STOP) then
    THROW_EXCEPTION RESTORATION_USER_STOP
  else
    mret 1%Z.

(** Modelled from the spec: IpData().SetTrialBoundMultipliersFromStep is
    not among the sources; it is to "apply trial_z = curr_z + alpha_dual *
    delta_z for all four families" in a new container of the trial
    iterate. *)
Definition SetTrialBoundMultipliersFromStep (alpha : Number)
    (delta_z_L delta_z_U delta_v_L delta_v_U : Vector) : M unit :=
  w ← get_world;
  trial ← deref (IpoptData.trial (IpData w));
  curr ← deref (IpoptData.curr (IpData w));
  let newvec := IteratesVector.MakeNewContainer trial in
  let newvec :=
    IteratesVector.Set_bound_mult newvec
      (Vec.Axpy (IteratesVector.z_L curr) alpha delta_z_L)
      (Vec.Axpy (IteratesVector.z_U curr) alpha delta_z_U)
      (Vec.Axpy (IteratesVector.v_L curr) alpha delta_v_L)
      (Vec.Axpy (IteratesVector.v_U curr) alpha delta_v_U) in
  put_IpData (IpoptData.set_trial (IpData w) newvec).

(** Lines 366-411: the bound multipliers are updated as if the progress of
    the restoration phase were one primal-dual Newton step, and reset when
    they come out too large. *)
Definition update_bound_multipliers : M unit :=
  w ← get_world;
  let d := IpData w in
  curr ← deref (IpoptData.curr d);
  let delta := IteratesVector.MakeNewZero curr in
  let delta_z_L :=
    ComputeBoundMultiplierStep d (IteratesVector.z_L delta)
      (IteratesVector.z_L curr) (curr_slack_x_L IpCq d)
      (trial_slack_x_L IpCq d) in
  let delta_z_U :=
    ComputeBoundMultiplierStep d (IteratesVector.z_U delta)
      (IteratesVector.z_U curr) (curr_slack_x_U IpCq d)
      (trial_slack_x_U IpCq d) in
  let delta_v_L :=
    ComputeBoundMultiplierStep d (IteratesVector.v_L delta)
      (IteratesVector.v_L curr) (curr_slack_s_L IpCq d)
      (trial_slack_s_L IpCq d) in
  let delta_v_U :=
    ComputeBoundMultiplierStep d (IteratesVector.v_U delta)
      (IteratesVector.v_U curr) (curr_slack_s_U IpCq d)
      (trial_slack_s_U IpCq d) in
  let alpha_dual :=
    dual_frac_to_the_bound IpCq (IpoptData.curr_tau d)
      delta_z_L delta_z_U delta_v_L delta_v_U d in
  SetTrialBoundMultipliersFromStep alpha_dual
    delta_z_L delta_z_U delta_v_L delta_v_U;;
  w ← get_world;
  trial ← deref (IpoptData.trial (IpData w));
  let bound_mult_max :=
    Vec.Max4 (Vec.Amax (IteratesVector.z_L trial))
             (Vec.Amax (IteratesVector.z_U trial))
             (Vec.Amax (IteratesVector.v_L trial))
             (Vec.Amax (IteratesVector.v_U trial)) in
  if Qcltb (bound_mult_reset_threshold_ (self w)) bound_mult_max then
    let trial := IteratesVector.MakeNewContainer trial in
    let trial :=
      IteratesVector.Set_bound_mult trial
        (Vec.SetAll (IteratesVector.z_L trial) 1)
        (Vec.SetAll (IteratesVector.z_U trial) 1)
        (Vec.SetAll (IteratesVector.v_L trial) 1)
        (Vec.SetAll (IteratesVector.v_U trial) 1) in
    put_IpData (IpoptData.set_trial (IpData w) trial)
  else mret ().

(** Lines 334-425: the results of a successful restoration phase are copied
    into the trial fields. *)
Definition take_over_resto_result (square_problem : bool)
    (resto_ip_data : IpoptData.t CompoundVector) : M unit :=
  resto_curr ← deref (IpoptData.curr resto_ip_data);
  w ← get_world;
  trial ← deref (IpoptData.trial (IpData w));
  let trial := IteratesVector.MakeNewContainer trial in
  cx ← deref (GetComp (IteratesVector.x resto_curr) 0);
  cs ← deref (GetComp (IteratesVector.s resto_curr) 0);
  let trial := IteratesVector.Set_primal trial cx cs in
  put_IpData (IpoptData.set_trial (IpData w) trial);;
  (if square_problem then
     w ← get_world;
     let constr_viol :=
       unscaled_curr_nlp_constraint_violation IpCq NORM_MAX (IpData w) in
     if Qcleb constr_viol (constr_viol_tol_ (self w)) then
       put_IpData (IpoptData.AcceptTrialPoint (IpData w));;
       THROW_EXCEPTION FEASIBILITY_PROBLEM_SOLVED
     else mret ()
   else mret ());;
  update_bound_multipliers;;
  w ← get_world;
  put_IpData
    (least_square_mults (constr_mult_reset_threshold_ (self w)) (IpData w));;
  w ← get_world;
  put_IpData (IpoptData.Set_iter_count (IpData w)
                (IpoptData.iter_count resto_ip_data - 1)%Z);;
  w ← get_world;
  put_IpData (IpoptData.Set_info_skip_output (IpData w) true);;
  w ← get_world;
  put_IpData (IpoptData.Set_info_iters_since_header (IpData w)
                (IpoptData.info_iters_since_header resto_ip_data));;
  w ← get_world;
  put_IpData (IpoptData.Set_info_last_output (IpData w)
                (IpoptData.info_last_output resto_ip_data)).

(** Lines 114-175: what happens before the restoration problem is solved;
    the result is square_problem with the options for the algorithm. *)
Definition enter_restoration : M (bool * OptionsList) :=
  w ← get_world;
  put_self (with_count_restorations (self w)
              (count_restorations_ (self w) + 1)%Z);;
  w ← get_world;
  DBG_ASSERT (Qcltb 0 (curr_constraint_violation IpCq (IpData w)));;
  resto_time_limits;;
  let square_problem := IsSquareProblem IpCq in
  actual_resto_options ← actual_resto_options square_problem;
  mret (square_problem, actual_resto_options).

Definition PerformRestoration : M bool :=
  '(square_problem, actual_resto_options) ← enter_restoration;
  '(resto_status, resto_ip_data) ← solve_resto_problem actual_resto_options;
  copy_resto_curr_on_failure resto_status resto_ip_data;;
  retval ← classify_resto_status square_problem resto_status;
  (if bool_decide (retval = 0%Z)
   then take_over_resto_result square_problem resto_ip_data
   else mret ());;
  mret (bool_decide (retval = 0%Z)).

End Controller.

(** ** Notions the statements use *)

(** The original-space blocks of a restoration iterate: component 0 of
    each of its eight vectors. *)
Definition first_blocks (resto_curr : IteratesVector.t CompoundVector)
    : IteratesVector.t Vector :=
  IteratesVector.mk
    (first_comp (IteratesVector.x resto_curr))
    (first_comp (IteratesVector.s resto_curr))
    (first_comp (IteratesVector.y_c resto_curr))
    (first_comp (IteratesVector.y_d resto_curr))
    (first_comp (IteratesVector.z_L resto_curr))
    (first_comp (IteratesVector.z_U resto_curr))
    (first_comp (IteratesVector.v_L resto_curr))
    (first_comp (IteratesVector.v_U resto_curr)).

(** The world in which the call counter has been advanced (line 115). *)
Definition counted (w : World) : World :=
  with_self w (with_count_restorations (self w)
                 (count_restorations_ (self w) + 1)%Z).

(** A computation keeps a relation between the world before and after. *)
Definition keeps (R : World → World → Prop) {A} (m : M A) : Prop :=
  ∀ w, R w (m w).2.

(** The settings read at initialisation: every data member of the object
    but the stored options and the call counter. *)
Definition same_settings (w w' : World) : Prop :=
  constr_mult_reset_threshold_ (self w') = constr_mult_reset_threshold_ (self w)
  ∧ bound_mult_reset_threshold_ (self w') = bound_mult_reset_threshold_ (self w)
  ∧ expect_infeasible_problem_ (self w') = expect_infeasible_problem_ (self w)
  ∧ constr_viol_tol_ (self w') = constr_viol_tol_ (self w)
  ∧ max_wall_time_ (self w') = max_wall_time_ (self w)
  ∧ max_cpu_time_ (self w') = max_cpu_time_ (self w)
  ∧ resto_failure_feasibility_threshold_ (self w')
    = resto_failure_feasibility_threshold_ (self w).

(** The object itself (and so the log of calls too) is left alone. *)
Definition same_object (w w' : World) : Prop :=
  self w' = self w ∧ resto_alg_calls w' = resto_alg_calls w.

(** ** A concrete scenario

    Stubs and data to run the member functions on: an outer iterate with
    two bounded variables and one slack, and a restoration algorithm that
    answers with a given status and current iterate. *)

Module Scenario.

Definition q (n : Z) (d : positive) : Number := Q2Qc (n # d).

(** The user sets the tolerances; everything else is at its default. *)
Definition options (user_numeric : gmap string Number) : OptionsList :=
  {| numeric_values := user_numeric;
     string_values := ∅;
     numeric_default := λ tag,
       if bool_decide (tag = "bound_mult_reset_threshold") then num_1e3
       else if bool_decide (tag = "max_wall_time") then num_1e20
       else if bool_decide (tag = "max_cpu_time") then num_1e20
       else 0;
     bool_default := λ _, false |}.

Definition user_tolerances : gmap string Number :=
  <["constr_viol_tol" := q 1 1000000]> ∅.

Definition iterate : IteratesVector.t Vector :=
  IteratesVector.mk [q 1 1; q 2 1] [q 1 1] [0] [0]
    [q 1 1; q 3 1] [q 1 2] [q 2 1] [q 1 1].

Definition data : IpoptData.t Vector :=
  IpoptData.mk (Some iterate) (Some iterate) 7%Z (q 1 10) (q 99 100)
    (q 1 100000000) 0 1 (Ascii.ascii_of_nat 102) 1 1%Z 3%Z 0 false 0 0.

Definition block (v : Vector) : CompoundVector :=
  {| first_comp := v; other_comps := [[0]; [0]] |}.

Definition resto_iterate : IteratesVector.t CompoundVector :=
  IteratesVector.mk (block [q 3 1; q 4 1]) (block [q 5 1])
    (block [q 6 1]) (block [q 7 1])
    (block [q 8 1; q 9 1]) (block [q 10 1])
    (block [q 11 1]) (block [q 12 1]).

Definition resto_data (resto_curr : option (IteratesVector.t CompoundVector))
    : IpoptData.t CompoundVector :=
  IpoptData.mk resto_curr None 12%Z (q 1 10) (q 99 100)
    (q 1 100000000) 0 1 (Ascii.ascii_of_nat 114) 1 1%Z 5%Z 0 false 0 0.

(** Calculated quantities: a square or non-square problem whose three
    infeasibility measures all have the value [viol], whose slacks are
    vectors of ones moved to [trial_slack], and whose dual step size is 1. *)
Definition cq (square : bool) (viol : Number) (trial_slack : Number)
    : IpoptCalculatedQuantities :=
  {| curr_constraint_violation := λ _, viol;
     IsSquareProblem := square;
     unscaled_curr_nlp_constraint_violation := λ _ _, viol;
     curr_primal_infeasibility := λ _ _, viol;
     curr_slack_x_L := λ _, [1; 1];
     curr_slack_x_U := λ _, [1];
     curr_slack_s_L := λ _, [1];
     curr_slack_s_U := λ _, [1];
     trial_slack_x_L := λ _, [trial_slack; trial_slack];
     trial_slack_x_U := λ _, [trial_slack];
     trial_slack_s_L := λ _, [trial_slack];
     trial_slack_s_U := λ _, [trial_slack];
     dual_frac_to_the_bound := λ _ _ _ _ _ _, 1 |}.

Definition alg_Initialize (o : OptionsList) (prefix : string)
    (d : IpoptData.t Vector) (rd : IpoptData.t CompoundVector)
    : IpoptData.t CompoundVector := rd.

(** A restoration algorithm that stops at once with [status], leaving
    [resto_curr] as its current iterate and the outer data untouched. *)
Definition alg_Optimize (status : SolverReturn)
    (resto_curr : option (IteratesVector.t CompoundVector))
    (isResto : bool) (o : OptionsList) (d : IpoptData.t Vector)
    (rd : IpoptData.t CompoundVector)
    : SolverReturn * IpoptData.t CompoundVector * IpoptData.t Vector :=
  (status,
   IpoptData.with_iterates rd resto_curr (IpoptData.trial rd),
   d).

(** A multiplier estimator that leaves the trial iterate as it is. *)
Definition estimator (threshold : Number) (d : IpoptData.t Vector)
    : IpoptData.t Vector := d.

Definition blank : MinC_1NrmRestorationPhase :=
  {| resto_options_ := options ∅;
     constr_mult_reset_threshold_ := 0;
     bound_mult_reset_threshold_ := 0;
     expect_infeasible_problem_ := false;
     constr_viol_tol_ := 0;
     max_wall_time_ := 0;
     max_cpu_time_ := 0;
     resto_failure_feasibility_threshold_ := 0;
     count_restorations_ := 0%Z |}.

Definition fresh : World :=
  {| self := blank; IpData := data; resto_alg_calls := [] |}.

(** The world after InitializeImpl with the given user options. *)
Definition initialized (user_numeric : gmap string Number) : World :=
  (InitializeImpl None (options user_numeric) "" fresh).2.

(** One call of PerformRestoration: the build, the clock, the user's
    options, the problem and what the restoration algorithm answers. *)
Record Case : Type := {
  checklevel : nat;
  wall : Number;
  user : gmap string Number;
  square : bool;
  viol : Number;
  trial_slack : Number;
  status : SolverReturn;
  resto_curr : option (IteratesVector.t CompoundVector)
}.

Definition run (c : Case) : Outcome bool * World :=
  PerformRestoration (checklevel c) (wall c) 0
    (cq (square c) (viol c) (trial_slack c))
    (resto_data None) alg_Initialize
    (alg_Optimize (status c) (resto_curr c))
    estimator (initialized (user c)).

(** The phases of that call, one after the other. *)
Definition entered (c : Case) : Outcome (bool * OptionsList) * World :=
  enter_restoration (checklevel c) (wall c) 0
    (cq (square c) (viol c) (trial_slack c)) (initialized (user c)).

Definition entered_options (c : Case) : OptionsList :=
  match (entered c).1 with
  | Returns (_, o) => o
  | _ => options ∅
  end.

Definition solved (c : Case)
    : Outcome (SolverReturn * IpoptData.t CompoundVector) * World :=
  solve_resto_problem (resto_data None) alg_Initialize
    (alg_Optimize (status c) (resto_curr c))
    (entered_options c) (entered c).2.

Definition solved_data (c : Case) : IpoptData.t CompoundVector :=
  match (solved c).1 with
  | Returns (_, rd) => rd
  | _ => resto_data None
  end.

Definition copied (c : Case) : Outcome unit * World :=
  copy_resto_curr_on_failure (status c) (solved_data c) (solved c).2.

(** The entries of a vector as plain rationals. *)
Definition entries (v : Vector) : list Q := map Qcanon.this v.

(** The options passed to the Initialize calls of a log. *)
Definition passed_options (calls : list AlgCall) : list OptionsList :=
  omap (λ call, match call with
                | CallInitialize o _ => Some o
                | CallOptimize _ => None
                end) calls.

(** The cases. *)

(** The restoration problem stops at a tiny step, 5e-9 from feasibility. *)
Definition tiny_step_nearly_feasible : Case :=
  {| checklevel := 1; wall := q 5 1; user := user_tolerances;
     square := false; viol := q 5 1000000000; trial_slack := 1;
     status := STOP_AT_TINY_STEP; resto_curr := Some resto_iterate |}.

(** The wall-clock limit of 5 is reached when the call starts. *)
Definition out_of_time : Case :=
  {| checklevel := 1; wall := q 5 1;
     user := <["max_wall_time" := q 5 1]> user_tolerances;
     square := false; viol := q 1 100; trial_slack := 1;
     status := SUCCESS; resto_curr := Some resto_iterate |}.

(** A square problem, 1e-9 from feasibility at an acceptable point. *)
Definition square_acceptable : Case :=
  {| checklevel := 1; wall := q 5 1; user := user_tolerances;
     square := true; viol := q 1 1000000000; trial_slack := 1;
     status := STOP_AT_ACCEPTABLE_POINT;
     resto_curr := Some resto_iterate |}.

(** A square problem whose violation stays at 1 after a successful
    restoration phase. *)
Definition square_still_infeasible : Case :=
  {| checklevel := 1; wall := q 5 1; user := user_tolerances;
     square := true; viol := 1; trial_slack := q 1 2;
     status := SUCCESS; resto_curr := Some resto_iterate |}.

(** A square problem for which the user has set
    required_infeasibility_reduction to 1/2. *)
Definition square_with_user_reduction : Case :=
  {| checklevel := 1; wall := q 5 1;
     user := <["required_infeasibility_reduction" := q 1 2]> user_tolerances;
     square := true; viol := 1; trial_slack := q 1 2;
     status := SUCCESS; resto_curr := Some resto_iterate |}.

(** The restoration problem runs out of iterations. *)
Definition out_of_iterations : Case :=
  {| checklevel := 1; wall := q 5 1; user := user_tolerances;
     square := false; viol := q 1 100; trial_slack := 1;
     status := MAXITER_EXCEEDED; resto_curr := Some resto_iterate |}.

(** The restoration problem ends with a status the dispatch does not
    name. *)
Definition unnamed_status : Case :=
  {| checklevel := 1; wall := q 5 1; user := user_tolerances;
     square := false; viol := q 1 100; trial_slack := 1;
     status := OTHER_STATUS 3; resto_curr := Some resto_iterate |}.

(** A call at a feasible point, in a build with and without debug
    checks. *)
Definition feasible_at_entry (checklevel : nat) : Case :=
  {| checklevel := checklevel; wall := q 5 1; user := user_tolerances;
     square := false; viol := 0; trial_slack := q 1 2;
     status := SUCCESS; resto_curr := Some resto_iterate |}.

(** The world in which the bound multipliers are updated, with the reset
    threshold set to 1 by the user; the slacks move from 1 to 1/2. *)
Definition before_update : World :=
  initialized (<["bound_mult_reset_threshold" := 1]> user_tolerances).

End Scenario.

(** ** Further notions *)

(** The options in which lines 127-149 have set the time limits of the
    restoration algorithm: one SetNumericValue for each limit of the object
    [c] that is below 1e20. *)
Definition with_remaining_time (c : MinC_1NrmRestorationPhase)
    (remaining_wall remaining_cpu : Number) (o : OptionsList)
    : OptionsList :=
  let o :=
    if Qcltb (max_wall_time_ c) num_1e20
    then SetNumericValue o "resto.max_wall_time" remaining_wall
    else o in
  if Qcltb (max_cpu_time_ c) num_1e20
  then SetNumericValue o "resto.max_cpu_time" remaining_cpu
  else o.

(** ** Further cases *)

Module Cases.

(** A successful restoration phase on a problem that is not square, with
    the reset threshold of the bound multipliers set to 1 by the user;
    the slacks move from 1 to 1/2. *)
Definition success_with_reset : Scenario.Case :=
  {| Scenario.checklevel := 1; Scenario.wall := Scenario.q 5 1;
     Scenario.user :=
       <["bound_mult_reset_threshold" := 1]> Scenario.user_tolerances;
     Scenario.square := false; Scenario.viol := Scenario.q 1 100;
     Scenario.trial_slack := Scenario.q 1 2;
     Scenario.status := SUCCESS;
     Scenario.resto_curr := Some Scenario.resto_iterate |}.

(** A square problem 1e-9 from feasibility after a successful restoration
    phase. *)
Definition square_success_feasible : Scenario.Case :=
  {| Scenario.checklevel := 1; Scenario.wall := Scenario.q 5 1;
     Scenario.user := Scenario.user_tolerances;
     Scenario.square := true; Scenario.viol := Scenario.q 1 1000000000;
     Scenario.trial_slack := Scenario.q 1 2;
     Scenario.status := SUCCESS;
     Scenario.resto_curr := Some Scenario.resto_iterate |}.

(** The wall-clock limit is 8; the call starts at time 5. *)
Definition within_time_limit : Scenario.Case :=
  {| Scenario.checklevel := 1; Scenario.wall := Scenario.q 5 1;
     Scenario.user :=
       <["max_wall_time" := Scenario.q 8 1]> Scenario.user_tolerances;
     Scenario.square := false; Scenario.viol := Scenario.q 1 100;
     Scenario.trial_slack := 1;
     Scenario.status := MAXITER_EXCEEDED;
     Scenario.resto_curr := Some Scenario.resto_iterate |}.

(** A square problem whose restoration problem stops at a tiny step, 5e-9
    from feasibility. *)
Definition square_tiny_step : Scenario.Case :=
  {| Scenario.checklevel := 1; Scenario.wall := Scenario.q 5 1;
     Scenario.user := Scenario.user_tolerances;
     Scenario.square := true; Scenario.viol := Scenario.q 5 1000000000;
     Scenario.trial_slack := 1;
     Scenario.status := STOP_AT_TINY_STEP;
     Scenario.resto_curr := Some Scenario.resto_iterate |}.

(** The restoration algorithm reports SUCCESS and leaves no current
    iterate. *)
Definition success_without_iterate : Scenario.Case :=
  {| Scenario.checklevel := 1; Scenario.wall := Scenario.q 5 1;
     Scenario.user := Scenario.user_tolerances;
     Scenario.square := false; Scenario.viol := Scenario.q 1 100;
     Scenario.trial_slack := Scenario.q 1 2;
     Scenario.status := SUCCESS; Scenario.resto_curr := None |}.

(** A successful restoration phase on a problem that is not square. *)
Definition success : Scenario.Case :=
  {| Scenario.checklevel := 1; Scenario.wall := Scenario.q 5 1;
     Scenario.user := Scenario.user_tolerances;
     Scenario.square := false; Scenario.viol := Scenario.q 1 100;
     Scenario.trial_slack := Scenario.q 1 2;
     Scenario.status := SUCCESS;
     Scenario.resto_curr := Some Scenario.resto_iterate |}.

(** The user expects the problem to be infeasible and sets the
    feasibility threshold to 1/4. *)
Definition expecting_options : OptionsList :=
  {| numeric_values :=
       <["resto_failure_feasibility_threshold" := Scenario.q 1 4]>
         Scenario.user_tolerances;
     string_values := <["expect_infeasible_problem" := "yes"]> ∅;
     numeric_default := numeric_default (Scenario.options ∅);
     bool_default := bool_default (Scenario.options ∅) |}.

Definition expecting : World :=
  (InitializeImpl None expecting_options "" Scenario.fresh).2.

(** The entry of the first call in that world, 1/100 from feasibility. *)
Definition expecting_entered : Outcome (bool * OptionsList) * World :=
  enter_restoration 1 (Scenario.q 5 1) 0
    (Scenario.cq false (Scenario.q 1 100) 1) expecting.

Definition expecting_entered_options : OptionsList :=
  match expecting_entered.1 with
  | Returns (_, o) => o
  | _ => Scenario.options ∅
  end.

(** The trial point the update of the bound multipliers leaves in
    [Scenario.before_update]. *)
Definition updated_trial : IteratesVector.t Vector :=
  default Scenario.iterate
    (IpoptData.trial
       (IpData (update_bound_multipliers
                  (Scenario.cq false 1 (Scenario.q 1 2))
                  Scenario.before_update).2)).

End Cases.

(** * Properties *)

(** ** Running the monad *)

Lemma bind_Returns {A B} (m : M A) (f : A → M B) w a w' :
  m w = (Returns a, w') → (m ≫= f) w = f a w'.
Proof. intros H. unfold mbind, M_bind. now rewrite H. Qed.

Lemma bind_Throws {A B} (m : M A) (f : A → M B) w e w' :
  m w = (Throws e, w') → (m ≫= f) w = (Throws e, w').
Proof. intros H. unfold mbind, M_bind. now rewrite H. Qed.


Lemma keeps_bind (R : World → World → Prop) `{!Reflexive R, !Transitive R}
    {A B} (m : M A) (f : A → M B) :
  keeps R m → (∀ a, keeps R (f a)) → keeps R (m ≫= f).
Proof.
  intros Hm Hf w. unfold mbind, M_bind.
  specialize (Hm w). destruct (m w) as [[a| e | |] w1]; simpl in *; auto.
  transitivity w1; [assumption | apply Hf].
Qed.

Lemma keeps_ret (R : World → World → Prop) `{!Reflexive R} {A} (a : A) :
  keeps R (mret a).
Proof. intros w. simpl. reflexivity. Qed.

Ltac unfold_M :=
  unfold mbind, M_bind, mret, M_ret, get_world, put_self, put_IpData,
    log_call, THROW_EXCEPTION, deref, DBG_ASSERT.

(** ** Numbers and vectors *)

Lemma Qcltb_lt a b : Qcltb a b = true ↔ a < b.
Proof. unfold Qcltb. apply bool_decide_eq_true. Qed.

Lemma Qcleb_le a b : Qcleb a b = true ↔ a ≤ b.
Proof. unfold Qcleb. apply bool_decide_eq_true. Qed.

Lemma Qcltb_nlt a b : Qcltb a b = false ↔ b ≤ a.
Proof.
  unfold Qcltb. rewrite bool_decide_eq_false. symmetry. apply Qcle_ngt.
Qed.

Lemma Qcleb_nle a b : Qcleb a b = false ↔ b < a.
Proof.
  unfold Qcleb. rewrite bool_decide_eq_false. symmetry. apply Qclt_nge.
Qed.

Lemma Axpy_lookup y alpha x i yi xi :
  y !! i = Some yi → x !! i = Some xi →
  Vec.Axpy y alpha x !! i = Some (yi + alpha * xi).
Proof.
  intros Hy Hx. unfold Vec.Axpy. rewrite lookup_zip_with, Hy. simpl.
  now rewrite Hx.
Qed.

Lemma ComputeBoundMultiplierStep_length d delta_z curr_z curr_slack
    trial_slack :
  length curr_z = length curr_slack →
  length trial_slack = length curr_slack →
  length (ComputeBoundMultiplierStep d delta_z curr_z curr_slack trial_slack)
  = length curr_slack.
Proof.
  intros Hz Ht. unfold ComputeBoundMultiplierStep, Vec.Axpy,
    Vec.ElementWiseMultiply, Vec.ElementWiseDivide, Vec.AddScalar, Vec.Copy.
  rewrite !length_zip_with, length_fmap, !length_zip_with. lia.
Qed.

(** C2.  Every entry of the step [ComputeBoundMultiplierStep] computes is
    ((curr_slack - trial_slack) * curr_z + mu) / curr_slack - curr_z, with
    mu the current barrier parameter of IpData(); where the slack did not
    move (curr_slack = trial_slack) it is mu / curr_slack - curr_z. *)
Theorem ComputeBoundMultiplierStep_entry
    (d : IpoptData.t Vector) (delta_z curr_z curr_slack trial_slack : Vector)
    (i : nat) (z sc st : Number) :
  curr_z !! i = Some z →
  curr_slack !! i = Some sc →
  trial_slack !! i = Some st →
  ComputeBoundMultiplierStep d delta_z curr_z curr_slack trial_slack !! i
  = Some (((sc - st) * z + IpoptData.curr_mu d) / sc - z)
  ∧ (sc = st →
     ComputeBoundMultiplierStep d delta_z curr_z curr_slack trial_slack !! i
     = Some (IpoptData.curr_mu d / sc - z)).
Proof.
  intros Hz Hs Ht.
  assert (ComputeBoundMultiplierStep d delta_z curr_z curr_slack trial_slack
          !! i
          = Some (((sc + -1 * st) * z + IpoptData.curr_mu d) / sc + -1 * z))
    as Hstep.
  { unfold ComputeBoundMultiplierStep, Vec.Copy, Vec.ElementWiseDivide,
      Vec.AddScalar, Vec.ElementWiseMultiply.
    apply Axpy_lookup; [| assumption].
    rewrite lookup_zip_with, list_lookup_fmap, lookup_zip_with.
    rewrite (Axpy_lookup _ _ _ _ _ _ Hs Ht). simpl.
    rewrite Hz. simpl. rewrite Hs. reflexivity. }
  split.
  - rewrite Hstep. apply (f_equal Some). unfold Qcdiv. ring.
  - intros ->. rewrite Hstep. apply (f_equal Some). unfold Qcdiv. ring.
Qed.

Lemma Max_l a b : a ≤ Vec.Max a b.
Proof.
  unfold Vec.Max. destruct (Qcltb b a) eqn:H; [reflexivity |].
  now apply Qcltb_nlt in H.
Qed.

Lemma Max_r a b : b ≤ Vec.Max a b.
Proof.
  unfold Vec.Max. destruct (Qcltb b a) eqn:H; [| reflexivity].
  apply Qcltb_lt in H. now apply Qclt_le_weak.
Qed.

Lemma Max_cases a b : Vec.Max a b = a ∨ Vec.Max a b = b.
Proof. unfold Vec.Max. destruct (Qcltb b a); auto. Qed.

Lemma Amax_ge y e : e ∈ y → Qcabs.Qcabs e ≤ Vec.Amax y.
Proof.
  induction y as [| e' y IH]; intros He; [now apply elem_of_nil in He |].
  apply elem_of_cons in He as [-> | He]; simpl.
  - apply Max_l.
  - transitivity (Vec.Amax y); [now apply IH | apply Max_r].
Qed.

Lemma Amax_attained y :
  Vec.Amax y = 0 ∨ ∃ e, e ∈ y ∧ Vec.Amax y = Qcabs.Qcabs e.
Proof.
  induction y as [| e' y IH]; [now left |]. simpl.
  destruct (Max_cases (Qcabs.Qcabs e') (Vec.Amax y)) as [-> | ->].
  - right. exists e'. split; [apply elem_of_cons; now left | reflexivity].
  - destruct IH as [-> | (e & He & ->)]; [now left |].
    right. exists e. split; [apply elem_of_cons; now right | reflexivity].
Qed.

(** The largest absolute value over four vectors, as line 394 takes it. *)
Lemma Max4_Amax_ge a b c d e :
  e ∈ a ++ b ++ c ++ d →
  Qcabs.Qcabs e
  ≤ Vec.Max4 (Vec.Amax a) (Vec.Amax b) (Vec.Amax c) (Vec.Amax d).
Proof.
  unfold Vec.Max4. rewrite !elem_of_app. intros [H | [H | [H | H]]].
  - transitivity (Vec.Amax a); [now apply Amax_ge | apply Max_l].
  - transitivity (Vec.Amax b); [now apply Amax_ge |].
    etransitivity; [apply Max_l | apply Max_r].
  - transitivity (Vec.Amax c); [now apply Amax_ge |].
    etransitivity; [apply Max_l |].
    etransitivity; [apply Max_r | apply Max_r].
  - transitivity (Vec.Amax d); [now apply Amax_ge |].
    etransitivity; [apply Max_r |].
    etransitivity; [apply Max_r | apply Max_r].
Qed.

Lemma Max4_Amax_attained a b c d :
  Vec.Max4 (Vec.Amax a) (Vec.Amax b) (Vec.Amax c) (Vec.Amax d) = 0
  ∨ ∃ e, e ∈ a ++ b ++ c ++ d
         ∧ Vec.Max4 (Vec.Amax a) (Vec.Amax b) (Vec.Amax c) (Vec.Amax d)
           = Qcabs.Qcabs e.
Proof.
  unfold Vec.Max4.
  destruct (Max_cases (Vec.Amax a)
              (Vec.Max (Vec.Amax b) (Vec.Max (Vec.Amax c) (Vec.Amax d))))
    as [-> | ->];
    [| destruct (Max_cases (Vec.Amax b) (Vec.Max (Vec.Amax c) (Vec.Amax d)))
         as [-> | ->];
       [| destruct (Max_cases (Vec.Amax c) (Vec.Amax d)) as [-> | ->]]].
  - destruct (Amax_attained a) as [-> | (e & He & ->)]; [now left |].
    right. exists e. rewrite !elem_of_app. auto.
  - destruct (Amax_attained b) as [-> | (e & He & ->)]; [now left |].
    right. exists e. rewrite !elem_of_app. auto.
  - destruct (Amax_attained c) as [-> | (e & He & ->)]; [now left |].
    right. exists e. rewrite !elem_of_app. auto.
  - destruct (Amax_attained d) as [-> | (e & He & ->)]; [now left |].
    right. exists e. rewrite !elem_of_app. auto.
Qed.

Lemma SetAll_replicate (y : Vector) c : Vec.SetAll y c = replicate (length y) c.
Proof.
  unfold Vec.SetAll. induction y as [| e y IH]; simpl; [reflexivity |].
  now rewrite <- IH.
Qed.

(** ** What a call leaves untouched *)


#[local] Instance same_settings_refl : Reflexive same_settings.
Proof. intros w. unfold same_settings. tauto. Qed.

#[local] Instance same_settings_trans : Transitive same_settings.
Proof.
  intros w1 w2 w3 H12 H23. unfold same_settings in *.
  destruct H12 as (? & ? & ? & ? & ? & ? & ?).
  destruct H23 as (? & ? & ? & ? & ? & ? & ?).
  repeat split; congruence.
Qed.


#[local] Instance same_object_refl : Reflexive same_object.
Proof. intros w. split; reflexivity. Qed.

#[local] Instance same_object_trans : Transitive same_object.
Proof. intros w1 w2 w3 [H1 H2] [H3 H4]. split; congruence. Qed.

Lemma same_object_settings w w' : same_object w w' → same_settings w w'.
Proof. intros [H _]. unfold same_settings. rewrite H. tauto. Qed.

Set Default Proof Using "Type".

(** Rewrites a test of the goal with the value [H] gives it, up to
    conversion. *)
Ltac use_test H :=
  lazymatch type of H with
  | _ = ?v =>
      match goal with
      | |- context [Qcleb ?a ?b] => rewrite (H : Qcleb a b = v)
      | |- context [Qcltb ?a ?b] => rewrite (H : Qcltb a b = v)
      end
  end.

(** Simplifies the goal with the boolean tests the context has settled. *)
Ltac settle :=
  repeat first
    [ progress simpl
    | rewrite andb_false_r
    | match goal with
      | H : ?b = true |- context [?b] => rewrite H
      | H : ?b = false |- context [?b] => rewrite H
      end ].

Ltac run_block :=
  unfold_M; simpl; repeat (case_match; simplify_eq; simpl);
  try done.

Section Call.

Context (IPOPT_CHECKLEVEL : nat) (WallclockTime CpuTime : Number)
  (IpCq : IpoptCalculatedQuantities)
  (new_IpoptData : IpoptData.t CompoundVector)
  (resto_alg_Initialize :
     OptionsList → string → IpoptData.t Vector →
     IpoptData.t CompoundVector → IpoptData.t CompoundVector)
  (resto_alg_Optimize :
     bool → OptionsList → IpoptData.t Vector → IpoptData.t CompoundVector →
     SolverReturn * IpoptData.t CompoundVector * IpoptData.t Vector)
  (least_square_mults : Number → IpoptData.t Vector → IpoptData.t Vector).

Lemma resto_time_limits_settings :
  keeps same_settings (resto_time_limits IPOPT_CHECKLEVEL WallclockTime CpuTime).
Proof.
  intros w. unfold resto_time_limits, same_settings. run_block; repeat split.
Qed.

Lemma enter_restoration_settings :
  keeps same_settings
    (enter_restoration IPOPT_CHECKLEVEL WallclockTime CpuTime IpCq).
Proof.
  intros w. unfold enter_restoration.
  set (w0 := with_self w (with_count_restorations (self w)
                            (count_restorations_ (self w) + 1)%Z)).
  assert (same_settings w w0) as H0 by (unfold same_settings; simpl; repeat split).
  pose proof (resto_time_limits_settings w0) as Ht.
  unfold actual_resto_options. unfold_M. simpl. fold w0.
  destruct (_ && _); simpl; [exact H0 |].
  destruct (resto_time_limits _ _ _ _) as [[[]| e | |] w1]; simpl in Ht |- *;
    transitivity w0; try assumption.
  repeat (case_match; simplify_eq; simpl); exact Ht.
Qed.

Lemma enter_restoration_data w :
  IpData (enter_restoration IPOPT_CHECKLEVEL WallclockTime CpuTime IpCq w).2
  = IpData w
  ∧ resto_alg_calls
      (enter_restoration IPOPT_CHECKLEVEL WallclockTime CpuTime IpCq w).2
    = resto_alg_calls w.
Proof.
  unfold enter_restoration, actual_resto_options, resto_time_limits.
  run_block; split; reflexivity.
Qed.

Lemma solve_resto_problem_Returns o w :
  ∃ st rd d',
    resto_alg_Optimize true o (IpData w)
      (IpoptData.Set_info_last_output
        (IpoptData.Set_info_iters_since_header
          (IpoptData.Set_info_ls_count
            (IpoptData.Set_info_alpha_dual
              (IpoptData.Set_info_alpha_primal_char
                (IpoptData.Set_info_alpha_primal
                  (IpoptData.Set_info_regu_x
                    (IpoptData.Set_iter_count
                      (resto_alg_Initialize o "resto." (IpData w)
                         new_IpoptData)
                      (IpoptData.iter_count (IpData w) + 1)%Z)
                    (IpoptData.info_regu_x (IpData w)))
                  (IpoptData.info_alpha_primal (IpData w)))
                (IpoptData.info_alpha_primal_char (IpData w)))
              (IpoptData.info_alpha_dual (IpData w)))
            (IpoptData.info_ls_count (IpData w)))
          (IpoptData.info_iters_since_header (IpData w)))
        (IpoptData.info_last_output (IpData w)))
    = (st, rd, d')
    ∧ solve_resto_problem new_IpoptData resto_alg_Initialize
        resto_alg_Optimize o w
      = (Returns (st, rd),
         {| self := self w; IpData := d';
            resto_alg_calls :=
              resto_alg_calls w
              ++ [CallInitialize o "resto."; CallOptimize true] |}).
Proof.
  unfold solve_resto_problem. unfold_M. simpl.
  destruct (resto_alg_Optimize _ _ _ _) as [[st rd] d'].
  exists st, rd, d'. split; [reflexivity |].
  unfold with_IpData, with_call. simpl. now rewrite <- app_assoc.
Qed.

Lemma classify_resto_status_world sq st w :
  (classify_resto_status IpCq sq st w).2 = w.
Proof. unfold classify_resto_status. run_block. Qed.

Lemma copy_resto_curr_on_failure_object st rd :
  keeps same_object (copy_resto_curr_on_failure st rd).
Proof.
  intros w. unfold copy_resto_curr_on_failure, same_object.
  run_block.
Qed.

Lemma update_bound_multipliers_object :
  keeps same_object (update_bound_multipliers IpCq).
Proof.
  intros w.
  unfold update_bound_multipliers, SetTrialBoundMultipliersFromStep,
    same_object.
  run_block.
Qed.

Lemma take_over_resto_result_object sq rd :
  keeps same_object (take_over_resto_result IpCq least_square_mults sq rd).
Proof.
  intros w. unfold take_over_resto_result.
  unfold_M. simpl.
  destruct (IpoptData.curr rd) as [rc|]; [| reflexivity].
  destruct (IpoptData.trial (IpData w)) as [t|]; [| reflexivity].
  simpl.
  set (w1 := with_IpData w _).
  assert (same_object w w1) as H1 by (split; reflexivity).
  destruct sq.
  - destruct (Qcleb _ _); simpl; [exact H1 |].
    pose proof (update_bound_multipliers_object w1) as H2.
    destruct (update_bound_multipliers IpCq w1) as [[[]| e | |] w2];
      simpl in H2 |- *; transitivity w1; assumption.
  - simpl.
    pose proof (update_bound_multipliers_object w1) as H2.
    destruct (update_bound_multipliers IpCq w1) as [[[]| e | |] w2];
      simpl in H2 |- *; transitivity w1; assumption.
Qed.



(** ** The call, phase by phase *)


(** What follows the solution of the restoration problem (lines 194-428). *)
Lemma PerformRestoration_phases w sq o w1 st rd w2 :
  enter_restoration IPOPT_CHECKLEVEL WallclockTime CpuTime IpCq w
  = (Returns (sq, o), w1) →
  solve_resto_problem new_IpoptData resto_alg_Initialize resto_alg_Optimize
    o w1 = (Returns (st, rd), w2) →
  PerformRestoration IPOPT_CHECKLEVEL WallclockTime CpuTime IpCq
    new_IpoptData resto_alg_Initialize resto_alg_Optimize
    least_square_mults w
  = (copy_resto_curr_on_failure st rd;;
     retval ← classify_resto_status IpCq sq st;
     (if bool_decide (retval = 0%Z)
      then take_over_resto_result IpCq least_square_mults sq rd
      else mret ());;
     mret (bool_decide (retval = 0%Z))) w2.
Proof.
  intros He Hs. unfold PerformRestoration.
  rewrite (bind_Returns _ _ _ _ _ He). simpl.
  now rewrite (bind_Returns _ _ _ _ _ Hs).
Qed.

(** A call that does not get to the restoration problem ends as its
    entry does. *)
Lemma PerformRestoration_stops_at_entry w w1 (out : Outcome (bool * OptionsList)) :
  enter_restoration IPOPT_CHECKLEVEL WallclockTime CpuTime IpCq w
  = (out, w1) →
  (∀ r, out ≠ Returns r) →
  (PerformRestoration IPOPT_CHECKLEVEL WallclockTime CpuTime IpCq
     new_IpoptData resto_alg_Initialize resto_alg_Optimize
     least_square_mults w).2 = w1
  ∧ ∀ e, out = Throws e →
      PerformRestoration IPOPT_CHECKLEVEL WallclockTime CpuTime IpCq
        new_IpoptData resto_alg_Initialize resto_alg_Optimize
        least_square_mults w = (Throws e, w1).
Proof.
  intros He Hout. unfold PerformRestoration, mbind, M_bind. rewrite He.
  destruct out as [r | e | |]; simpl; [now destruct (Hout r) | | |];
    (split; [reflexivity |]); intros e' [=]; subst; reflexivity.
Qed.

Lemma enter_restoration_Returns w sq o w1 :
  enter_restoration IPOPT_CHECKLEVEL WallclockTime CpuTime IpCq w
  = (Returns (sq, o), w1) →
  sq = IsSquareProblem IpCq
  ∧ resto_time_limits IPOPT_CHECKLEVEL WallclockTime CpuTime (counted w)
    = (Returns (), w1)
  ∧ actual_resto_options IpCq sq w1 = (Returns o, w1).
Proof.
  unfold enter_restoration. unfold_M. simpl. fold (counted w).
  destruct (_ && _); simpl; [discriminate |].
  destruct (resto_time_limits _ _ _ _) as [[[]| e | |] w0]; simpl;
    try discriminate.
  destruct (actual_resto_options IpCq (IsSquareProblem IpCq) w0)
    as [[o'| e | |] w0'] eqn:Ha; simpl; try discriminate.
  intros [= <- <- <-]. split; [reflexivity |]. 
  assert (w0' = w0) as ->.
  { revert Ha. unfold actual_resto_options. unfold_M. simpl.
    repeat case_match; intros [= _ <-]; reflexivity. }
  split; [reflexivity | exact Ha].
Qed.

(** The salvage of lines 196-247, when it applies. *)
Lemma copy_resto_curr_on_failure_Some st rd rc t w :
  st ≠ SUCCESS →
  IpoptData.curr rd = Some rc →
  IpoptData.trial (IpData w) = Some t →
  copy_resto_curr_on_failure st rd w
  = (Returns (),
     with_IpData w
       (IpoptData.AcceptTrialPoint
          (IpoptData.set_trial (IpData w) (first_blocks rc)))).
Proof.
  intros Hst Hrc Ht. unfold copy_resto_curr_on_failure.
  rewrite bool_decide_eq_true_2 by assumption. rewrite Hrc.
  unfold_M. simpl. rewrite Ht. reflexivity.
Qed.

Lemma copy_resto_curr_on_failure_None st rd w :
  st = SUCCESS ∨ IpoptData.curr rd = None →
  copy_resto_curr_on_failure st rd w = (Returns (), w).
Proof.
  intros H. unfold copy_resto_curr_on_failure.
  destruct H as [-> | H]; [reflexivity |].
  rewrite H. now case_bool_decide.
Qed.

(** C1.  On a non-square problem whose restoration problem ends with
    STOP_AT_TINY_STEP or STOP_AT_ACCEPTABLE_POINT, the call throws
    RESTORATION_CONVERGED_TO_FEASIBLE_POINT when the primal infeasibility
    (max-norm) of the outer current iterate is at most
    resto_failure_feasibility_threshold_, and LOCALLY_INFEASIBLE otherwise.
    The current iterate is the one the dispatch finds, after lines
    196-247. *)
Theorem PerformRestoration_tiny_step_or_acceptable w sq o w1 st rd w2 w3 :
  IsSquareProblem IpCq = false →
  enter_restoration IPOPT_CHECKLEVEL WallclockTime CpuTime IpCq w
  = (Returns (sq, o), w1) →
  solve_resto_problem new_IpoptData resto_alg_Initialize resto_alg_Optimize
    o w1 = (Returns (st, rd), w2) →
  st = STOP_AT_TINY_STEP ∨ st = STOP_AT_ACCEPTABLE_POINT →
  copy_resto_curr_on_failure st rd w2 = (Returns (), w3) →
  PerformRestoration IPOPT_CHECKLEVEL WallclockTime CpuTime IpCq
    new_IpoptData resto_alg_Initialize resto_alg_Optimize
    least_square_mults w
  = (Throws
       (if bool_decide
             (curr_primal_infeasibility IpCq NORM_MAX (IpData w3)
              ≤ resto_failure_feasibility_threshold_ (self w))
        then RESTORATION_CONVERGED_TO_FEASIBLE_POINT
        else LOCALLY_INFEASIBLE),
     w3).
Proof.
  intros Hsq He Hs Hst Hc.
  rewrite (PerformRestoration_phases _ _ _ _ _ _ _ He Hs).
  rewrite (bind_Returns _ _ _ _ _ Hc).
  destruct (enter_restoration_Returns _ _ _ _ He) as (-> & _ & _).
  assert (resto_failure_feasibility_threshold_ (self w3)
          = resto_failure_feasibility_threshold_ (self w)) as Hthr.
  { pose proof (enter_restoration_settings w) as H1.
    rewrite He in H1. simpl in H1.
    destruct (solve_resto_problem_Returns o w1) as (st' & rd' & d' & _ & H2).
    rewrite Hs in H2. injection H2 as _ _ ->.
    pose proof (copy_resto_curr_on_failure_object st rd
                  {| self := self w1; IpData := d';
                     resto_alg_calls :=
                       resto_alg_calls w1
                       ++ [CallInitialize o "resto."; CallOptimize true] |})
      as [H3 _].
    rewrite Hc in H3. simpl in H3. rewrite H3.
    apply H1. }
  rewrite Hsq. unfold classify_resto_status. unfold_M. simpl.
  rewrite Hthr. unfold Qcleb.
  destruct Hst as [-> | ->]; simpl; now case_bool_decide.
Qed.

(** C3.  When a time limit below 1e20 is set and the time elapsed since
    the start of the overall algorithm has reached it at entry, the call
    throws the time-exceeded exception of that limit (the wall-clock one
    when both are reached) and the restoration algorithm is not called: the
    log of its calls and the outer data are as at entry. *)
Theorem PerformRestoration_time_exceeded_at_entry w :
  let elapsed_wall :=
    WallclockTime - IpoptData.StartWallclockTime (IpData w) in
  let elapsed_cpu := CpuTime - IpoptData.StartCpuTime (IpData w) in
  let wall_reached :=
    max_wall_time_ (self w) < num_1e20
    ∧ max_wall_time_ (self w) ≤ elapsed_wall in
  let cpu_reached :=
    max_cpu_time_ (self w) < num_1e20
    ∧ max_cpu_time_ (self w) ≤ elapsed_cpu in
  0 < curr_constraint_violation IpCq (IpData w) →
  0 ≤ elapsed_wall →
  0 ≤ elapsed_cpu →
  wall_reached ∨ cpu_reached →
  ∃ e w',
    PerformRestoration IPOPT_CHECKLEVEL WallclockTime CpuTime IpCq
      new_IpoptData resto_alg_Initialize resto_alg_Optimize
      least_square_mults w = (Throws e, w')
    ∧ (wall_reached → e = RESTORATION_WALLTIME_EXCEEDED)
    ∧ (¬ wall_reached → e = RESTORATION_CPUTIME_EXCEEDED)
    ∧ resto_alg_calls w' = resto_alg_calls w
    ∧ IpData w' = IpData w.
Proof.
  intros elapsed_wall elapsed_cpu wall_reached cpu_reached Hviol Hw Hc Hex.
  subst elapsed_wall elapsed_cpu cpu_reached.
  assert (∃ e w',
    enter_restoration IPOPT_CHECKLEVEL WallclockTime CpuTime IpCq w
    = (Throws e, w')
    ∧ (wall_reached → e = RESTORATION_WALLTIME_EXCEEDED)
    ∧ (¬ wall_reached → e = RESTORATION_CPUTIME_EXCEEDED))
    as (e & w' & He & H1 & H2).
  { apply Qcltb_lt in Hviol. apply Qcleb_le in Hw, Hc.
    unfold enter_restoration, resto_time_limits. unfold_M. settle.
    destruct (Qcltb (max_wall_time_ (self w)) num_1e20) eqn:Hlw; settle.
    - destruct (Qcleb (max_wall_time_ (self w)) _) eqn:Hew; settle.
      + eexists _, _. split; [reflexivity |].
        apply Qcltb_lt in Hlw. apply Qcleb_le in Hew.
        split; [reflexivity |]. intros Hn. destruct Hn. now split.
      + apply Qcleb_nle in Hew.
        assert (¬ wall_reached) as Hn.
        { intros [_ Hle]. now apply Qcle_ngt in Hle. }
        destruct Hex as [Hex | [Hc1 Hc2]]; [now destruct Hn |].
        apply Qcltb_lt in Hc1. apply Qcleb_le in Hc2. settle.
        eexists _, _. split; [reflexivity |].
        split; [intros Hy; now destruct Hn | reflexivity].
    - apply Qcltb_nlt in Hlw.
      assert (¬ wall_reached) as Hn.
      { intros [Hlt _]. now apply Qcle_ngt in Hlw. }
      destruct Hex as [Hex | [Hc1 Hc2]]; [now destruct Hn |].
      apply Qcltb_lt in Hc1. apply Qcleb_le in Hc2. settle.
      eexists _, _. split; [reflexivity |].
      split; [intros Hy; now destruct Hn | reflexivity]. }
  exists e, w'.
  destruct (PerformRestoration_stops_at_entry _ _ _ He) as [_ Hp];
    [discriminate |].
  split; [now apply Hp |]. split; [assumption |]. split; [assumption |].
  destruct (enter_restoration_data w) as [Hd Hl].
  rewrite He in Hd, Hl. simpl in Hd, Hl. now split.
Qed.

(** A status other than SUCCESS never gives retval 0, and the dispatch
    writes nothing. *)
Lemma classify_resto_status_failure sq st w :
  st ≠ SUCCESS →
  (∃ e, classify_resto_status IpCq sq st w = (Throws e, w))
  ∨ classify_resto_status IpCq sq st w = (Returns 1%Z, w).
Proof.
  intros Hst. unfold classify_resto_status. unfold_M. simpl.
  rewrite bool_decide_eq_false_2 by assumption.
  repeat case_match; eauto.
Qed.

(** C7.  When the restoration problem ends with a status other than
    SUCCESS and its data holds a current iterate, the call makes the
    original-space blocks of that iterate (primal, slack, equality and
    inequality multipliers, the four bound multipliers) the outer trial
    point and accepts it; that is the state in which the call then throws
    or returns, and it does not return true. *)
Theorem PerformRestoration_failure_keeps_resto_iterate
    w sq o w1 st rd w2 rc t :
  enter_restoration IPOPT_CHECKLEVEL WallclockTime CpuTime IpCq w
  = (Returns (sq, o), w1) →
  solve_resto_problem new_IpoptData resto_alg_Initialize resto_alg_Optimize
    o w1 = (Returns (st, rd), w2) →
  st ≠ SUCCESS →
  IpoptData.curr rd = Some rc →
  IpoptData.trial (IpData w2) = Some t →
  let w3 :=
    with_IpData w2
      (IpoptData.AcceptTrialPoint
         (IpoptData.set_trial (IpData w2) (first_blocks rc))) in
  copy_resto_curr_on_failure st rd w2 = (Returns (), w3)
  ∧ IpoptData.curr (IpData w3) = Some (first_blocks rc)
  ∧ (PerformRestoration IPOPT_CHECKLEVEL WallclockTime CpuTime IpCq
       new_IpoptData resto_alg_Initialize resto_alg_Optimize
       least_square_mults w).2 = w3
  ∧ (PerformRestoration IPOPT_CHECKLEVEL WallclockTime CpuTime IpCq
       new_IpoptData resto_alg_Initialize resto_alg_Optimize
       least_square_mults w).1 ≠ Returns true.
Proof.
  intros He Hs Hst Hrc Ht w3.
  pose proof (copy_resto_curr_on_failure_Some _ _ _ _ _ Hst Hrc Ht) as Hc.
  fold w3 in Hc.
  rewrite (PerformRestoration_phases _ _ _ _ _ _ _ He Hs).
  rewrite (bind_Returns _ _ _ _ _ Hc).
  split; [exact Hc |]. split; [reflexivity |].
  destruct (classify_resto_status_failure sq st w3 Hst) as [[e Hcl] | Hcl].
  - rewrite (bind_Throws _ _ _ _ _ Hcl). simpl. now split.
  - rewrite (bind_Returns _ _ _ _ _ Hcl). simpl. now split.
Qed.

(** C10.  When the restoration problem ends with a status the dispatch
    does not name, the call copies the restoration iterate as for every
    failure (when there is one) and returns false; it throws nothing. *)
Theorem PerformRestoration_other_status w sq o w1 tag rd w2 :
  enter_restoration IPOPT_CHECKLEVEL WallclockTime CpuTime IpCq w
  = (Returns (sq, o), w1) →
  solve_resto_problem new_IpoptData resto_alg_Initialize resto_alg_Optimize
    o w1 = (Returns (OTHER_STATUS tag, rd), w2) →
  IpoptData.curr rd = None ∨ is_Some (IpoptData.trial (IpData w2)) →
  PerformRestoration IPOPT_CHECKLEVEL WallclockTime CpuTime IpCq
    new_IpoptData resto_alg_Initialize resto_alg_Optimize
    least_square_mults w
  = (Returns false,
     match IpoptData.curr rd with
     | Some rc =>
         with_IpData w2
           (IpoptData.AcceptTrialPoint
              (IpoptData.set_trial (IpData w2) (first_blocks rc)))
     | None => w2
     end).
Proof.
  intros He Hs Hok.
  rewrite (PerformRestoration_phases _ _ _ _ _ _ _ He Hs).
  set (w3 := match IpoptData.curr rd with Some _ => _ | None => _ end).
  assert (copy_resto_curr_on_failure (OTHER_STATUS tag) rd w2
          = (Returns (), w3)) as Hc.
  { subst w3. destruct (IpoptData.curr rd) as [rc|] eqn:Hrc.
    - destruct Hok as [? | [t Ht]]; [discriminate |].
      now apply (copy_resto_curr_on_failure_Some _ _ rc t).
    - apply copy_resto_curr_on_failure_None. now right. }
  rewrite (bind_Returns _ _ _ _ _ Hc).
  unfold classify_resto_status. unfold_M. simpl.
  now destruct sq.
Qed.

(** C9 (as the code has it).  In a build with IPOPT_CHECKLEVEL > 0, a call
    made when the outer current constraint violation is not strictly
    positive stops at the debug assertion of line 119, after the call
    counter was advanced and before anything else; it does not return. *)
Theorem PerformRestoration_asserts_positive_violation w :
  (0 < IPOPT_CHECKLEVEL)%nat →
  curr_constraint_violation IpCq (IpData w) ≤ 0 →
  PerformRestoration IPOPT_CHECKLEVEL WallclockTime CpuTime IpCq
    new_IpoptData resto_alg_Initialize resto_alg_Optimize
    least_square_mults w
  = (AssertionFailed, counted w).
Proof.
  intros Hcl Hviol. apply Qcltb_nlt in Hviol.
  apply Nat.ltb_lt in Hcl.
  unfold PerformRestoration, enter_restoration. unfold_M. simpl.
  now rewrite Hcl, Hviol.
Qed.

(** The time limits only write the two options of their own. *)
Lemma resto_time_limits_options w w1 (k : string) :
  resto_time_limits IPOPT_CHECKLEVEL WallclockTime CpuTime w
  = (Returns (), w1) →
  k ≠ "resto.max_wall_time" → k ≠ "resto.max_cpu_time" →
  numeric_values (resto_options_ (self w1)) !! k
  = numeric_values (resto_options_ (self w)) !! k.
Proof.
  intros H Hw Hc. revert H. unfold resto_time_limits.
  run_block; intros; simplify_eq; simpl;
    rewrite ?lookup_insert_ne by congruence; reflexivity.
Qed.

(** After the restoration problem is solved, the call leaves the object
    and the log of calls alone. *)
Lemma after_solve_object sq st rd :
  keeps same_object
    (copy_resto_curr_on_failure st rd;;
     retval ← classify_resto_status IpCq sq st;
     (if bool_decide (retval = 0%Z)
      then take_over_resto_result IpCq least_square_mults sq rd
      else mret ());;
     mret (bool_decide (retval = 0%Z))).
Proof.
  apply keeps_bind; try apply _.
  { apply copy_resto_curr_on_failure_object. }
  intros _. apply keeps_bind; try apply _.
  { intros w. rewrite classify_resto_status_world. reflexivity. }
  intros retval. apply keeps_bind; try apply _.
  { case_bool_decide; [apply take_over_resto_result_object |].
    apply keeps_ret, _. }
  intros _. apply keeps_ret, _.
Qed.

(** C6 (as the code has it).  On a square problem, the options the
    restoration algorithm is initialised with give
    required_infeasibility_reduction (read with the prefix resto.) the
    value 0 unless the stored options already hold a value for it, which is
    then kept; those options are the ones of the one Initialize call the
    call makes, followed by one Optimize call. *)
Theorem PerformRestoration_square_options w sq o w1 :
  IsSquareProblem IpCq = true →
  enter_restoration IPOPT_CHECKLEVEL WallclockTime CpuTime IpCq w
  = (Returns (sq, o), w1) →
  GetNumericValue o "required_infeasibility_reduction" "resto."
  = (true,
     default 0
       (find_numeric (resto_options_ (self w))
          "required_infeasibility_reduction" "resto."))
  ∧ resto_alg_calls
      (PerformRestoration IPOPT_CHECKLEVEL WallclockTime CpuTime IpCq
         new_IpoptData resto_alg_Initialize resto_alg_Optimize
         least_square_mults w).2
    = resto_alg_calls w ++ [CallInitialize o "resto."; CallOptimize true].
Proof.
  intros Hsq He.
  destruct (enter_restoration_Returns _ _ _ _ He) as (-> & Ht & Ha).
  split.
  - assert (o = SetNumericValueIfUnset (resto_options_ (self w1))
                  "required_infeasibility_reduction" 0) as ->.
    { revert Ha. rewrite Hsq. unfold actual_resto_options. unfold_M. simpl.
      now intros [= <-]. }
    pose proof (resto_time_limits_options _ _
                  "required_infeasibility_reduction" Ht) as H1.
    pose proof (resto_time_limits_options _ _
                  "resto.required_infeasibility_reduction" Ht) as H2.
    simpl in H1, H2.
    specialize (H1 ltac:(discriminate) ltac:(discriminate)).
    specialize (H2 ltac:(discriminate) ltac:(discriminate)).
    unfold SetNumericValueIfUnset, GetNumericValue, find_numeric,
      SetNumericValue. simpl.
    change ("" +:+ "required_infeasibility_reduction")
      with "required_infeasibility_reduction".
    change ("resto." +:+ "required_infeasibility_reduction")
      with "resto.required_infeasibility_reduction".
    rewrite H1.
    destruct (numeric_values (resto_options_ (self w)) !!
                "required_infeasibility_reduction") as [v|] eqn:Hv;
      simpl.
    + rewrite H2, H1.
      destruct (numeric_values (resto_options_ (self w)) !!
                  "resto.required_infeasibility_reduction"); reflexivity.
    + rewrite lookup_insert_ne by discriminate. rewrite H2.
      rewrite lookup_insert_eq.
      destruct (numeric_values (resto_options_ (self w)) !!
                  "resto.required_infeasibility_reduction"); reflexivity.
  - destruct (solve_resto_problem_Returns o w1)
      as (st & rd & d' & _ & Hs).
    rewrite (PerformRestoration_phases _ _ _ _ _ _ _ He Hs).
    destruct (after_solve_object (IsSquareProblem IpCq) st rd
                {| self := self w1; IpData := d';
                   resto_alg_calls :=
                     resto_alg_calls w1
                     ++ [CallInitialize o "resto."; CallOptimize true] |})
      as [_ Hl].
    rewrite Hl. simpl.
    destruct (enter_restoration_data w) as [_ H]. rewrite He in H.
    simpl in H. now rewrite H.
Qed.

(** The update of lines 366-411 on its own: after the step
    trial_z = curr_z + alpha_dual * delta_z has been taken for the four
    bound multipliers, when an entry of the four resulting vectors exceeds
    bound_mult_reset_threshold_ in absolute value, every entry of the four
    trial bound multipliers is 1; when none does, the four are the computed
    vectors.  The other components of the trial point stay. *)
Lemma update_bound_multipliers_reset w c t :
  IpoptData.curr (IpData w) = Some c →
  IpoptData.trial (IpData w) = Some t →
  let d := IpData w in
  let delta := IteratesVector.MakeNewZero c in
  let delta_z_L :=
    ComputeBoundMultiplierStep d (IteratesVector.z_L delta)
      (IteratesVector.z_L c) (curr_slack_x_L IpCq d)
      (trial_slack_x_L IpCq d) in
  let delta_z_U :=
    ComputeBoundMultiplierStep d (IteratesVector.z_U delta)
      (IteratesVector.z_U c) (curr_slack_x_U IpCq d)
      (trial_slack_x_U IpCq d) in
  let delta_v_L :=
    ComputeBoundMultiplierStep d (IteratesVector.v_L delta)
      (IteratesVector.v_L c) (curr_slack_s_L IpCq d)
      (trial_slack_s_L IpCq d) in
  let delta_v_U :=
    ComputeBoundMultiplierStep d (IteratesVector.v_U delta)
      (IteratesVector.v_U c) (curr_slack_s_U IpCq d)
      (trial_slack_s_U IpCq d) in
  let alpha_dual :=
    dual_frac_to_the_bound IpCq (IpoptData.curr_tau d)
      delta_z_L delta_z_U delta_v_L delta_v_U d in
  let z_L := Vec.Axpy (IteratesVector.z_L c) alpha_dual delta_z_L in
  let z_U := Vec.Axpy (IteratesVector.z_U c) alpha_dual delta_z_U in
  let v_L := Vec.Axpy (IteratesVector.v_L c) alpha_dual delta_v_L in
  let v_U := Vec.Axpy (IteratesVector.v_U c) alpha_dual delta_v_U in
  ∃ t',
    update_bound_multipliers IpCq w
    = (Returns (), with_IpData w (IpoptData.set_trial d t'))
    ∧ IteratesVector.x t' = IteratesVector.x t
    ∧ IteratesVector.s t' = IteratesVector.s t
    ∧ IteratesVector.y_c t' = IteratesVector.y_c t
    ∧ IteratesVector.y_d t' = IteratesVector.y_d t
    ∧ ((∃ e, e ∈ z_L ++ z_U ++ v_L ++ v_U
             ∧ bound_mult_reset_threshold_ (self w) < Qcabs.Qcabs e) →
       IteratesVector.z_L t' = replicate (length z_L) 1
       ∧ IteratesVector.z_U t' = replicate (length z_U) 1
       ∧ IteratesVector.v_L t' = replicate (length v_L) 1
       ∧ IteratesVector.v_U t' = replicate (length v_U) 1)
    ∧ ((∀ e, e ∈ z_L ++ z_U ++ v_L ++ v_U →
             Qcabs.Qcabs e ≤ bound_mult_reset_threshold_ (self w)) →
       IteratesVector.z_L t' = z_L
       ∧ IteratesVector.z_U t' = z_U
       ∧ IteratesVector.v_L t' = v_L
       ∧ IteratesVector.v_U t' = v_U).
Proof.
  intros Hc Ht. cbv zeta.
  unfold update_bound_multipliers, SetTrialBoundMultipliersFromStep.
  unfold_M. simpl. rewrite Hc. simpl. rewrite Ht, Hc. simpl.
  set (z_L := Vec.Axpy (IteratesVector.z_L c) _ _).
  set (z_U := Vec.Axpy (IteratesVector.z_U c) _ _).
  set (v_L := Vec.Axpy (IteratesVector.v_L c) _ _).
  set (v_U := Vec.Axpy (IteratesVector.v_U c) _ _).
  clearbody z_L z_U v_L v_U.
  set (thr := bound_mult_reset_threshold_ (self w)). clearbody thr.
  pose proof (Max4_Amax_ge z_L z_U v_L v_U) as Hge.
  pose proof (Max4_Amax_attained z_L z_U v_L v_U) as Hatt.
  destruct (Qcltb thr (Vec.Max4 _ _ _ _)) eqn:Hmax; simpl.
  - apply Qcltb_lt in Hmax.
    eexists. split; [reflexivity |]. simpl.
    repeat (split; [reflexivity |]). split.
    + intros _. now rewrite !SetAll_replicate.
    + intros Hall. destruct Hatt as [H0 | (e & He & Hmaxe)].
      * assert (z_L ++ z_U ++ v_L ++ v_U = []) as Hnil.
        { destruct (z_L ++ z_U ++ v_L ++ v_U) as [| e l] eqn:Hl;
            [reflexivity |].
          assert (Qcabs.Qcabs e ≤ thr) as H1
            by (apply Hall, elem_of_cons; now left).
          pose proof (Qcabs.Qcabs_nonneg e) as H2.
          rewrite H0 in Hmax.
          exfalso. apply (Qclt_not_le _ _ Hmax).
          now transitivity (Qcabs.Qcabs e). }
        apply app_eq_nil in Hnil as [-> Hnil].
        apply app_eq_nil in Hnil as [-> Hnil].
        apply app_eq_nil in Hnil as [-> ->].
        now repeat split.
      * exfalso. apply (Qclt_not_le _ _ Hmax). rewrite Hmaxe.
        now apply Hall.
  - apply Qcltb_nlt in Hmax.
    eexists. split; [reflexivity |]. simpl.
    repeat (split; [reflexivity |]). split.
    + intros (e & He & Hlt). exfalso. apply (Qclt_not_le _ _ Hlt).
      etransitivity; [now apply Hge | exact Hmax].
    + intros _. now repeat split.
Qed.

Lemma solve_resto_problem_settings o :
  keeps same_settings
    (solve_resto_problem new_IpoptData resto_alg_Initialize
       resto_alg_Optimize o).
Proof.
  intros w. destruct (solve_resto_problem_Returns o w)
    as (st & rd & d' & _ & ->).
  unfold same_settings. simpl. repeat split.
Qed.

Lemma settings_when_solved w sq o w1 st rd w2 :
  enter_restoration IPOPT_CHECKLEVEL WallclockTime CpuTime IpCq w
  = (Returns (sq, o), w1) →
  solve_resto_problem new_IpoptData resto_alg_Initialize resto_alg_Optimize
    o w1 = (Returns (st, rd), w2) →
  same_settings w w2.
Proof.
  intros He Hs. transitivity w1.
  - pose proof (enter_restoration_settings w) as H. now rewrite He in H.
  - pose proof (solve_resto_problem_settings o w1) as H. now rewrite Hs in H.
Qed.

(** A call leaves the settings read at initialisation as they are. *)
Lemma PerformRestoration_settings :
  keeps same_settings
    (PerformRestoration IPOPT_CHECKLEVEL WallclockTime CpuTime IpCq
       new_IpoptData resto_alg_Initialize resto_alg_Optimize
       least_square_mults).
Proof.
  unfold PerformRestoration. apply keeps_bind; try apply _.
  { apply enter_restoration_settings. }
  intros [sq o]. apply keeps_bind; try apply _.
  { apply solve_resto_problem_settings. }
  intros [st rd] w. apply same_object_settings, after_solve_object.
Qed.

Lemma update_bound_multipliers_Returns w c t :
  IpoptData.curr (IpData w) = Some c →
  IpoptData.trial (IpData w) = Some t →
  ∃ w', update_bound_multipliers IpCq w = (Returns (), w').
Proof.
  intros Hc Ht.
  unfold update_bound_multipliers, SetTrialBoundMultipliersFromStep.
  unfold_M. simpl. rewrite Hc. simpl. rewrite Ht, Hc. simpl.
  destruct (Qcltb _ _); eexists; reflexivity.
Qed.

(** The path of a successful restoration phase that goes on to the outer
    iteration: the primal and slack blocks of the restoration iterate are
    put into the trial point, the bound multipliers are updated (lines
    366-411), the multiplier estimator runs, the iteration count becomes
    that of the restoration phase less one, and the call returns true. *)
Lemma PerformRestoration_success w sq o w1 rd w2 rc t w4 :
  enter_restoration IPOPT_CHECKLEVEL WallclockTime CpuTime IpCq w
  = (Returns (sq, o), w1) →
  solve_resto_problem new_IpoptData resto_alg_Initialize resto_alg_Optimize
    o w1 = (Returns (SUCCESS, rd), w2) →
  IpoptData.curr rd = Some rc →
  IpoptData.trial (IpData w2) = Some t →
  let d3 :=
    IpoptData.set_trial (IpData w2)
      (IteratesVector.Set_primal t
         (first_comp (IteratesVector.x rc))
         (first_comp (IteratesVector.s rc))) in
  sq = false
  ∨ constr_viol_tol_ (self w2)
    < unscaled_curr_nlp_constraint_violation IpCq NORM_MAX d3 →
  update_bound_multipliers IpCq (with_IpData w2 d3) = (Returns (), w4) →
  PerformRestoration IPOPT_CHECKLEVEL WallclockTime CpuTime IpCq
    new_IpoptData resto_alg_Initialize resto_alg_Optimize
    least_square_mults w
  = (Returns true,
     with_IpData w4
       (IpoptData.Set_info_last_output
          (IpoptData.Set_info_iters_since_header
             (IpoptData.Set_info_skip_output
                (IpoptData.Set_iter_count
                   (least_square_mults
                      (constr_mult_reset_threshold_ (self w4)) (IpData w4))
                   (IpoptData.iter_count rd - 1)%Z)
                true)
             (IpoptData.info_iters_since_header rd))
          (IpoptData.info_last_output rd))).
Proof.
  intros He Hs Hrc Ht d3 Hgo Hu.
  rewrite (PerformRestoration_phases _ _ _ _ _ _ _ He Hs).
  unfold copy_resto_curr_on_failure, classify_resto_status,
    take_over_resto_result.
  unfold_M. simpl. rewrite Hrc. simpl. rewrite Ht. simpl.
  assert ((if sq
           then
             if Qcleb
                  (unscaled_curr_nlp_constraint_violation IpCq NORM_MAX d3)
                  (constr_viol_tol_ (self w2))
             then false else true
           else true) = true) as Hcont.
  { destruct Hgo as [-> | Hlt]; [reflexivity |].
    apply Qcleb_nle in Hlt. rewrite Hlt. now destruct sq. }
  destruct sq; simpl.
  - destruct (Qcleb _ _) eqn:Hle in Hcont; [discriminate |].
    use_test Hle. simpl.
    match goal with
    | |- context [update_bound_multipliers IpCq ?x] =>
        rewrite (Hu : update_bound_multipliers IpCq x = _)
    end.
    reflexivity.
  - match goal with
    | |- context [update_bound_multipliers IpCq ?x] =>
        rewrite (Hu : update_bound_multipliers IpCq x = _)
    end.
    reflexivity.
Qed.

(** C4.  On the path of a successful restoration that goes on to the outer
    iteration (SUCCESS on a problem that is not square, or on a square one
    whose violation exceeds constr_viol_tol_), the call takes the step
    trial_z = curr_z + alpha_dual * delta_z for the four bound multipliers
    of the trial point that holds the primal and slack blocks of the
    restoration iterate.  When an entry of the four resulting vectors
    exceeds bound_mult_reset_threshold_ in absolute value, every entry of
    the four trial bound multipliers is 1; when none does, the four are
    the computed vectors.  The other components of the trial point stay,
    and the trial point so obtained is the one on which the multiplier
    estimator runs before the call returns true. *)
Theorem PerformRestoration_bound_multipliers w sq o w1 rd w2 rc t c :
  enter_restoration IPOPT_CHECKLEVEL WallclockTime CpuTime IpCq w
  = (Returns (sq, o), w1) →
  solve_resto_problem new_IpoptData resto_alg_Initialize resto_alg_Optimize
    o w1 = (Returns (SUCCESS, rd), w2) →
  IpoptData.curr rd = Some rc →
  IpoptData.trial (IpData w2) = Some t →
  IpoptData.curr (IpData w2) = Some c →
  let d :=
    IpoptData.set_trial (IpData w2)
      (IteratesVector.Set_primal t
         (first_comp (IteratesVector.x rc))
         (first_comp (IteratesVector.s rc))) in
  sq = false
  ∨ constr_viol_tol_ (self w)
    < unscaled_curr_nlp_constraint_violation IpCq NORM_MAX d →
  let delta := IteratesVector.MakeNewZero c in
  let delta_z_L :=
    ComputeBoundMultiplierStep d (IteratesVector.z_L delta)
      (IteratesVector.z_L c) (curr_slack_x_L IpCq d)
      (trial_slack_x_L IpCq d) in
  let delta_z_U :=
    ComputeBoundMultiplierStep d (IteratesVector.z_U delta)
      (IteratesVector.z_U c) (curr_slack_x_U IpCq d)
      (trial_slack_x_U IpCq d) in
  let delta_v_L :=
    ComputeBoundMultiplierStep d (IteratesVector.v_L delta)
      (IteratesVector.v_L c) (curr_slack_s_L IpCq d)
      (trial_slack_s_L IpCq d) in
  let delta_v_U :=
    ComputeBoundMultiplierStep d (IteratesVector.v_U delta)
      (IteratesVector.v_U c) (curr_slack_s_U IpCq d)
      (trial_slack_s_U IpCq d) in
  let alpha_dual :=
    dual_frac_to_the_bound IpCq (IpoptData.curr_tau d)
      delta_z_L delta_z_U delta_v_L delta_v_U d in
  let z_L := Vec.Axpy (IteratesVector.z_L c) alpha_dual delta_z_L in
  let z_U := Vec.Axpy (IteratesVector.z_U c) alpha_dual delta_z_U in
  let v_L := Vec.Axpy (IteratesVector.v_L c) alpha_dual delta_v_L in
  let v_U := Vec.Axpy (IteratesVector.v_U c) alpha_dual delta_v_U in
  ∃ t',
    PerformRestoration IPOPT_CHECKLEVEL WallclockTime CpuTime IpCq
      new_IpoptData resto_alg_Initialize resto_alg_Optimize
      least_square_mults w
    = (Returns true,
       with_IpData w2
         (IpoptData.Set_info_last_output
            (IpoptData.Set_info_iters_since_header
               (IpoptData.Set_info_skip_output
                  (IpoptData.Set_iter_count
                     (least_square_mults
                        (constr_mult_reset_threshold_ (self w))
                        (IpoptData.set_trial d t'))
                     (IpoptData.iter_count rd - 1)%Z)
                  true)
               (IpoptData.info_iters_since_header rd))
            (IpoptData.info_last_output rd)))
    ∧ IteratesVector.x t' = first_comp (IteratesVector.x rc)
    ∧ IteratesVector.s t' = first_comp (IteratesVector.s rc)
    ∧ IteratesVector.y_c t' = IteratesVector.y_c t
    ∧ IteratesVector.y_d t' = IteratesVector.y_d t
    ∧ ((∃ e, e ∈ z_L ++ z_U ++ v_L ++ v_U
             ∧ bound_mult_reset_threshold_ (self w) < Qcabs.Qcabs e) →
       IteratesVector.z_L t' = replicate (length z_L) 1
       ∧ IteratesVector.z_U t' = replicate (length z_U) 1
       ∧ IteratesVector.v_L t' = replicate (length v_L) 1
       ∧ IteratesVector.v_U t' = replicate (length v_U) 1)
    ∧ ((∀ e, e ∈ z_L ++ z_U ++ v_L ++ v_U →
             Qcabs.Qcabs e ≤ bound_mult_reset_threshold_ (self w)) →
       IteratesVector.z_L t' = z_L
       ∧ IteratesVector.z_U t' = z_U
       ∧ IteratesVector.v_L t' = v_L
       ∧ IteratesVector.v_U t' = v_U).
Proof.
  intros He Hs Hrc Ht Hc d Hgo. cbv zeta.
  pose proof (settings_when_solved _ _ _ _ _ _ _ He Hs)
    as (Hm & Hb & _ & Htol & _).
  pose proof (update_bound_multipliers_reset (with_IpData w2 d) c
                (IteratesVector.Set_primal t
                   (first_comp (IteratesVector.x rc))
                   (first_comp (IteratesVector.s rc)))
                Hc eq_refl) as H.
  cbv zeta in H.
  destruct H as (t' & Hu & Hx & Hs' & Hyc & Hyd & Hreset & Hkeep).
  exists t'. rewrite <- Hm, <- Hb. rewrite <- Htol in Hgo.
  split.
  { rewrite (PerformRestoration_success w sq o w1 rd w2 rc t _
               He Hs Hrc Ht Hgo Hu).
    reflexivity. }
  split; [exact Hx |]. split; [exact Hs' |].
  split; [exact Hyc |]. split; [exact Hyd |].
  split; [exact Hreset | exact Hkeep].
Qed.

(** C5 (as the code has it).  On a square problem:
    - when the restoration problem ends with SUCCESS and the unscaled
      constraint violation (max-norm) the outer data give, once the
      restoration iterate's primal and slack blocks are in the trial point,
      is at most constr_viol_tol_, the call accepts that trial point and
      throws FEASIBILITY_PROBLEM_SOLVED instead of returning (the bound
      multipliers are not updated on this path);
    - when it ends with SUCCESS and that violation exceeds
      constr_viol_tol_, the call goes on as on a problem that is not
      square: the bound multipliers are updated (lines 366-411), the
      multiplier estimator runs, the counters are set, and the call
      returns true;
    - when it ends with STOP_AT_ACCEPTABLE_POINT and the violation is
      strictly below constr_viol_tol_, the call throws
      FEASIBILITY_PROBLEM_SOLVED, in the state lines 196-247 left. *)
Theorem PerformRestoration_square_problem w sq o w1 st rd w2 :
  IsSquareProblem IpCq = true →
  enter_restoration IPOPT_CHECKLEVEL WallclockTime CpuTime IpCq w
  = (Returns (sq, o), w1) →
  solve_resto_problem new_IpoptData resto_alg_Initialize resto_alg_Optimize
    o w1 = (Returns (st, rd), w2) →
  (∀ rc t,
     st = SUCCESS →
     IpoptData.curr rd = Some rc →
     IpoptData.trial (IpData w2) = Some t →
     let d3 :=
       IpoptData.set_trial (IpData w2)
         (IteratesVector.Set_primal t
            (first_comp (IteratesVector.x rc))
            (first_comp (IteratesVector.s rc))) in
     (unscaled_curr_nlp_constraint_violation IpCq NORM_MAX d3
      ≤ constr_viol_tol_ (self w) →
      PerformRestoration IPOPT_CHECKLEVEL WallclockTime CpuTime IpCq
        new_IpoptData resto_alg_Initialize resto_alg_Optimize
        least_square_mults w
      = (Throws FEASIBILITY_PROBLEM_SOLVED,
         with_IpData w2 (IpoptData.AcceptTrialPoint d3)))
     ∧ (constr_viol_tol_ (self w)
        < unscaled_curr_nlp_constraint_violation IpCq NORM_MAX d3 →
        is_Some (IpoptData.curr (IpData w2)) →
        ∃ w4,
          update_bound_multipliers IpCq (with_IpData w2 d3)
          = (Returns (), w4)
          ∧ PerformRestoration IPOPT_CHECKLEVEL WallclockTime CpuTime IpCq
              new_IpoptData resto_alg_Initialize resto_alg_Optimize
              least_square_mults w
            = (Returns true,
               with_IpData w4
                 (IpoptData.Set_info_last_output
                    (IpoptData.Set_info_iters_since_header
                       (IpoptData.Set_info_skip_output
                          (IpoptData.Set_iter_count
                             (least_square_mults
                                (constr_mult_reset_threshold_ (self w))
                                (IpData w4))
                             (IpoptData.iter_count rd - 1)%Z)
                          true)
                       (IpoptData.info_iters_since_header rd))
                    (IpoptData.info_last_output rd)))))
  ∧ (∀ w3,
       st = STOP_AT_ACCEPTABLE_POINT →
       copy_resto_curr_on_failure st rd w2 = (Returns (), w3) →
       unscaled_curr_nlp_constraint_violation IpCq NORM_MAX (IpData w3)
       < constr_viol_tol_ (self w) →
       PerformRestoration IPOPT_CHECKLEVEL WallclockTime CpuTime IpCq
         new_IpoptData resto_alg_Initialize resto_alg_Optimize
         least_square_mults w
       = (Throws FEASIBILITY_PROBLEM_SOLVED, w3)).
Proof.
  intros Hsq He Hs.
  pose proof (settings_when_solved _ _ _ _ _ _ _ He Hs)
    as (Hm & _ & _ & Htol & _).
  destruct (enter_restoration_Returns _ _ _ _ He) as (Hsq' & _ & _).
  rewrite Hsq in Hsq'. subst sq.
  split.
  - intros rc t -> Hrc Ht d3. split.
    + intros Hle.
      rewrite (PerformRestoration_phases _ _ _ _ _ _ _ He Hs).
      unfold copy_resto_curr_on_failure, classify_resto_status,
        take_over_resto_result.
      unfold_M. simpl. rewrite Hrc. simpl. rewrite Ht. simpl.
      rewrite Htol. apply Qcleb_le in Hle. use_test Hle. reflexivity.
    + intros Hlt [c Hc].
      destruct (update_bound_multipliers_Returns (with_IpData w2 d3) c
                  (IteratesVector.Set_primal t
                     (first_comp (IteratesVector.x rc))
                     (first_comp (IteratesVector.s rc))))
        as [w4 Hu]; [exact Hc | reflexivity |].
      exists w4. split; [exact Hu |].
      pose proof (update_bound_multipliers_object (with_IpData w2 d3))
        as [H4 _].
      rewrite Hu in H4. simpl in H4.
      rewrite <- Hm, <- H4. rewrite <- Htol in Hlt.
      apply (PerformRestoration_success w true o w1 rd w2 rc t w4
               He Hs Hrc Ht (or_intror Hlt) Hu).
  - intros w3 -> Hc Hlt.
    rewrite (PerformRestoration_phases _ _ _ _ _ _ _ He Hs).
    rewrite (bind_Returns _ _ _ _ _ Hc).
    pose proof (copy_resto_curr_on_failure_object STOP_AT_ACCEPTABLE_POINT
                  rd w2) as [H3 _].
    rewrite Hc in H3. simpl in H3.
    unfold classify_resto_status. unfold_M. simpl.
    rewrite H3, Htol. apply Qcltb_lt in Hlt. use_test Hlt. reflexivity.
Qed.

(** C8.  When the options hold no value for
    resto_failure_feasibility_threshold (with or without the prefix),
    InitializeImpl sets the threshold to 1e2 times the tolerance tol of
    IpData(); and a call of PerformRestoration leaves the threshold as it
    found it, whatever its outcome. *)
Theorem resto_failure_feasibility_threshold_default
    (eq_mult_calculator_Initialize : option (OptionsList → string → bool))
    (options : OptionsList) (prefix : string) (w0 : World) :
  find_numeric options "resto_failure_feasibility_threshold" prefix = None →
  resto_failure_feasibility_threshold_
    (self (InitializeImpl eq_mult_calculator_Initialize options prefix w0).2)
  = num_1e2 * IpoptData.tol (IpData w0)
  ∧ ∀ w,
      resto_failure_feasibility_threshold_
        (self (PerformRestoration IPOPT_CHECKLEVEL WallclockTime CpuTime
                 IpCq new_IpoptData resto_alg_Initialize resto_alg_Optimize
                 least_square_mults w).2)
      = resto_failure_feasibility_threshold_ (self w).
Proof.
  intros Hunset. split.
  - unfold InitializeImpl, GetNumericValue. unfold_M. simpl.
    now rewrite Hunset.
  - intros w. apply PerformRestoration_settings.
Qed.

(** ** More on the call *)

(** Whatever the entry comes to, it advances the call counter by one and
    writes no stored option but the two time limits of the restoration
    phase. *)
Lemma enter_restoration_object w :
  count_restorations_
    (self (enter_restoration IPOPT_CHECKLEVEL WallclockTime CpuTime IpCq w).2)
  = (count_restorations_ (self w) + 1)%Z
  ∧ string_values
      (resto_options_
         (self (enter_restoration IPOPT_CHECKLEVEL WallclockTime CpuTime
                  IpCq w).2))
    = string_values (resto_options_ (self w))
  ∧ ∀ k : string,
      k ≠ "resto.max_wall_time" → k ≠ "resto.max_cpu_time" →
      numeric_values
        (resto_options_
           (self (enter_restoration IPOPT_CHECKLEVEL WallclockTime CpuTime
                    IpCq w).2)) !! k
      = numeric_values (resto_options_ (self w)) !! k.
Proof.
  unfold enter_restoration, actual_resto_options, resto_time_limits.
  run_block; (split; [reflexivity |]); (split; [reflexivity |]);
    intros k Hw Hc; rewrite ?lookup_insert_ne by congruence; reflexivity.
Qed.

(** After the entry the object is left alone, and the restoration
    algorithm is called once or not at all. *)
Lemma PerformRestoration_after_entry w :
  self (PerformRestoration IPOPT_CHECKLEVEL WallclockTime CpuTime IpCq
          new_IpoptData resto_alg_Initialize resto_alg_Optimize
          least_square_mults w).2
  = self (enter_restoration IPOPT_CHECKLEVEL WallclockTime CpuTime IpCq w).2
  ∧ (resto_alg_calls
       (PerformRestoration IPOPT_CHECKLEVEL WallclockTime CpuTime IpCq
          new_IpoptData resto_alg_Initialize resto_alg_Optimize
          least_square_mults w).2
     = resto_alg_calls w
     ∨ ∃ o,
         resto_alg_calls
           (PerformRestoration IPOPT_CHECKLEVEL WallclockTime CpuTime IpCq
              new_IpoptData resto_alg_Initialize resto_alg_Optimize
              least_square_mults w).2
         = resto_alg_calls w
           ++ [CallInitialize o "resto."; CallOptimize true]).
Proof.
  destruct (enter_restoration_data w) as [_ Hlog].
  destruct (enter_restoration IPOPT_CHECKLEVEL WallclockTime CpuTime IpCq w)
    as [out w1] eqn:He.
  simpl in Hlog. simpl.
  destruct out as [[sq o] | e | |].
  - destruct (solve_resto_problem_Returns o w1) as (st & rd & d' & _ & Hs).
    rewrite (PerformRestoration_phases _ _ _ _ _ _ _ He Hs).
    destruct (after_solve_object sq st rd
                {| self := self w1; IpData := d';
                   resto_alg_calls :=
                     resto_alg_calls w1
                     ++ [CallInitialize o "resto."; CallOptimize true] |})
      as [Hself Hl].
    split; [exact Hself |]. right. exists o. rewrite Hl. simpl.
    now rewrite Hlog.
  - destruct (PerformRestoration_stops_at_entry _ _ _ He) as [-> _];
      [discriminate |]. split; [reflexivity | now left].
  - destruct (PerformRestoration_stops_at_entry _ _ _ He) as [-> _];
      [discriminate |]. split; [reflexivity | now left].
  - destruct (PerformRestoration_stops_at_entry _ _ _ He) as [-> _];
      [discriminate |]. split; [reflexivity | now left].
Qed.

(** X1.  Every call advances the counter of restoration phases by exactly
    one, whether it returns, throws or stops at an assertion, as long as
    the counter is below the largest Index; it is an Index then. *)
Theorem PerformRestoration_counts_every_call w :
  (Index_min ≤ count_restorations_ (self w) < Index_max)%Z →
  count_restorations_
    (self (PerformRestoration IPOPT_CHECKLEVEL WallclockTime CpuTime IpCq
             new_IpoptData resto_alg_Initialize resto_alg_Optimize
             least_square_mults w).2)
  = (count_restorations_ (self w) + 1)%Z
  ∧ (Index_min
     ≤ count_restorations_
         (self (PerformRestoration IPOPT_CHECKLEVEL WallclockTime CpuTime
                  IpCq new_IpoptData resto_alg_Initialize resto_alg_Optimize
                  least_square_mults w).2)
     ≤ Index_max)%Z.
Proof.
  intros Hrange.
  destruct (PerformRestoration_after_entry w) as [-> _].
  destruct (enter_restoration_object w) as [-> _].
  split; [reflexivity | lia].
Qed.

(** X2.  A call invokes the restoration algorithm at most once: the log of
    calls either stays as it was or grows by one Initialize with the prefix
    resto. followed by one Optimize(true). *)
Theorem PerformRestoration_calls_algorithm_at_most_once w :
  resto_alg_calls
    (PerformRestoration IPOPT_CHECKLEVEL WallclockTime CpuTime IpCq
       new_IpoptData resto_alg_Initialize resto_alg_Optimize
       least_square_mults w).2
  = resto_alg_calls w
  ∨ ∃ o,
      resto_alg_calls
        (PerformRestoration IPOPT_CHECKLEVEL WallclockTime CpuTime IpCq
           new_IpoptData resto_alg_Initialize resto_alg_Optimize
           least_square_mults w).2
      = resto_alg_calls w ++ [CallInitialize o "resto."; CallOptimize true].
Proof. apply PerformRestoration_after_entry. Qed.

(** X3.  The only stored options a call ever writes are resto.max_wall_time
    and resto.max_cpu_time: every other numeric option and every string
    option of resto_options_ is after the call what it was before.  In
    particular the overrides for square or infeasible problems go to the
    copy the algorithm is given, not to the stored options. *)
Theorem PerformRestoration_stored_options w (k : string) :
  k ≠ "resto.max_wall_time" →
  k ≠ "resto.max_cpu_time" →
  numeric_values
    (resto_options_
       (self (PerformRestoration IPOPT_CHECKLEVEL WallclockTime CpuTime IpCq
                new_IpoptData resto_alg_Initialize resto_alg_Optimize
                least_square_mults w).2)) !! k
  = numeric_values (resto_options_ (self w)) !! k
  ∧ string_values
      (resto_options_
         (self (PerformRestoration IPOPT_CHECKLEVEL WallclockTime CpuTime
                  IpCq new_IpoptData resto_alg_Initialize resto_alg_Optimize
                  least_square_mults w).2))
    = string_values (resto_options_ (self w)).
Proof.
  intros Hw Hc. destruct (PerformRestoration_after_entry w) as [-> _].
  destruct (enter_restoration_object w) as (_ & Hs & Hn).
  split; [now apply Hn | exact Hs].
Qed.

(** What the time limits write into the stored options when they let the
    call go on. *)
Lemma resto_time_limits_written w w1 :
  resto_time_limits IPOPT_CHECKLEVEL WallclockTime CpuTime w
  = (Returns (), w1) →
  resto_options_ (self w1)
  = with_remaining_time (self w)
      (max_wall_time_ (self w)
       - (WallclockTime - IpoptData.StartWallclockTime (IpData w)))
      (max_cpu_time_ (self w)
       - (CpuTime - IpoptData.StartCpuTime (IpData w)))
      (resto_options_ (self w))
  ∧ (max_wall_time_ (self w) < num_1e20 →
     WallclockTime - IpoptData.StartWallclockTime (IpData w)
     < max_wall_time_ (self w))
  ∧ (max_cpu_time_ (self w) < num_1e20 →
     CpuTime - IpoptData.StartCpuTime (IpData w) < max_cpu_time_ (self w)).
Proof.
  intros H. revert H. unfold resto_time_limits, with_remaining_time.
  unfold_M. simpl.
  repeat (case_match; simplify_eq; simpl); intros; simplify_eq; simpl;
    (split; [reflexivity |]);
    (split; intros Hlt; apply Qcltb_lt in Hlt; try congruence);
    apply Qcleb_nle; assumption.
Qed.

(** The options the algorithm is given are the stored ones, or a copy of
    them with the overrides of lines 157-175. *)
Lemma actual_resto_options_overrides sq w o w1 :
  actual_resto_options IpCq sq w = (Returns o, w1) →
  o = resto_options_ (self w)
  ∨ o = SetNumericValueIfUnset (resto_options_ (self w))
          "required_infeasibility_reduction" 0
  ∨ o = SetStringValueIfUnset (resto_options_ (self w))
          "resto.expect_infeasible_problem" "no"
  ∨ o = SetNumericValueIfUnset
          (SetStringValueIfUnset (resto_options_ (self w))
             "resto.expect_infeasible_problem" "no")
          "required_infeasibility_reduction" num_1em3.
Proof.
  unfold actual_resto_options. unfold_M. simpl.
  repeat case_match; intros [= <- _]; auto.
Qed.

(** A call that gets past its entry calls the algorithm with the options
    of the entry. *)
Lemma PerformRestoration_calls_when_entered w sq o w1 :
  enter_restoration IPOPT_CHECKLEVEL WallclockTime CpuTime IpCq w
  = (Returns (sq, o), w1) →
  resto_alg_calls
    (PerformRestoration IPOPT_CHECKLEVEL WallclockTime CpuTime IpCq
       new_IpoptData resto_alg_Initialize resto_alg_Optimize
       least_square_mults w).2
  = resto_alg_calls w ++ [CallInitialize o "resto."; CallOptimize true].
Proof.
  intros He.
  destruct (solve_resto_problem_Returns o w1) as (st & rd & d' & _ & Hs).
  rewrite (PerformRestoration_phases _ _ _ _ _ _ _ He Hs).
  destruct (after_solve_object sq st rd
              {| self := self w1; IpData := d';
                 resto_alg_calls :=
                   resto_alg_calls w1
                   ++ [CallInitialize o "resto."; CallOptimize true] |})
    as [_ Hl].
  rewrite Hl. simpl.
  destruct (enter_restoration_data w) as [_ H]. rewrite He in H.
  simpl in H. now rewrite H.
Qed.

(** X4.  When the call goes on to the restoration problem, the time limits
    of the restoration algorithm have been set from what is left of the
    outer ones.  For each limit below 1e20 the call has set
    resto.max_wall_time (resto.max_cpu_time) in the stored options, with
    SetNumericValue, to the limit less the time elapsed since the overall
    algorithm started, which is strictly positive; that is all the call
    does to the stored options.  The options of the one Initialize call
    are these stored options, or the copy of them with the overrides of
    lines 157-175, none of which names a time limit. *)
Theorem PerformRestoration_remaining_time w sq o w1 :
  enter_restoration IPOPT_CHECKLEVEL WallclockTime CpuTime IpCq w
  = (Returns (sq, o), w1) →
  let remaining_wall :=
    max_wall_time_ (self w)
    - (WallclockTime - IpoptData.StartWallclockTime (IpData w)) in
  let remaining_cpu :=
    max_cpu_time_ (self w)
    - (CpuTime - IpoptData.StartCpuTime (IpData w)) in
  let stored :=
    with_remaining_time (self w) remaining_wall remaining_cpu
      (resto_options_ (self w)) in
  let run :=
    PerformRestoration IPOPT_CHECKLEVEL WallclockTime CpuTime IpCq
      new_IpoptData resto_alg_Initialize resto_alg_Optimize
      least_square_mults w in
  resto_options_ (self run.2) = stored
  ∧ (max_wall_time_ (self w) < num_1e20 → 0 < remaining_wall)
  ∧ (max_cpu_time_ (self w) < num_1e20 → 0 < remaining_cpu)
  ∧ resto_alg_calls run.2
    = resto_alg_calls w ++ [CallInitialize o "resto."; CallOptimize true]
  ∧ (o = stored
     ∨ o = SetNumericValueIfUnset stored
             "required_infeasibility_reduction" 0
     ∨ o = SetStringValueIfUnset stored
             "resto.expect_infeasible_problem" "no"
     ∨ o = SetNumericValueIfUnset
             (SetStringValueIfUnset stored
                "resto.expect_infeasible_problem" "no")
             "required_infeasibility_reduction" num_1em3).
Proof.
  intros He. cbv zeta.
  destruct (enter_restoration_Returns _ _ _ _ He) as (_ & Ht & Ha).
  destruct (resto_time_limits_written _ _ Ht) as (Hstored & Hwall & Hcpu).
  simpl in Hstored, Hwall, Hcpu.
  set (stored := with_remaining_time (self w) _ _ _).
  assert (resto_options_ (self w1) = stored) as Hst by exact Hstored.
  clearbody stored.
  destruct (PerformRestoration_after_entry w) as [-> _].
  rewrite He. simpl.
  split; [exact Hst |].
  split.
  { intros Hlt. apply Hwall in Hlt. apply Qclt_minus_iff in Hlt.
    exact Hlt. }
  split.
  { intros Hlt. apply Hcpu in Hlt. apply Qclt_minus_iff in Hlt.
    exact Hlt. }
  split; [exact (PerformRestoration_calls_when_entered _ _ _ _ He) |].
  rewrite <- Hst. exact (actual_resto_options_overrides _ _ _ _ Ha).
Qed.

(** X5.  On a problem that is not square and is expected to be infeasible,
    the options of the one Initialize call of the restoration algorithm
    have resto.expect_infeasible_problem = no unless that option is
    already set; and they ask for a reduction of the infeasibility
    (required_infeasibility_reduction = 1e-3, unless that option is
    already set) only when the call counter was 0 before the call, as
    InitializeImpl leaves it, and the constraint violation exceeds the
    double 1e-3.  In every other call the option is passed as stored. *)
Theorem PerformRestoration_expecting_infeasibility w sq o w1 :
  IsSquareProblem IpCq = false →
  expect_infeasible_problem_ (self w) = true →
  enter_restoration IPOPT_CHECKLEVEL WallclockTime CpuTime IpCq w
  = (Returns (sq, o), w1) →
  resto_alg_calls
    (PerformRestoration IPOPT_CHECKLEVEL WallclockTime CpuTime IpCq
       new_IpoptData resto_alg_Initialize resto_alg_Optimize
       least_square_mults w).2
  = resto_alg_calls w ++ [CallInitialize o "resto."; CallOptimize true]
  ∧ string_values o !! "resto.expect_infeasible_problem"
  = Some (default "no"
            (string_values (resto_options_ (self w))
             !! "resto.expect_infeasible_problem"))
  ∧ (count_restorations_ (self w) = 0%Z →
     num_1em3 < curr_constraint_violation IpCq (IpData w) →
     numeric_values o !! "required_infeasibility_reduction"
     = Some (default num_1em3
               (numeric_values (resto_options_ (self w))
                !! "required_infeasibility_reduction")))
  ∧ (count_restorations_ (self w) ≠ 0%Z
     ∨ curr_constraint_violation IpCq (IpData w) ≤ num_1em3 →
     numeric_values o !! "required_infeasibility_reduction"
     = numeric_values (resto_options_ (self w))
       !! "required_infeasibility_reduction").
Proof.
  intros Hsq Hexp He.
  split; [exact (PerformRestoration_calls_when_entered _ _ _ _ He) |].
  destruct (enter_restoration_Returns _ _ _ _ He) as (-> & _ & Ha).
  pose proof (enter_restoration_settings w) as (_ & _ & Hexp1 & _).
  destruct (enter_restoration_object w) as (Hcount & Hstr & Hnum).
  destruct (enter_restoration_data w) as [Hdata _].
  rewrite He in Hexp1, Hcount, Hstr, Hnum, Hdata.
  simpl in Hexp1, Hcount, Hstr, Hnum, Hdata.
  specialize (Hnum "required_infeasibility_reduction"
                ltac:(discriminate) ltac:(discriminate)).
  revert Ha. rewrite Hsq.
  unfold actual_resto_options, SetNumericValueIfUnset,
    SetStringValueIfUnset, SetNumericValue, SetStringValue,
    GetNumericValue, find_numeric, find_string.
  unfold_M. simpl.
  change ("" +:+ "resto.expect_infeasible_problem")
    with "resto.expect_infeasible_problem".
  change ("" +:+ "required_infeasibility_reduction")
    with "required_infeasibility_reduction".
  rewrite ?Hexp1, ?Hexp, ?Hcount, ?Hdata, ?Hstr, ?Hnum.
  destruct (string_values (resto_options_ (self w))
            !! "resto.expect_infeasible_problem") as [s|] eqn:Hs;
    destruct (numeric_values (resto_options_ (self w))
              !! "required_infeasibility_reduction") as [v|] eqn:Hv;
    simpl;
    (destruct (bool_decide (count_restorations_ (self w) + 1 = 1)%Z)
       eqn:Hone;
     [apply bool_decide_eq_true in Hone
     | apply bool_decide_eq_false in Hone];
     destruct (Qcltb num_1em3 (curr_constraint_violation IpCq (IpData w)))
       eqn:Hviol;
     [apply Qcltb_lt in Hviol | apply Qcltb_nlt in Hviol
     | apply Qcltb_lt in Hviol | apply Qcltb_nlt in Hviol];
     simpl; rewrite ?Hs, ?Hv, ?Hnum; simpl; intros [= <-]; simpl;
     rewrite ?Hstr, ?Hnum, ?Hs, ?Hv, ?lookup_insert_eq; simpl;
     (split; [reflexivity |]);
     (split;
      [ intros H0 Hlt;
        first [ reflexivity
              | exfalso; lia
              | exfalso; exact (Qclt_not_le _ _ Hlt Hviol) ]
      | intros [Hne | Hle];
        first [ reflexivity
              | exfalso; lia
              | exfalso; exact (Qclt_not_le _ _ Hviol Hle) ] ])).
Qed.

(** X6.  A call made with a positive constraint violation, when no time
    limit that is set has been reached, gets to the restoration problem:
    the algorithm is initialised and run. *)
Theorem PerformRestoration_within_time w :
  0 < curr_constraint_violation IpCq (IpData w) →
  0 ≤ WallclockTime - IpoptData.StartWallclockTime (IpData w) →
  0 ≤ CpuTime - IpoptData.StartCpuTime (IpData w) →
  (max_wall_time_ (self w) < num_1e20 →
   WallclockTime - IpoptData.StartWallclockTime (IpData w)
   < max_wall_time_ (self w)) →
  (max_cpu_time_ (self w) < num_1e20 →
   CpuTime - IpoptData.StartCpuTime (IpData w) < max_cpu_time_ (self w)) →
  ∃ o w1,
    enter_restoration IPOPT_CHECKLEVEL WallclockTime CpuTime IpCq w
    = (Returns (IsSquareProblem IpCq, o), w1)
    ∧ resto_alg_calls
        (PerformRestoration IPOPT_CHECKLEVEL WallclockTime CpuTime IpCq
           new_IpoptData resto_alg_Initialize resto_alg_Optimize
           least_square_mults w).2
      = resto_alg_calls w ++ [CallInitialize o "resto."; CallOptimize true].
Proof.
  intros Hviol Hw Hc Hwall Hcpu.
  apply Qcltb_lt in Hviol. apply Qcleb_le in Hw, Hc.
  assert (∃ o w1,
    enter_restoration IPOPT_CHECKLEVEL WallclockTime CpuTime IpCq w
    = (Returns (IsSquareProblem IpCq, o), w1)) as (o & w1 & He).
  { unfold enter_restoration, resto_time_limits, actual_resto_options.
    unfold_M. settle.
    destruct (Qcltb (max_wall_time_ (self w)) num_1e20) eqn:Hlw; settle.
    - apply Qcltb_lt, Hwall, Qcleb_nle in Hlw. settle.
      destruct (Qcltb (max_cpu_time_ (self w)) num_1e20) eqn:Hlc; settle.
      + apply Qcltb_lt, Hcpu, Qcleb_nle in Hlc. settle.
        repeat (case_match; simplify_eq; simpl); eauto.
      + repeat (case_match; simplify_eq; simpl); eauto.
    - destruct (Qcltb (max_cpu_time_ (self w)) num_1e20) eqn:Hlc; settle.
      + apply Qcltb_lt, Hcpu, Qcleb_nle in Hlc. settle.
        repeat (case_match; simplify_eq; simpl); eauto.
      + repeat (case_match; simplify_eq; simpl); eauto. }
  exists o, w1. split; [exact He |].
  exact (PerformRestoration_calls_when_entered _ _ _ _ He).
Qed.

(** ** The outcomes of a call *)

(** The entry stops only at a debug check that fails or at a time limit
    that is reached. *)
Lemma enter_restoration_stops w out w1 :
  enter_restoration IPOPT_CHECKLEVEL WallclockTime CpuTime IpCq w
  = (out, w1) →
  match out with
  | Returns (sq, _) => sq = IsSquareProblem IpCq
  | Throws e =>
      (e = RESTORATION_WALLTIME_EXCEEDED
       ∧ max_wall_time_ (self w) < num_1e20
       ∧ max_wall_time_ (self w)
         ≤ WallclockTime - IpoptData.StartWallclockTime (IpData w))
      ∨ (e = RESTORATION_CPUTIME_EXCEEDED
         ∧ max_cpu_time_ (self w) < num_1e20
         ∧ max_cpu_time_ (self w)
           ≤ CpuTime - IpoptData.StartCpuTime (IpData w))
  | AssertionFailed =>
      (0 < IPOPT_CHECKLEVEL)%nat
      ∧ (curr_constraint_violation IpCq (IpData w) ≤ 0
         ∨ (max_wall_time_ (self w) < num_1e20
            ∧ WallclockTime - IpoptData.StartWallclockTime (IpData w) < 0)
         ∨ (max_cpu_time_ (self w) < num_1e20
            ∧ CpuTime - IpoptData.StartCpuTime (IpData w) < 0))
  | InvalidPointer => False
  end.
Proof.
  unfold enter_restoration, resto_time_limits, actual_resto_options.
  unfold_M. simpl.
  repeat (case_match; simplify_eq; simpl); intros; simplify_eq;
    repeat match goal with
      | H : _ && _ = true |- _ => apply andb_true_iff in H as [? ?]
      | H : negb _ = true |- _ => apply negb_true_iff in H
      | H : (_ <? _)%nat = true |- _ => apply Nat.ltb_lt in H
      | H : Qcltb _ _ = true |- _ => apply Qcltb_lt in H
      | H : Qcltb _ _ = false |- _ => apply Qcltb_nlt in H
      | H : Qcleb _ _ = true |- _ => apply Qcleb_le in H
      | H : Qcleb _ _ = false |- _ => apply Qcleb_nle in H
      end;
    auto 8.
Qed.

(** The dispatch returns 0 for SUCCESS alone, and 1 only for a status it
    does not name. *)
Lemma classify_resto_status_Returns sq st w r w' :
  classify_resto_status IpCq sq st w = (Returns r, w') →
  (r = 0%Z ∧ st = SUCCESS) ∨ (r = 1%Z ∧ ∃ tag, st = OTHER_STATUS tag).
Proof.
  unfold classify_resto_status. unfold_M.
  destruct st; simpl;
    repeat (case_match; simplify_eq; simpl); intros; simplify_eq; eauto.
Qed.

Lemma classify_resto_status_Throws sq st w e w' :
  classify_resto_status IpCq sq st w = (Throws e, w') →
  (e = FEASIBILITY_PROBLEM_SOLVED → sq = true)
  ∧ (e = RESTORATION_CONVERGED_TO_FEASIBLE_POINT →
     curr_primal_infeasibility IpCq NORM_MAX (IpData w)
     ≤ resto_failure_feasibility_threshold_ (self w)).
Proof.
  unfold classify_resto_status. unfold_M.
  destruct st; simpl;
    repeat (case_match; simplify_eq; simpl); intros; simplify_eq;
    (split; intros Heq; try discriminate Heq);
    repeat match goal with
      | H : _ && _ = true |- _ => apply andb_true_iff in H as [? ?]
      | H : Qcleb _ _ = true |- _ => apply Qcleb_le in H
      end;
    assumption.
Qed.

Lemma copy_resto_curr_on_failure_Throws st rd w e w' :
  copy_resto_curr_on_failure st rd w = (Throws e, w') → False.
Proof. unfold copy_resto_curr_on_failure. run_block. Qed.

(** The one exception of lines 334-425 is that of a square problem. *)
Lemma take_over_resto_result_Throws sq rd w e w' :
  take_over_resto_result IpCq least_square_mults sq rd w = (Throws e, w') →
  e = FEASIBILITY_PROBLEM_SOLVED ∧ sq = true.
Proof.
  unfold take_over_resto_result, update_bound_multipliers,
    SetTrialBoundMultipliersFromStep.
  unfold_M. simpl.
  repeat (case_match; simplify_eq; simpl); intros; simplify_eq;
    split; reflexivity.
Qed.

(** X7.  When the restoration problem ends with a failure the dispatch
    names, other than a tiny step or an acceptable point, the call throws
    the exception of that status, on square and on non-square problems
    alike, in the state lines 196-247 left: RESTORATION_MAXITER_EXCEEDED,
    RESTORATION_CPUTIME_EXCEEDED and RESTORATION_WALLTIME_EXCEEDED for the
    three limits, LOCALLY_INFEASIBLE for LOCAL_INFEASIBILITY,
    RESTORATION_FAILED for RESTORATION_FAILURE and for
    ERROR_IN_STEP_COMPUTATION, RESTORATION_USER_STOP for
    USER_REQUESTED_STOP. *)
Theorem PerformRestoration_named_failure w sq o w1 st rd w2 w3 :
  enter_restoration IPOPT_CHECKLEVEL WallclockTime CpuTime IpCq w
  = (Returns (sq, o), w1) →
  solve_resto_problem new_IpoptData resto_alg_Initialize resto_alg_Optimize
    o w1 = (Returns (st, rd), w2) →
  copy_resto_curr_on_failure st rd w2 = (Returns (), w3) →
  let run :=
    PerformRestoration IPOPT_CHECKLEVEL WallclockTime CpuTime IpCq
      new_IpoptData resto_alg_Initialize resto_alg_Optimize
      least_square_mults w in
  (st = MAXITER_EXCEEDED → run = (Throws RESTORATION_MAXITER_EXCEEDED, w3))
  ∧ (st = CPUTIME_EXCEEDED → run = (Throws RESTORATION_CPUTIME_EXCEEDED, w3))
  ∧ (st = WALLTIME_EXCEEDED →
     run = (Throws RESTORATION_WALLTIME_EXCEEDED, w3))
  ∧ (st = LOCAL_INFEASIBILITY → run = (Throws LOCALLY_INFEASIBLE, w3))
  ∧ (st = RESTORATION_FAILURE → run = (Throws RESTORATION_FAILED, w3))
  ∧ (st = ERROR_IN_STEP_COMPUTATION →
     run = (Throws RESTORATION_FAILED, w3))
  ∧ (st = USER_REQUESTED_STOP → run = (Throws RESTORATION_USER_STOP, w3)).
Proof.
  intros He Hs Hc run. subst run.
  rewrite (PerformRestoration_phases _ _ _ _ _ _ _ He Hs).
  rewrite (bind_Returns _ _ _ _ _ Hc).
  unfold classify_resto_status. unfold_M.
  repeat split; intros ->; simpl; rewrite ?andb_false_r; reflexivity.
Qed.

(** X8.  The rule of the feasibility threshold holds on square problems
    too, wherever they are not declared solved: after a tiny step, and
    after an acceptable point whose unscaled constraint violation
    (max-norm) is not below constr_viol_tol_, the call throws
    RESTORATION_CONVERGED_TO_FEASIBLE_POINT when the primal infeasibility
    of the outer current iterate is at most
    resto_failure_feasibility_threshold_, and LOCALLY_INFEASIBLE
    otherwise. *)
Theorem PerformRestoration_square_not_solved w sq o w1 st rd w2 w3 :
  IsSquareProblem IpCq = true →
  enter_restoration IPOPT_CHECKLEVEL WallclockTime CpuTime IpCq w
  = (Returns (sq, o), w1) →
  solve_resto_problem new_IpoptData resto_alg_Initialize resto_alg_Optimize
    o w1 = (Returns (st, rd), w2) →
  copy_resto_curr_on_failure st rd w2 = (Returns (), w3) →
  st = STOP_AT_TINY_STEP
  ∨ (st = STOP_AT_ACCEPTABLE_POINT
     ∧ constr_viol_tol_ (self w)
       ≤ unscaled_curr_nlp_constraint_violation IpCq NORM_MAX (IpData w3)) →
  PerformRestoration IPOPT_CHECKLEVEL WallclockTime CpuTime IpCq
    new_IpoptData resto_alg_Initialize resto_alg_Optimize
    least_square_mults w
  = (Throws
       (if bool_decide
             (curr_primal_infeasibility IpCq NORM_MAX (IpData w3)
              ≤ resto_failure_feasibility_threshold_ (self w))
        then RESTORATION_CONVERGED_TO_FEASIBLE_POINT
        else LOCALLY_INFEASIBLE),
     w3).
Proof.
  intros Hsq He Hs Hc Hst.
  pose proof (settings_when_solved _ _ _ _ _ _ _ He Hs)
    as (_ & _ & _ & Htol & _ & _ & Hthr).
  pose proof (copy_resto_curr_on_failure_object st rd w2) as [H3 _].
  rewrite Hc in H3. simpl in H3.
  destruct (enter_restoration_Returns _ _ _ _ He) as (-> & _ & _).
  rewrite (PerformRestoration_phases _ _ _ _ _ _ _ He Hs).
  rewrite (bind_Returns _ _ _ _ _ Hc). rewrite Hsq.
  unfold classify_resto_status. unfold_M. simpl.
  rewrite H3, Htol, Hthr. unfold Qcleb at 1.
  destruct Hst as [-> | [-> Hle]]; simpl.
  - now case_bool_decide.
  - apply Qcltb_nlt in Hle. use_test Hle. simpl. now case_bool_decide.
Qed.

(** X9.  A call returns a value only after the restoration algorithm has
    run: true only when the algorithm ended with SUCCESS, false only when
    it ended with a status the dispatch does not name. *)
Theorem PerformRestoration_return_value w (b : bool) w' :
  PerformRestoration IPOPT_CHECKLEVEL WallclockTime CpuTime IpCq
    new_IpoptData resto_alg_Initialize resto_alg_Optimize
    least_square_mults w = (Returns b, w') →
  ∃ sq o w1 st rd w2,
    enter_restoration IPOPT_CHECKLEVEL WallclockTime CpuTime IpCq w
    = (Returns (sq, o), w1)
    ∧ solve_resto_problem new_IpoptData resto_alg_Initialize
        resto_alg_Optimize o w1 = (Returns (st, rd), w2)
    ∧ if b then st = SUCCESS else ∃ tag, st = OTHER_STATUS tag.
Proof.
  intros Hrun.
  destruct (enter_restoration IPOPT_CHECKLEVEL WallclockTime CpuTime IpCq w)
    as [[[sq o] | e | |] w1] eqn:He;
    try (exfalso; revert Hrun; unfold PerformRestoration, mbind, M_bind;
         rewrite He; discriminate).
  destruct (solve_resto_problem_Returns o w1) as (st & rd & d' & _ & Hs).
  exists sq, o, w1, st, rd. eexists. split; [reflexivity |].
  split; [exact Hs |].
  rewrite (PerformRestoration_phases _ _ _ _ _ _ _ He Hs) in Hrun.
  revert Hrun. unfold mbind, M_bind, mret, M_ret.
  destruct (copy_resto_curr_on_failure st rd _) as [[[] | ? | |] w3];
    try discriminate.
  destruct (classify_resto_status IpCq sq st w3) as [[r | ? | |] w3']
    eqn:Hcl; try discriminate.
  apply classify_resto_status_Returns in Hcl as [[-> ->] | [-> [tag ->]]];
    simpl.
  - destruct (take_over_resto_result _ _ _ _ _) as [[[] | ? | |] ?];
      intros [= <- <-] || discriminate. reflexivity.
  - intros [= <- <-]. eauto.
Qed.

(** X10.  When the data of the restoration problem holds no current
    iterate: after a failure nothing is copied, the call ends in the state
    the algorithm left; after SUCCESS the iterate is dereferenced without
    the test of line 199, and the call ends there, at an invalid pointer,
    before anything is written. *)
Theorem PerformRestoration_no_resto_iterate w sq o w1 st rd w2 :
  enter_restoration IPOPT_CHECKLEVEL WallclockTime CpuTime IpCq w
  = (Returns (sq, o), w1) →
  solve_resto_problem new_IpoptData resto_alg_Initialize resto_alg_Optimize
    o w1 = (Returns (st, rd), w2) →
  IpoptData.curr rd = None →
  (st = SUCCESS →
   PerformRestoration IPOPT_CHECKLEVEL WallclockTime CpuTime IpCq
     new_IpoptData resto_alg_Initialize resto_alg_Optimize
     least_square_mults w = (InvalidPointer, w2))
  ∧ (st ≠ SUCCESS →
     (PerformRestoration IPOPT_CHECKLEVEL WallclockTime CpuTime IpCq
        new_IpoptData resto_alg_Initialize resto_alg_Optimize
        least_square_mults w).2 = w2).
Proof.
  intros He Hs Hrc.
  rewrite (PerformRestoration_phases _ _ _ _ _ _ _ He Hs).
  rewrite (bind_Returns _ _ _ _ _
             (copy_resto_curr_on_failure_None st rd w2 (or_intror Hrc))).
  split.
  - intros ->. unfold classify_resto_status, take_over_resto_result.
    unfold_M. simpl. rewrite Hrc. reflexivity.
  - intros Hst.
    destruct (classify_resto_status_failure sq st w2 Hst) as [[e Hcl] | Hcl].
    + now rewrite (bind_Throws _ _ _ _ _ Hcl).
    + now rewrite (bind_Returns _ _ _ _ _ Hcl).
Qed.

(** X11.  The iteration count runs on through a restoration phase, as long
    as the counts stay within the range of an Index (the outer count below
    the largest Index, the count of the restoration data above the
    smallest).  The algorithm starts on data whose iteration count is the
    outer one plus one; when the call returns true the outer count is the
    count of the restoration data less one, so that an algorithm that adds
    k to the count it is given leaves the outer count advanced by k.  The
    next line of output is then skipped, and the counters of the output
    (iterations since the header, time of the last output) are those of
    the restoration data. *)
Theorem PerformRestoration_iteration_count w sq o w1 st rd w2 w' :
  enter_restoration IPOPT_CHECKLEVEL WallclockTime CpuTime IpCq w
  = (Returns (sq, o), w1) →
  solve_resto_problem new_IpoptData resto_alg_Initialize resto_alg_Optimize
    o w1 = (Returns (st, rd), w2) →
  PerformRestoration IPOPT_CHECKLEVEL WallclockTime CpuTime IpCq
    new_IpoptData resto_alg_Initialize resto_alg_Optimize
    least_square_mults w = (Returns true, w') →
  (Index_min ≤ IpoptData.iter_count (IpData w) < Index_max)%Z →
  (Index_min < IpoptData.iter_count rd ≤ Index_max)%Z →
  ∃ seed,
    resto_alg_Optimize true o (IpData w) seed = (st, rd, IpData w2)
    ∧ IpoptData.iter_count seed = (IpoptData.iter_count (IpData w) + 1)%Z
    ∧ (Index_min ≤ IpoptData.iter_count seed ≤ Index_max)%Z
    ∧ IpoptData.iter_count (IpData w') = (IpoptData.iter_count rd - 1)%Z
    ∧ (Index_min ≤ IpoptData.iter_count (IpData w') ≤ Index_max)%Z
    ∧ (∀ k : Z,
         IpoptData.iter_count rd = (IpoptData.iter_count seed + k)%Z →
         IpoptData.iter_count (IpData w')
         = (IpoptData.iter_count (IpData w) + k)%Z)
    ∧ IpoptData.info_skip_output (IpData w') = true
    ∧ IpoptData.info_iters_since_header (IpData w')
      = IpoptData.info_iters_since_header rd
    ∧ IpoptData.info_last_output (IpData w')
      = IpoptData.info_last_output rd.
Proof.
  intros He Hs Hrun Houter Hresto.
  destruct (enter_restoration_data w) as [Hd _]. rewrite He in Hd.
  simpl in Hd.
  destruct (solve_resto_problem_Returns o w1) as (st' & rd' & d' & Ho & Hs').
  pose proof Hs as Hs2. rewrite Hs' in Hs2. injection Hs2 as -> -> <-.
  rewrite Hd in Ho. eexists. split; [exact Ho |].
  split; [reflexivity |]. split; [simpl; lia |].
  assert (IpoptData.iter_count (IpData w')
          = (IpoptData.iter_count rd - 1)%Z
          ∧ IpoptData.info_skip_output (IpData w') = true
          ∧ IpoptData.info_iters_since_header (IpData w')
            = IpoptData.info_iters_since_header rd
          ∧ IpoptData.info_last_output (IpData w')
            = IpoptData.info_last_output rd) as (Hn & Hskip & Hh & Hl).
  { rewrite (PerformRestoration_phases _ _ _ _ _ _ _ He Hs) in Hrun.
    revert Hrun. unfold mbind at 1 2, M_bind at 1 2.
    destruct (copy_resto_curr_on_failure _ rd _) as [[[] | ? | |] w3];
      try discriminate.
    destruct (classify_resto_status IpCq sq _ w3) as [[r | ? | |] w3'];
      try discriminate.
    case_bool_decide; [| discriminate].
    unfold take_over_resto_result. unfold_M. simpl.
    repeat (case_match; simplify_eq; simpl); intros; simplify_eq;
      repeat split. }
  split; [exact Hn |]. split; [rewrite Hn; lia |].
  split; [| now repeat split].
  intros k Hk. rewrite Hn, Hk. simpl. lia.
Qed.

(** X12.  What an exception of a call tells: FEASIBILITY_PROBLEM_SOLVED is
    thrown on square problems only, and
    RESTORATION_CONVERGED_TO_FEASIBLE_POINT only when the primal
    infeasibility (max-norm) of the outer data, as the call leaves them, is
    at most resto_failure_feasibility_threshold_. *)
Theorem PerformRestoration_exception w e w' :
  PerformRestoration IPOPT_CHECKLEVEL WallclockTime CpuTime IpCq
    new_IpoptData resto_alg_Initialize resto_alg_Optimize
    least_square_mults w = (Throws e, w') →
  (e = FEASIBILITY_PROBLEM_SOLVED → IsSquareProblem IpCq = true)
  ∧ (e = RESTORATION_CONVERGED_TO_FEASIBLE_POINT →
     curr_primal_infeasibility IpCq NORM_MAX (IpData w')
     ≤ resto_failure_feasibility_threshold_ (self w)).
Proof.
  intros Hrun.
  assert (same_settings w
            (PerformRestoration IPOPT_CHECKLEVEL WallclockTime CpuTime IpCq
               new_IpoptData resto_alg_Initialize resto_alg_Optimize
               least_square_mults w).2)
    as (_ & _ & _ & _ & _ & _ & Hthr)
    by apply PerformRestoration_settings.
  rewrite Hrun in Hthr. simpl in Hthr. rewrite <- Hthr.
  destruct (enter_restoration IPOPT_CHECKLEVEL WallclockTime CpuTime IpCq w)
    as [[[sq o] | e0 | |] w1] eqn:He.
  - destruct (enter_restoration_Returns _ _ _ _ He) as (Hsq & _ & _).
    destruct (solve_resto_problem_Returns o w1) as (st & rd & d' & _ & Hs).
    rewrite (PerformRestoration_phases _ _ _ _ _ _ _ He Hs) in Hrun.
    revert Hrun. unfold mbind, M_bind, mret, M_ret.
    destruct (copy_resto_curr_on_failure st rd _) as [[[] | ? | |] w3] eqn:Hc;
      try discriminate.
    2: { intros _.
         destruct (copy_resto_curr_on_failure_Throws _ _ _ _ _ Hc). }
    pose proof (classify_resto_status_world sq st w3) as Hw.
    destruct (classify_resto_status IpCq sq st w3) as [[r | e1 | |] w3']
      eqn:Hcl; try discriminate; simpl in Hw; subst w3'.
    + case_bool_decide; [| discriminate].
      destruct (take_over_resto_result _ _ _ _ _) as [[[] | e2 | |] w4]
        eqn:Ht; try discriminate.
      intros [= <- <-].
      apply take_over_resto_result_Throws in Ht as [-> ->].
      split; [now intros _ | discriminate].
    + intros [= <- <-].
      destruct (classify_resto_status_Throws _ _ _ _ _ Hcl) as [H1 H2].
      split; [| exact H2]. intros Heq. rewrite <- Hsq. now apply H1.
  - apply enter_restoration_stops in He as Hwhy.
    revert Hrun. unfold PerformRestoration, mbind, M_bind. rewrite He.
    intros [= <- <-].
    destruct Hwhy as [(-> & _) | (-> & _)]; split; discriminate.
  - revert Hrun. unfold PerformRestoration, mbind, M_bind. rewrite He.
    discriminate.
  - revert Hrun. unfold PerformRestoration, mbind, M_bind. rewrite He.
    discriminate.
Qed.

(** X13.  Why a call does not get to the restoration problem.  An
    exception at the entry is that of a time limit below 1e20 which the
    elapsed time has reached; a failed debug check means a build with
    IPOPT_CHECKLEVEL > 0 and a constraint violation that is not positive
    or an elapsed time that is negative; no pointer is dereferenced. *)
Theorem enter_restoration_outcome w (out : Outcome (bool * OptionsList)) w1 :
  enter_restoration IPOPT_CHECKLEVEL WallclockTime CpuTime IpCq w
  = (out, w1) →
  match out with
  | Returns (sq, _) => sq = IsSquareProblem IpCq
  | Throws e =>
      (e = RESTORATION_WALLTIME_EXCEEDED
       ∧ max_wall_time_ (self w) < num_1e20
       ∧ max_wall_time_ (self w)
         ≤ WallclockTime - IpoptData.StartWallclockTime (IpData w))
      ∨ (e = RESTORATION_CPUTIME_EXCEEDED
         ∧ max_cpu_time_ (self w) < num_1e20
         ∧ max_cpu_time_ (self w)
           ≤ CpuTime - IpoptData.StartCpuTime (IpData w))
  | AssertionFailed =>
      (0 < IPOPT_CHECKLEVEL)%nat
      ∧ (curr_constraint_violation IpCq (IpData w) ≤ 0
         ∨ (max_wall_time_ (self w) < num_1e20
            ∧ WallclockTime - IpoptData.StartWallclockTime (IpData w) < 0)
         ∨ (max_cpu_time_ (self w) < num_1e20
            ∧ CpuTime - IpoptData.StartCpuTime (IpData w) < 0))
  | InvalidPointer => False
  end.
Proof. apply enter_restoration_stops. Qed.

(** X14.  A call changes none of the settings read by InitializeImpl: the
    two reset thresholds, expect_infeasible_problem_, constr_viol_tol_,
    the two time limits and the feasibility threshold are after the call,
    however it ends, what they were before. *)
Theorem PerformRestoration_keeps_settings w :
  same_settings w
    (PerformRestoration IPOPT_CHECKLEVEL WallclockTime CpuTime IpCq
       new_IpoptData resto_alg_Initialize resto_alg_Optimize
       least_square_mults w).2.
Proof. apply PerformRestoration_settings. Qed.

(** X15.  On a problem that is not square, a restoration problem that
    ends with SUCCESS makes the call return true, when the restoration data
    holds a current iterate and the outer data a current and a trial one.
    Only the primal and slack blocks of the restoration iterate are put into
    the trial point (the multipliers of the restoration problem are not);
    the bound multipliers are then updated, the multiplier estimator runs
    with constr_mult_reset_threshold_ on the data so obtained, and the
    counters are set last. *)
Theorem PerformRestoration_success_returns w sq o w1 rd w2 rc t c :
  IsSquareProblem IpCq = false →
  enter_restoration IPOPT_CHECKLEVEL WallclockTime CpuTime IpCq w
  = (Returns (sq, o), w1) →
  solve_resto_problem new_IpoptData resto_alg_Initialize resto_alg_Optimize
    o w1 = (Returns (SUCCESS, rd), w2) →
  IpoptData.curr rd = Some rc →
  IpoptData.trial (IpData w2) = Some t →
  IpoptData.curr (IpData w2) = Some c →
  let d3 :=
    IpoptData.set_trial (IpData w2)
      (IteratesVector.Set_primal t
         (first_comp (IteratesVector.x rc))
         (first_comp (IteratesVector.s rc))) in
  ∃ w4,
    update_bound_multipliers IpCq (with_IpData w2 d3) = (Returns (), w4)
    ∧ PerformRestoration IPOPT_CHECKLEVEL WallclockTime CpuTime IpCq
        new_IpoptData resto_alg_Initialize resto_alg_Optimize
        least_square_mults w
      = (Returns true,
         with_IpData w4
           (IpoptData.Set_info_last_output
              (IpoptData.Set_info_iters_since_header
                 (IpoptData.Set_info_skip_output
                    (IpoptData.Set_iter_count
                       (least_square_mults
                          (constr_mult_reset_threshold_ (self w))
                          (IpData w4))
                       (IpoptData.iter_count rd - 1)%Z)
                    true)
                 (IpoptData.info_iters_since_header rd))
              (IpoptData.info_last_output rd))).
Proof.
  intros Hsq He Hs Hrc Ht Hc d3.
  destruct (enter_restoration_Returns _ _ _ _ He) as (Hsq' & _ & _).
  rewrite Hsq in Hsq'.
  destruct (update_bound_multipliers_Returns (with_IpData w2 d3) c
              (IteratesVector.Set_primal t
                 (first_comp (IteratesVector.x rc))
                 (first_comp (IteratesVector.s rc))))
    as [w4 Hu]; [exact Hc | reflexivity |].
  exists w4. split; [exact Hu |].
  pose proof (settings_when_solved _ _ _ _ _ _ _ He Hs) as (Hthr & _).
  pose proof (update_bound_multipliers_object (with_IpData w2 d3)) as [H4 _].
  rewrite Hu in H4. simpl in H4.
  rewrite <- Hthr, <- H4.
  apply (PerformRestoration_success w sq o w1 rd w2 rc t w4 He Hs Hrc Ht
           (or_introl Hsq') Hu).
Qed.

(** ** The bound multipliers *)

(** X17.  Whatever the update of lines 366-411 computes, no bound
    multiplier of the trial point it leaves is larger in absolute value
    than the larger of bound_mult_reset_threshold_ and 1. *)
Theorem update_bound_multipliers_bound w w' t' (e : Number) :
  update_bound_multipliers IpCq w = (Returns (), w') →
  IpoptData.trial (IpData w') = Some t' →
  e ∈ IteratesVector.z_L t' ++ IteratesVector.z_U t'
      ++ IteratesVector.v_L t' ++ IteratesVector.v_U t' →
  Qcabs.Qcabs e ≤ Vec.Max (bound_mult_reset_threshold_ (self w)) 1.
Proof.
  unfold update_bound_multipliers, SetTrialBoundMultipliersFromStep.
  unfold_M. simpl.
  destruct (IpoptData.curr (IpData w)) as [c |] eqn:Hc;
    [| rewrite ?Hc; discriminate].
  simpl.
  destruct (IpoptData.trial (IpData w)) as [t |] eqn:Ht;
    [| rewrite ?Ht; discriminate].
  rewrite ?Hc, ?Ht. simpl. rewrite ?Hc, ?Ht. simpl.
  match goal with
  | |- context [Qcltb ?a ?b] => destruct (Qcltb a b) eqn:Hmax
  end; intros [= <-]; simpl; intros [= <-]; simpl.
  - rewrite !SetAll_replicate, !elem_of_app, !elem_of_replicate.
    intros H. assert (e = 1) as -> by (destruct H as [H | [H | [H | H]]];
                                        apply H).
    rewrite Qcabs.Qcabs_pos by (apply Qcleb_le; vm_compute; reflexivity).
    apply Max_r.
  - intros He. apply Qcltb_nlt in Hmax.
    etransitivity; [apply (Max4_Amax_ge _ _ _ _ _ He) |].
    etransitivity; [exact Hmax | apply Max_l].
Qed.

(** ** InitializeImpl *)

(** X18.  The options InitializeImpl stores for the restoration algorithm
    are a copy of the ones it is given in which resto.start_with_resto is
    no, whatever it was, and resto.theta_max_fact is 1e8 unless it is
    already set; every other option is as given. *)
Theorem InitializeImpl_resto_options
    (eq_mult_calculator_Initialize : option (OptionsList → string → bool))
    (options : OptionsList) (prefix : string) (w0 : World) :
  let stored :=
    resto_options_
      (self (InitializeImpl eq_mult_calculator_Initialize options prefix
               w0).2) in
  string_values stored !! "resto.start_with_resto" = Some "no"
  ∧ numeric_values stored !! "resto.theta_max_fact"
    = Some (default num_1e8
              (numeric_values options !! "resto.theta_max_fact"))
  ∧ (∀ k : string,
       k ≠ "resto.start_with_resto" →
       string_values stored !! k = string_values options !! k)
  ∧ (∀ k : string,
       k ≠ "resto.theta_max_fact" →
       numeric_values stored !! k = numeric_values options !! k)
  ∧ numeric_default stored = numeric_default options
  ∧ bool_default stored = bool_default options.
Proof.
  cbv zeta.
  unfold InitializeImpl, GetNumericValue, find_numeric, SetNumericValue,
    SetStringValue.
  unfold_M. simpl.
  change ("" +:+ "resto.theta_max_fact") with "resto.theta_max_fact".
  destruct (numeric_values options !! "resto.theta_max_fact") as [v |]
    eqn:Hv; simpl; rewrite ?Hv; simpl.
  all: (split; [apply lookup_insert_eq |]);
    (split; [first [reflexivity | apply lookup_insert_eq] |]);
    (split;
     [intros k Hk; rewrite ?lookup_insert_ne by congruence; reflexivity |]);
    (split;
     [intros k Hk; rewrite ?lookup_insert_ne by congruence; reflexivity |]);
    split; reflexivity.
Qed.

(** X19.  A value the options hold for
    resto_failure_feasibility_threshold (under the prefix, or else under
    the plain name) becomes the threshold as it is, and the tolerance tol
    plays no part. *)
Theorem resto_failure_feasibility_threshold_explicit
    (eq_mult_calculator_Initialize : option (OptionsList → string → bool))
    (options : OptionsList) (prefix : string) (w0 : World) (v : Number) :
  find_numeric options "resto_failure_feasibility_threshold" prefix
  = Some v →
  resto_failure_feasibility_threshold_
    (self (InitializeImpl eq_mult_calculator_Initialize options prefix w0).2)
  = v.
Proof.
  intros Hset. unfold InitializeImpl, GetNumericValue. unfold_M. simpl.
  now rewrite Hset.
Qed.

(** X20.  InitializeImpl returns what the initialisation of the multiplier
    calculator returns, and true when there is no calculator; it leaves
    the outer data alone and does not call the restoration algorithm; and
    it sets the call counter to 0, so that the call of PerformRestoration
    that follows is counted as the first, whatever the counter was. *)
Theorem InitializeImpl_then_PerformRestoration
    (eq_mult_calculator_Initialize : option (OptionsList → string → bool))
    (options : OptionsList) (prefix : string) (w0 : World) :
  let init :=
    InitializeImpl eq_mult_calculator_Initialize options prefix w0 in
  init.1
  = Returns match eq_mult_calculator_Initialize with
            | Some initialize => initialize options prefix
            | None => true
            end
  ∧ IpData init.2 = IpData w0
  ∧ resto_alg_calls init.2 = resto_alg_calls w0
  ∧ count_restorations_ (self init.2) = 0%Z
  ∧ count_restorations_
      (self (PerformRestoration IPOPT_CHECKLEVEL WallclockTime CpuTime IpCq
               new_IpoptData resto_alg_Initialize resto_alg_Optimize
               least_square_mults init.2).2)
    = 1%Z.
Proof.
  intros init.
  assert (count_restorations_ (self init.2) = 0%Z) as Hzero by reflexivity.
  repeat split; try reflexivity.
  destruct (PerformRestoration_after_entry init.2) as [-> _].
  destruct (enter_restoration_object init.2) as [-> _].
  now rewrite Hzero.
Qed.

End Call.

(** * The properties at work on the cases of [Scenario] *)

(** A statement about the collaborators, taken at those of a case. *)
Notation "thm 'at_case' c" :=
  (thm (Scenario.checklevel c) (Scenario.wall c) 0
     (Scenario.cq (Scenario.square c) (Scenario.viol c)
        (Scenario.trial_slack c))
     (Scenario.resto_data None) Scenario.alg_Initialize
     (Scenario.alg_Optimize (Scenario.status c) (Scenario.resto_curr c))
     Scenario.estimator (Scenario.initialized (Scenario.user c)))
  (at level 10, c at level 9, only parsing).

Ltac by_computation := vm_compute; reflexivity.

(** Stopped at a tiny step 5e-9 from feasibility, with the default
    threshold 1e2 * 1e-8: converged to a feasible point. *)
Lemma PerformRestoration_tiny_step_or_acceptable_witness :
  (Scenario.run Scenario.tiny_step_nearly_feasible).1
  = Throws RESTORATION_CONVERGED_TO_FEASIBLE_POINT.
Proof.
  unfold Scenario.run.
  rewrite (PerformRestoration_tiny_step_or_acceptable
             at_case Scenario.tiny_step_nearly_feasible
             false
             (Scenario.entered_options Scenario.tiny_step_nearly_feasible)
             (Scenario.entered Scenario.tiny_step_nearly_feasible).2
             STOP_AT_TINY_STEP
             (Scenario.solved_data Scenario.tiny_step_nearly_feasible)
             (Scenario.solved Scenario.tiny_step_nearly_feasible).2
             (Scenario.copied Scenario.tiny_step_nearly_feasible).2).
  - by_computation.
  - reflexivity.
  - by_computation.
  - by_computation.
  - left. reflexivity.
  - by_computation.
Defined.

(** A slack that stays at 4, with multiplier 2. *)
Lemma ComputeBoundMultiplierStep_entry_witness :
  ComputeBoundMultiplierStep Scenario.data []
    [Scenario.q 2 1] [Scenario.q 4 1] [Scenario.q 4 1] !! 0%nat
  = Some (IpoptData.curr_mu Scenario.data / Scenario.q 4 1
          - Scenario.q 2 1).
Proof.
  exact (proj2
           (ComputeBoundMultiplierStep_entry Scenario.data []
              [Scenario.q 2 1] [Scenario.q 4 1] [Scenario.q 4 1] 0%nat
              (Scenario.q 2 1) (Scenario.q 4 1) (Scenario.q 4 1)
              eq_refl eq_refl eq_refl)
           eq_refl).
Defined.

(** The wall-clock limit is reached at entry: the exception is thrown
    and the log of calls on the restoration algorithm stays empty. *)
Lemma PerformRestoration_time_exceeded_at_entry_witness :
  (Scenario.run Scenario.out_of_time).1
  = Throws RESTORATION_WALLTIME_EXCEEDED
  ∧ resto_alg_calls (Scenario.run Scenario.out_of_time).2 = [].
Proof.
  unfold Scenario.run.
  assert (max_wall_time_
            (self (Scenario.initialized
                     (Scenario.user Scenario.out_of_time))) < num_1e20
          ∧ max_wall_time_
              (self (Scenario.initialized
                       (Scenario.user Scenario.out_of_time)))
            ≤ Scenario.wall Scenario.out_of_time
              - IpoptData.StartWallclockTime
                  (IpData (Scenario.initialized
                             (Scenario.user Scenario.out_of_time))))
    as Hreached.
  { split; [apply Qcltb_lt | apply Qcleb_le]; by_computation. }
  destruct (PerformRestoration_time_exceeded_at_entry
              at_case Scenario.out_of_time)
    as (e & w' & Hrun & He & _ & Hlog & _).
  - apply Qcltb_lt. by_computation.
  - apply Qcleb_le. by_computation.
  - apply Qcleb_le. by_computation.
  - left. exact Hreached.
  - rewrite Hrun. simpl. rewrite Hlog, (He Hreached).
    split; [reflexivity | by_computation].
Defined.

(** A successful restoration phase with the reset threshold at 1 and a
    computed multiplier of 8/5: the call returns true and the lower bound
    multipliers of the variables end at 1. *)
Lemma PerformRestoration_bound_multipliers_witness :
  (Scenario.run Cases.success_with_reset).1 = Returns true
  ∧ (λ t, IteratesVector.z_L t) <$>
      IpoptData.trial (IpData (Scenario.run Cases.success_with_reset).2)
    = Some [1; 1].
Proof.
  pose proof (PerformRestoration_bound_multipliers
                at_case Cases.success_with_reset
                false
                (Scenario.entered_options Cases.success_with_reset)
                (Scenario.entered Cases.success_with_reset).2
                (Scenario.solved_data Cases.success_with_reset)
                (Scenario.solved Cases.success_with_reset).2
                Scenario.resto_iterate Scenario.iterate Scenario.iterate
                ltac:(by_computation) ltac:(by_computation)
                ltac:(by_computation) ltac:(by_computation)
                ltac:(by_computation) (or_introl eq_refl)) as H.
  cbv zeta in H.
  destruct H as (t' & Hrun & _ & _ & _ & _ & Hreset & _).
  unfold Scenario.run. rewrite Hrun. split; [reflexivity |].
  destruct Hreset as (Hz & _).
  - eexists. split.
    + apply (list_elem_of_lookup_2 _ 1%nat). reflexivity.
    + apply Qcltb_lt. by_computation.
  - cbn. rewrite Hz. by_computation.
Defined.

(** Three square problems: 1e-9 from feasibility after a successful
    restoration phase; still at a violation of 1 after one; 1e-9 from
    feasibility at an acceptable point. *)
Lemma PerformRestoration_square_problem_witness :
  (Scenario.run Cases.square_success_feasible).1
  = Throws FEASIBILITY_PROBLEM_SOLVED
  ∧ (Scenario.run Scenario.square_still_infeasible).1 = Returns true
  ∧ (Scenario.run Scenario.square_acceptable).1
    = Throws FEASIBILITY_PROBLEM_SOLVED.
Proof.
  split; [| split].
  - unfold Scenario.run.
    rewrite (proj1
               (proj1
                  (PerformRestoration_square_problem
                     at_case Cases.square_success_feasible
                     true
                     (Scenario.entered_options Cases.square_success_feasible)
                     (Scenario.entered Cases.square_success_feasible).2
                     SUCCESS
                     (Scenario.solved_data Cases.square_success_feasible)
                     (Scenario.solved Cases.square_success_feasible).2
                     eq_refl ltac:(by_computation) ltac:(by_computation))
                  Scenario.resto_iterate Scenario.iterate
                  eq_refl ltac:(by_computation) ltac:(by_computation))
               ltac:(apply Qcleb_le; by_computation)).
    reflexivity.
  - unfold Scenario.run.
    destruct (proj2
                (proj1
                   (PerformRestoration_square_problem
                      at_case Scenario.square_still_infeasible
                      true
                      (Scenario.entered_options
                         Scenario.square_still_infeasible)
                      (Scenario.entered Scenario.square_still_infeasible).2
                      SUCCESS
                      (Scenario.solved_data Scenario.square_still_infeasible)
                      (Scenario.solved Scenario.square_still_infeasible).2
                      eq_refl ltac:(by_computation) ltac:(by_computation))
                   Scenario.resto_iterate Scenario.iterate
                   eq_refl ltac:(by_computation) ltac:(by_computation))
                ltac:(apply Qcltb_lt; by_computation)
                (ex_intro
                   (λ c,
                      IpoptData.curr
                        (IpData
                           (Scenario.solved
                              Scenario.square_still_infeasible).2)
                      = Some c)
                   Scenario.iterate ltac:(by_computation)))
      as (w4 & _ & Hrun).
    rewrite Hrun. reflexivity.
  - unfold Scenario.run.
    rewrite (proj2
               (PerformRestoration_square_problem
                  at_case Scenario.square_acceptable
                  true
                  (Scenario.entered_options Scenario.square_acceptable)
                  (Scenario.entered Scenario.square_acceptable).2
                  STOP_AT_ACCEPTABLE_POINT
                  (Scenario.solved_data Scenario.square_acceptable)
                  (Scenario.solved Scenario.square_acceptable).2
                  eq_refl ltac:(by_computation) ltac:(by_computation))
               (Scenario.copied Scenario.square_acceptable).2
               eq_refl ltac:(by_computation)
               ltac:(apply Qcltb_lt; by_computation)).
    reflexivity.
Defined.

(** A square problem is reported as an ordinary success although its
    violation, 1, exceeds constr_viol_tol_, 1e-6. *)
Lemma square_success_despite_violation :
  IsSquareProblem (Scenario.cq true 1 (Scenario.q 1 2)) = true
  ∧ constr_viol_tol_ (self (Scenario.run Scenario.square_still_infeasible).2)
    < unscaled_curr_nlp_constraint_violation
        (Scenario.cq true 1 (Scenario.q 1 2)) NORM_MAX
        (IpData (Scenario.run Scenario.square_still_infeasible).2)
  ∧ (Scenario.run Scenario.square_still_infeasible).1 = Returns true.
Proof.
  split; [reflexivity |]. split; [apply Qcltb_lt |]; by_computation.
Qed.

(** Nothing set by the user: the restoration algorithm reads 0. *)
Lemma PerformRestoration_square_options_witness :
  GetNumericValue (Scenario.entered_options Scenario.square_acceptable)
    "required_infeasibility_reduction" "resto." = (true, 0)
  ∧ Scenario.passed_options
      (resto_alg_calls (Scenario.run Scenario.square_acceptable).2)
    = [Scenario.entered_options Scenario.square_acceptable].
Proof.
  destruct (PerformRestoration_square_options
              at_case Scenario.square_acceptable
              true
              (Scenario.entered_options Scenario.square_acceptable)
              (Scenario.entered Scenario.square_acceptable).2
              eq_refl ltac:(by_computation)) as [-> Hlog].
  split; [by_computation |].
  unfold Scenario.run. rewrite Hlog. by_computation.
Defined.

(** The user has set required_infeasibility_reduction to 1/2: on a square
    problem the restoration algorithm is given 1/2, not 0. *)
Lemma square_options_keep_user_value :
  Scenario.square Scenario.square_with_user_reduction = true
  ∧ (λ o, GetNumericValue o "required_infeasibility_reduction" "resto.")
      <$> Scenario.passed_options
            (resto_alg_calls
               (Scenario.run Scenario.square_with_user_reduction).2)
    = [(true, Scenario.q 1 2)]
  ∧ 0 < Scenario.q 1 2.
Proof.
  split; [reflexivity |]. split; [| apply Qcltb_lt]; by_computation.
Qed.

(** Out of iterations: the outer current iterate is made of the first
    blocks of the restoration iterate. *)
Lemma PerformRestoration_failure_keeps_resto_iterate_witness :
  IpoptData.curr (IpData (Scenario.run Scenario.out_of_iterations).2)
  = Some (first_blocks Scenario.resto_iterate).
Proof.
  pose proof (PerformRestoration_failure_keeps_resto_iterate
                at_case Scenario.out_of_iterations
                false
                (Scenario.entered_options Scenario.out_of_iterations)
                (Scenario.entered Scenario.out_of_iterations).2
                MAXITER_EXCEEDED
                (Scenario.solved_data Scenario.out_of_iterations)
                (Scenario.solved Scenario.out_of_iterations).2
                Scenario.resto_iterate Scenario.iterate
                ltac:(by_computation) ltac:(by_computation)
                ltac:(discriminate)
                ltac:(by_computation) ltac:(by_computation)) as H.
  cbv zeta in H. destruct H as (_ & Hcurr & Hrun & _).
  unfold Scenario.run. rewrite Hrun. exact Hcurr.
Defined.

(** The user sets no threshold: it is 1e2 * tol. *)
Lemma resto_failure_feasibility_threshold_default_witness :
  resto_failure_feasibility_threshold_
    (self (Scenario.initialized Scenario.user_tolerances))
  = num_1e2 * IpoptData.tol Scenario.data.
Proof.
  exact (proj1
           (resto_failure_feasibility_threshold_default
              1%nat 0 0 (Scenario.cq false 1 1) (Scenario.resto_data None)
              Scenario.alg_Initialize (Scenario.alg_Optimize SUCCESS None)
              Scenario.estimator
              None (Scenario.options Scenario.user_tolerances) ""
              Scenario.fresh ltac:(by_computation))).
Defined.

(** With debug checks, a call at a feasible point stops at the
    assertion. *)
Lemma PerformRestoration_asserts_positive_violation_witness :
  (Scenario.run (Scenario.feasible_at_entry 1)).1 = AssertionFailed.
Proof.
  unfold Scenario.run.
  rewrite (PerformRestoration_asserts_positive_violation
             at_case (Scenario.feasible_at_entry 1)).
  - reflexivity.
  - apply Nat.lt_0_1.
  - apply Qcleb_le. by_computation.
Defined.

(** Without debug checks, a call made with zero constraint violation
    returns true. *)
Lemma unchecked_build_returns_despite_zero_violation :
  curr_constraint_violation (Scenario.cq false 0 (Scenario.q 1 2))
    (IpData (Scenario.initialized Scenario.user_tolerances)) = 0
  ∧ (Scenario.run (Scenario.feasible_at_entry 0)).1 = Returns true.
Proof. split; [reflexivity | by_computation]. Qed.

(** A status the dispatch does not name: the call returns false. *)
Lemma PerformRestoration_other_status_witness :
  (Scenario.run Scenario.unnamed_status).1 = Returns false.
Proof.
  unfold Scenario.run.
  rewrite (PerformRestoration_other_status
             at_case Scenario.unnamed_status
             false
             (Scenario.entered_options Scenario.unnamed_status)
             (Scenario.entered Scenario.unnamed_status).2
             3%nat
             (Scenario.solved_data Scenario.unnamed_status)
             (Scenario.solved Scenario.unnamed_status).2).
  - reflexivity.
  - by_computation.
  - by_computation.
  - right. exists Scenario.iterate. by_computation.
Defined.

(** ** Further runs *)

(** The same tiny step, 5 away from feasibility: local infeasibility. *)
Example tiny_step_far_from_feasible :
  (Scenario.run
     {| Scenario.checklevel := 1; Scenario.wall := Scenario.q 5 1;
        Scenario.user := Scenario.user_tolerances;
        Scenario.square := false; Scenario.viol := Scenario.q 5 1;
        Scenario.trial_slack := 1;
        Scenario.status := STOP_AT_TINY_STEP;
        Scenario.resto_curr := Some Scenario.resto_iterate |}).1
  = Throws LOCALLY_INFEASIBLE.
Proof. by_computation. Qed.

(** A successful restoration phase on a non-square problem, entered with
    violation 0.01: the call returns true, the trial point has the primal
    and slack blocks of the restoration iterate, and the bound multipliers
    of the step stay, the largest being 8/5 with the default threshold
    1e3.  The stub algorithm makes no iteration, so the iteration count is
    the 7 of the entry. *)
Example successful_restoration :
  let r :=
    Scenario.run
      {| Scenario.checklevel := 1; Scenario.wall := Scenario.q 5 1;
         Scenario.user := Scenario.user_tolerances;
         Scenario.square := false; Scenario.viol := Scenario.q 1 100;
         Scenario.trial_slack := Scenario.q 1 2;
         Scenario.status := SUCCESS;
         Scenario.resto_curr := Some Scenario.resto_iterate |} in
  r.1 = Returns true
  ∧ (λ t, (Scenario.entries (IteratesVector.x t),
           Scenario.entries (IteratesVector.s t),
           Scenario.entries (IteratesVector.z_L t),
           Scenario.entries (IteratesVector.z_U t),
           Scenario.entries (IteratesVector.v_L t),
           Scenario.entries (IteratesVector.v_U t)))
      <$> IpoptData.trial (IpData r.2)
    = Some ([3 # 1; 4 # 1], [5 # 1], [3 # 5; 8 # 5], [7 # 20], [11 # 10],
            [3 # 5])%Q
  ∧ IpoptData.iter_count (IpData r.2) = 7%Z
  ∧ count_restorations_ (self r.2) = 1%Z.
Proof. repeat split; by_computation. Qed.

(** An inner solve that ends at an acceptable point far from feasibility on
    a square problem is a local infeasibility, not a solved problem. *)
Example square_acceptable_far_from_feasible :
  (Scenario.run
     {| Scenario.checklevel := 1; Scenario.wall := Scenario.q 5 1;
        Scenario.user := Scenario.user_tolerances;
        Scenario.square := true; Scenario.viol := Scenario.q 5 1;
        Scenario.trial_slack := 1;
        Scenario.status := STOP_AT_ACCEPTABLE_POINT;
        Scenario.resto_curr := Some Scenario.resto_iterate |}).1
  = Throws LOCALLY_INFEASIBLE.
Proof. by_computation. Qed.

(** ** The further properties at work *)

(** The first call after InitializeImpl is counted as 1. *)
Lemma PerformRestoration_counts_every_call_witness :
  count_restorations_ (self (Scenario.run Scenario.out_of_iterations).2)
  = 1%Z.
Proof.
  unfold Scenario.run.
  rewrite (proj1
             (PerformRestoration_counts_every_call
                at_case Scenario.out_of_iterations
                ltac:(vm_compute; split;
                      first [reflexivity | discriminate]))).
  by_computation.
Defined.

(** The user's constr_viol_tol is in the stored options after a call as
    before. *)
Lemma PerformRestoration_stored_options_witness :
  numeric_values
    (resto_options_ (self (Scenario.run Scenario.out_of_iterations).2))
  !! "constr_viol_tol"
  = numeric_values
      (resto_options_
         (self (Scenario.initialized
                  (Scenario.user Scenario.out_of_iterations))))
    !! "constr_viol_tol"
  ∧ string_values
      (resto_options_ (self (Scenario.run Scenario.out_of_iterations).2))
    = string_values
        (resto_options_
           (self (Scenario.initialized
                    (Scenario.user Scenario.out_of_iterations)))).
Proof.
  exact (PerformRestoration_stored_options
           at_case Scenario.out_of_iterations "constr_viol_tol"
           ltac:(discriminate) ltac:(discriminate)).
Defined.

(** With a limit of 8 and 5 elapsed, the wall-clock limit of the
    restoration algorithm is set to 8 - 5, and the options so stored are
    the ones the algorithm is initialised with. *)
Lemma PerformRestoration_remaining_time_witness :
  resto_options_ (self (Scenario.run Cases.within_time_limit).2)
  = SetNumericValue
      (resto_options_
         (self (Scenario.initialized
                  (Scenario.user Cases.within_time_limit))))
      "resto.max_wall_time" (Scenario.q 8 1 - (Scenario.q 5 1 - 0))
  ∧ resto_alg_calls (Scenario.run Cases.within_time_limit).2
    = [CallInitialize
         (resto_options_ (self (Scenario.run Cases.within_time_limit).2))
         "resto.";
       CallOptimize true].
Proof.
  pose proof (PerformRestoration_remaining_time
                at_case Cases.within_time_limit
                false
                (Scenario.entered_options Cases.within_time_limit)
                (Scenario.entered Cases.within_time_limit).2
                ltac:(by_computation)) as H.
  cbv zeta in H. destruct H as (Hstored & _ & _ & Hcalls & _).
  unfold Scenario.run. rewrite Hcalls, Hstored. split; by_computation.
Defined.

(** In the first call, 1/100 from feasibility, the algorithm is told not
    to expect an infeasible problem and is asked for a reduction of the
    infeasibility to 1e-3. *)
Lemma PerformRestoration_expecting_infeasibility_witness :
  string_values Cases.expecting_entered_options
  !! "resto.expect_infeasible_problem" = Some "no"
  ∧ numeric_values Cases.expecting_entered_options
    !! "required_infeasibility_reduction" = Some num_1em3.
Proof.
  destruct (PerformRestoration_expecting_infeasibility
              1%nat (Scenario.q 5 1) 0
              (Scenario.cq false (Scenario.q 1 100) 1)
              (Scenario.resto_data None) Scenario.alg_Initialize
              (Scenario.alg_Optimize MAXITER_EXCEEDED
                 (Some Scenario.resto_iterate))
              Scenario.estimator
              Cases.expecting false Cases.expecting_entered_options
              Cases.expecting_entered.2
              eq_refl ltac:(by_computation) ltac:(by_computation))
    as (_ & Hstring & Hfirst & _).
  split.
  - rewrite Hstring. by_computation.
  - rewrite Hfirst.
    + by_computation.
    + by_computation.
    + apply Qcltb_lt. by_computation.
Defined.

(** With a limit of 8 and 5 elapsed the algorithm is called. *)
Lemma PerformRestoration_within_time_witness :
  ∃ o,
    resto_alg_calls (Scenario.run Cases.within_time_limit).2
    = [CallInitialize o "resto."; CallOptimize true].
Proof.
  destruct (PerformRestoration_within_time at_case Cases.within_time_limit)
    as (o & w1 & He & Hcalls).
  - apply Qcltb_lt. by_computation.
  - apply Qcleb_le. by_computation.
  - apply Qcleb_le. by_computation.
  - intros _. apply Qcleb_nle. by_computation.
  - intros _. apply Qcleb_nle. by_computation.
  - exists o. unfold Scenario.run. rewrite Hcalls. by_computation.
Defined.

(** Out of iterations. *)
Lemma PerformRestoration_named_failure_witness :
  (Scenario.run Scenario.out_of_iterations).1
  = Throws RESTORATION_MAXITER_EXCEEDED.
Proof.
  unfold Scenario.run.
  rewrite (proj1
             (PerformRestoration_named_failure
                at_case Scenario.out_of_iterations
                false
                (Scenario.entered_options Scenario.out_of_iterations)
                (Scenario.entered Scenario.out_of_iterations).2
                MAXITER_EXCEEDED
                (Scenario.solved_data Scenario.out_of_iterations)
                (Scenario.solved Scenario.out_of_iterations).2
                (Scenario.copied Scenario.out_of_iterations).2
                ltac:(by_computation) ltac:(by_computation)
                ltac:(by_computation))
             eq_refl).
  reflexivity.
Defined.

(** A square problem stopped at a tiny step 5e-9 from feasibility, with
    the default threshold 1e2 * 1e-8. *)
Lemma PerformRestoration_square_not_solved_witness :
  (Scenario.run Cases.square_tiny_step).1
  = Throws RESTORATION_CONVERGED_TO_FEASIBLE_POINT.
Proof.
  unfold Scenario.run.
  rewrite (PerformRestoration_square_not_solved
             at_case Cases.square_tiny_step
             true
             (Scenario.entered_options Cases.square_tiny_step)
             (Scenario.entered Cases.square_tiny_step).2
             STOP_AT_TINY_STEP
             (Scenario.solved_data Cases.square_tiny_step)
             (Scenario.solved Cases.square_tiny_step).2
             (Scenario.copied Cases.square_tiny_step).2).
  - by_computation.
  - reflexivity.
  - by_computation.
  - by_computation.
  - by_computation.
  - left. reflexivity.
Defined.

(** The call that returns false had a status without a name. *)
Lemma PerformRestoration_return_value_witness :
  ∃ sq o w1 st rd w2,
    Scenario.entered Scenario.unnamed_status = (Returns (sq, o), w1)
    ∧ solve_resto_problem (Scenario.resto_data None) Scenario.alg_Initialize
        (Scenario.alg_Optimize (Scenario.status Scenario.unnamed_status)
           (Scenario.resto_curr Scenario.unnamed_status))
        o w1
      = (Returns (st, rd), w2)
    ∧ ∃ tag, st = OTHER_STATUS tag.
Proof.
  exact (PerformRestoration_return_value
           at_case Scenario.unnamed_status false
           (Scenario.run Scenario.unnamed_status).2
           ltac:(by_computation)).
Defined.

(** SUCCESS without an iterate. *)
Lemma PerformRestoration_no_resto_iterate_witness :
  (Scenario.run Cases.success_without_iterate).1 = InvalidPointer.
Proof.
  unfold Scenario.run.
  rewrite (proj1
             (PerformRestoration_no_resto_iterate
                at_case Cases.success_without_iterate
                false
                (Scenario.entered_options Cases.success_without_iterate)
                (Scenario.entered Cases.success_without_iterate).2
                SUCCESS
                (Scenario.solved_data Cases.success_without_iterate)
                (Scenario.solved Cases.success_without_iterate).2
                ltac:(by_computation) ltac:(by_computation)
                ltac:(by_computation))
             eq_refl).
  reflexivity.
Defined.

(** The algorithm of the cases makes no iteration: the count of 7 is
    passed on as 8 and comes back as 7. *)
Lemma PerformRestoration_iteration_count_witness :
  IpoptData.iter_count (IpData (Scenario.run Cases.success).2) = 7%Z
  ∧ IpoptData.info_skip_output (IpData (Scenario.run Cases.success).2)
    = true.
Proof.
  destruct (PerformRestoration_iteration_count
              at_case Cases.success
              false
              (Scenario.entered_options Cases.success)
              (Scenario.entered Cases.success).2
              SUCCESS
              (Scenario.solved_data Cases.success)
              (Scenario.solved Cases.success).2
              (Scenario.run Cases.success).2
              ltac:(by_computation) ltac:(by_computation)
              ltac:(by_computation)
              ltac:(vm_compute; split; first [reflexivity | discriminate])
              ltac:(vm_compute; split; first [reflexivity | discriminate]))
    as (seed & _ & _ & _ & Hcount & _ & _ & Hskip & _).
  split; [rewrite Hcount; by_computation | exact Hskip].
Defined.

(** The call that reports convergence to a feasible point leaves data
    5e-9 from feasibility, within the threshold 1e-6. *)
Lemma PerformRestoration_exception_witness :
  (Scenario.run Scenario.tiny_step_nearly_feasible).1
  = Throws RESTORATION_CONVERGED_TO_FEASIBLE_POINT
  ∧ curr_primal_infeasibility
      (Scenario.cq false (Scenario.q 5 1000000000) 1) NORM_MAX
      (IpData (Scenario.run Scenario.tiny_step_nearly_feasible).2)
    ≤ resto_failure_feasibility_threshold_
        (self (Scenario.initialized
                 (Scenario.user Scenario.tiny_step_nearly_feasible))).
Proof.
  split; [by_computation |].
  exact (proj2
           (PerformRestoration_exception
              at_case Scenario.tiny_step_nearly_feasible
              RESTORATION_CONVERGED_TO_FEASIBLE_POINT
              (Scenario.run Scenario.tiny_step_nearly_feasible).2
              ltac:(by_computation))
           eq_refl).
Defined.

(** The debug check of a build with IPOPT_CHECKLEVEL = 1 stops a call at a
    feasible point. *)
Lemma enter_restoration_outcome_witness :
  (0 < 1)%nat
  ∧ (curr_constraint_violation (Scenario.cq false 0 (Scenario.q 1 2))
       (IpData (Scenario.initialized Scenario.user_tolerances)) ≤ 0
     ∨ (max_wall_time_ (self (Scenario.initialized Scenario.user_tolerances))
        < num_1e20
        ∧ Scenario.q 5 1
          - IpoptData.StartWallclockTime
              (IpData (Scenario.initialized Scenario.user_tolerances)) < 0)
     ∨ (max_cpu_time_ (self (Scenario.initialized Scenario.user_tolerances))
        < num_1e20
        ∧ 0 - IpoptData.StartCpuTime
                (IpData (Scenario.initialized Scenario.user_tolerances))
          < 0)).
Proof.
  exact (enter_restoration_outcome
           1%nat (Scenario.q 5 1) 0 (Scenario.cq false 0 (Scenario.q 1 2))
           (Scenario.initialized Scenario.user_tolerances)
           AssertionFailed
           (Scenario.entered (Scenario.feasible_at_entry 1)).2
           ltac:(by_computation)).
Defined.

(** After the reset of [Scenario.before_update] the multipliers are 1,
    the threshold. *)
Lemma update_bound_multipliers_bound_witness :
  Qcabs.Qcabs 1
  ≤ Vec.Max (bound_mult_reset_threshold_ (self Scenario.before_update)) 1.
Proof.
  apply (update_bound_multipliers_bound
           (Scenario.cq false 1 (Scenario.q 1 2))
           Scenario.before_update
           (update_bound_multipliers (Scenario.cq false 1 (Scenario.q 1 2))
              Scenario.before_update).2
           Cases.updated_trial 1).
  - by_computation.
  - by_computation.
  - apply elem_of_app. left.
    apply (list_elem_of_lookup_2 _ 0%nat). by_computation.
Defined.

(** The user's threshold of 1/4 is taken as it is. *)
Lemma resto_failure_feasibility_threshold_explicit_witness :
  resto_failure_feasibility_threshold_ (self Cases.expecting)
  = Scenario.q 1 4.
Proof.
  exact (resto_failure_feasibility_threshold_explicit None
           Cases.expecting_options "" Scenario.fresh (Scenario.q 1 4)
           ltac:(by_computation)).
Defined.

(** A successful restoration phase returns true. *)
Lemma PerformRestoration_success_returns_witness :
  (Scenario.run Cases.success).1 = Returns true.
Proof.
  unfold Scenario.run.
  destruct (PerformRestoration_success_returns
              at_case Cases.success
              false
              (Scenario.entered_options Cases.success)
              (Scenario.entered Cases.success).2
              (Scenario.solved_data Cases.success)
              (Scenario.solved Cases.success).2
              Scenario.resto_iterate Scenario.iterate Scenario.iterate
              eq_refl ltac:(by_computation) ltac:(by_computation)
              ltac:(by_computation) ltac:(by_computation)
              ltac:(by_computation))
    as (w4 & _ & Hrun).
  rewrite Hrun. reflexivity.
Defined.
